(** * SecureCRT session automation: a shallow embedding of
      [securecrt_tools/sessions.py] and the properties of its
      device-interaction protocol.

    The module drives a network device through SecureCRT's scripting
    objects ([crt], [crt.Session], the tab's [Screen]).  Those objects are
    the host application's: here they are a scripted stand-in that answers
    every wait and read from a finite script and records every call, so
    that the Python methods of [CRTSession] can be run and what they send
    can be inspected. *)

From stdpp Require Import gmap strings list.
From Stdlib Require Import ZArith Ascii Lia.

Local Open Scope Z_scope.

(* ===================================================================== *)
(** * Python strings *)
(* ===================================================================== *)

(** A Python string is a [string]; its characters are [ascii] code units,
    those of code 128 and above standing for the characters that have no
    7-bit representation. *)
Module Py.

Definition CR : ascii := "013"%char.
Definition LF : ascii := "010"%char.
Definition BS : ascii := "008"%char.
Definition SP : ascii := " "%char.

(** ["\r\n"] and ["\n"]. *)
Definition CRLF : string := String CR (String LF EmptyString).
Definition NL : string := String LF EmptyString.

Definition len (s : string) : Z := Z.of_nat (String.length s).

(** [c in chars], for a character. *)
Fixpoint char_in (c : ascii) (chars : string) : bool :=
  match chars with
  | EmptyString => false
  | String a r => if Ascii.eqb c a then true else char_in c r
  end.

(** The characters [str.strip()] removes: space, tab, line feed, carriage
    return, vertical tab and form feed. *)
Definition whitespace : string :=
  String SP (String "009" (String LF (String CR (String "011" (String "012" EmptyString))))).

Fixpoint lstrip (chars s : string) : string :=
  match s with
  | EmptyString => EmptyString
  | String c r => if char_in c chars then lstrip chars r else s
  end.

Fixpoint rstrip (chars s : string) : string :=
  match s with
  | EmptyString => EmptyString
  | String c r =>
      match rstrip chars r with
      | EmptyString => if char_in c chars then EmptyString else String c EmptyString
      | r' => String c r'
      end
  end.

(** [s.strip(chars)] and [s.strip()]. *)
Definition strip_chars (chars s : string) : string := rstrip chars (lstrip chars s).
Definition strip (s : string) : string := strip_chars whitespace s.

(** [s[i]], negative indices counting from the end; [None] is Python's
    [IndexError]. *)
Definition getitem (s : string) (i : Z) : option ascii :=
  let j := if i <? 0 then i + len s else i in
  if (j <? 0) || (len s <=? j) then None else String.get (Z.to_nat j) s.

(** [s[:stop]]: the bound is counted from the end when negative and
    clipped to the string. *)
Definition slice_to (s : string) (stop : Z) : string :=
  let j := if stop <? 0 then stop + len s else stop in
  String.substring 0 (Z.to_nat (Z.min (Z.max j 0) (len s))) s.

Fixpoint startswith (p s : string) : bool :=
  match p, s with
  | EmptyString, _ => true
  | String a p', String b s' => if Ascii.eqb a b then startswith p' s' else false
  | String _ _, EmptyString => false
  end.

(** [needle in hay]. *)
Fixpoint contains (needle hay : string) : bool :=
  startswith needle hay ||
  match hay with
  | EmptyString => false
  | String _ r => contains needle r
  end.

(** [s.replace(old, new)] for a one-character [old]. *)
Fixpoint replace_char (old : ascii) (new s : string) : string :=
  match s with
  | EmptyString => EmptyString
  | String c r =>
      if Ascii.eqb c old then new +:+ replace_char old new r
      else String c (replace_char old new r)
  end.

(** [s.encode('ascii', 'ignore')]: the characters without a 7-bit code
    are dropped. *)
Definition is_ascii (c : ascii) : bool := (N_of_ascii c <? 128)%N.

Fixpoint encode_ascii_ignore (s : string) : string :=
  match s with
  | EmptyString => EmptyString
  | String c r =>
      if is_ascii c then String c (encode_ascii_ignore r) else encode_ascii_ignore r
  end.

(** ["{}".format(x)] for [x] a string or [None]. *)
Definition format (x : option string) : string :=
  match x with
  | Some s => s
  | None => "None"
  end.

(** Truth value of a string or [None]. *)
Definition truthy (x : option string) : bool :=
  match x with
  | Some (String _ _) => true
  | _ => false
  end.

(** [s.split(sep)] for a one-character separator. *)
Fixpoint split (sep : ascii) (s : string) : list string :=
  match s with
  | EmptyString => [EmptyString]
  | String c r =>
      if Ascii.eqb c sep then EmptyString :: split sep r
      else match split sep r with
           | h :: t => String c h :: t
           | [] => [String c EmptyString]
           end
  end.

(** [l[i]] for a list and a non-negative literal index. *)
Definition list_getitem {A} (l : list A) (i : nat) : option A := l !! i.

End Py.

(** * The two regular expressions of the module *)
Module Re.
Import Py.

Definition is_digit (c : ascii) : bool :=
  ((48 <=? N_of_ascii c) && (N_of_ascii c <=? 57))%N.

Fixpoint digits_prefix (s : string) : string :=
  match s with
  | String c r => if is_digit c then String c (digits_prefix r) else EmptyString
  | EmptyString => EmptyString
  end.

(** [re.compile(r'\d+').search(s)]: [group(0)] of the leftmost match,
    which is the first maximal run of digits. *)
Fixpoint re_num_search (s : string) : option string :=
  match s with
  | EmptyString => None
  | String c r => if is_digit c then Some (digits_prefix s) else re_num_search r
  end.

(** One or more [c], greedily: the rest after the run, when there is one. *)
Fixpoint skip_all (c : ascii) (s : string) : string :=
  match s with
  | String a r => if Ascii.eqb a c then skip_all c r else s
  | EmptyString => EmptyString
  end.

Definition plus (c : ascii) (s : string) : option string :=
  match s with
  | String a r => if Ascii.eqb a c then Some (skip_all c r) else None
  | EmptyString => None
  end.

(** [.*]: everything up to the first line feed. *)
Fixpoint dot_star (s : string) : string :=
  match s with
  | String a r => if Ascii.eqb a LF then EmptyString else String a (dot_star r)
  | EmptyString => EmptyString
  end.

(** The pattern [re_more] of [write_output_to_file] applied with
    [match]: a space, one or more backspaces, one or more spaces, one or
    more backspaces, then the group [line], which takes every character
    up to the first line feed.  The result is [group('line')].  The three
    runs are of different characters and each must be followed by a
    character of the next, so each greedy run is maximal and no
    backtracking can change the outcome. *)
Definition re_more_match (s : string) : option string :=
  match s with
  | String a r =>
      if Ascii.eqb a SP then
        (r1 ← plus BS r; r2 ← plus SP r1; r3 ← plus BS r2; Some (dot_star r3))
      else None
  | EmptyString => None
  end.

End Re.

(* ===================================================================== *)
(** * The host application and the session object *)
(* ===================================================================== *)

(** The exceptions of the module, and the built-in ones its code can run
    into. *)
Inductive exn : Type :=
| ConnectError (message : string)
| DeviceInteractionError (message : string)
| OSDetectError (message : string)
| IndexError
| TypeError
| AttributeError
| IOError (message : string)
| SystemExit.

(** A call made on one of the host's objects, as the trace records it.
    Timeouts are in seconds, [None] when the call gives none; pauses are in
    milliseconds. *)
Inductive call : Type :=
| TabSend (data : string)
| TabWaitForString (pattern : option string) (timeout : option Z)
| TabReadString (patterns : list (option string)) (timeout : option Z)
| SessionConnected
| SessionDisconnect
| DialogMessageBox (message title : string) (options : Z)
| TimeSleep (ms : Z)
| OsMakedirs (path : string).

(** What the device does about one wait or read: one of the patterns comes
    up ([index] counts from 1 in the list of patterns, [text] is what was
    received before it), or none does. *)
Inductive response : Type :=
| Matched (text : string) (index : nat)
| TimedOut.

Definition loc := nat.

Record session : Type := mkSession {
  (** the host application: [self.crt] and [self.tab] *)
  script : list response;       (* answers to the coming waits and reads *)
  trace : list call;            (* the calls made so far, oldest first *)
  MatchIndex : nat;             (* [tab.MatchIndex] *)
  Synchronous : bool;           (* [tab.Synchronous] *)
  IgnoreEscape : bool;          (* [tab.IgnoreEscape] *)
  status : nat -> Z;            (* [crt.Session.Connected] at its n-th read *)
  reads : nat;                  (* reads of [crt.Session.Connected] so far *)
  (** the interpreter: files and list objects *)
  open_error : string -> option string;  (* the [IOError] of opening a file for writing *)
  files : gmap string string;
  heap : gmap loc (list string);
  (** the attributes of [self]; [None] in [term_len] and [term_width] is an
      attribute not assigned yet *)
  os : option string;
  prompt : option string;
  hostname : option string;
  term_len : option (option string);
  term_width : option (option string);
  modify_term : bool            (* [self.settings['modify term']] *)
}.

Definition set_script v s := let 'mkSession _ b c d e f g h i j k l m n o p := s in mkSession v b c d e f g h i j k l m n o p.
Definition set_trace v s := let 'mkSession a _ c d e f g h i j k l m n o p := s in mkSession a v c d e f g h i j k l m n o p.
Definition set_MatchIndex v s := let 'mkSession a b _ d e f g h i j k l m n o p := s in mkSession a b v d e f g h i j k l m n o p.
Definition set_Synchronous v s := let 'mkSession a b c _ e f g h i j k l m n o p := s in mkSession a b c v e f g h i j k l m n o p.
Definition set_IgnoreEscape v s := let 'mkSession a b c d _ f g h i j k l m n o p := s in mkSession a b c d v f g h i j k l m n o p.
Definition set_reads v s := let 'mkSession a b c d e f _ h i j k l m n o p := s in mkSession a b c d e f v h i j k l m n o p.
Definition set_files v s := let 'mkSession a b c d e f g h _ j k l m n o p := s in mkSession a b c d e f g h v j k l m n o p.
Definition set_heap v s := let 'mkSession a b c d e f g h i _ k l m n o p := s in mkSession a b c d e f g h i v k l m n o p.
Definition set_os v s := let 'mkSession a b c d e f g h i j _ l m n o p := s in mkSession a b c d e f g h i j v l m n o p.
Definition set_prompt v s := let 'mkSession a b c d e f g h i j k _ m n o p := s in mkSession a b c d e f g h i j k v m n o p.
Definition set_hostname v s := let 'mkSession a b c d e f g h i j k l _ n o p := s in mkSession a b c d e f g h i j k l v n o p.
Definition set_term_len v s := let 'mkSession a b c d e f g h i j k l m _ o p := s in mkSession a b c d e f g h i j k l m v o p.
Definition set_term_width v s := let 'mkSession a b c d e f g h i j k l m n _ p := s in mkSession a b c d e f g h i j k l m n v p.

(** ** Running Python code: state, exceptions, and the two ways not to
    return *)

Inductive outcome (A : Type) : Type :=
| Done (a : A) (s : session)      (* returned [a] *)
| Raised (e : exn) (s : session)  (* an exception left the code *)
| Blocked (s : session)           (* waiting, without timeout, for what never comes *)
| OutOfFuel (s : session).        (* the loop bound of the model ran out *)
Arguments Done {A} a s.
Arguments Raised {A} e s.
Arguments Blocked {A} s.
Arguments OutOfFuel {A} s.

Definition M (A : Type) : Type := session -> outcome A.

Definition ret {A} (a : A) : M A := fun s => Done a s.

Definition bind {A B} (c : M A) (k : A -> M B) : M B :=
  fun s =>
    match c s with
    | Done a s' => k a s'
    | Raised e s' => Raised e s'
    | Blocked s' => Blocked s'
    | OutOfFuel s' => OutOfFuel s'
    end.

Notation "x <- c1 ;; c2" := (bind c1 (fun x => c2))
  (at level 100, c1 at next level, right associativity).
Notation "c1 ;; c2" := (bind c1 (fun _ => c2))
  (at level 100, right associativity).

Definition raise {A} (e : exn) : M A := fun s => Raised e s.
Definition block {A} : M A := fun s => Blocked s.
Definition out_of_fuel {A} : M A := fun s => OutOfFuel s.
Definition gets {A} (f : session -> A) : M A := fun s => Done (f s) s.
Definition modify (f : session -> session) : M unit := fun s => Done tt (f s).

(** [try: c except IOError, err: h err]. *)
Definition try_except_IOError {A} (c : M A) (h : string -> M A) : M A :=
  fun s =>
    match c s with
    | Raised (IOError err) s' => h err s'
    | o => o
    end.

(** A value that may be Python's missing item or attribute. *)
Definition or_raise {A} (e : exn) (x : option A) : M A :=
  match x with
  | Some a => ret a
  | None => raise e
  end.

(** The session an outcome leaves behind. *)
Definition final {A} (o : outcome A) : session :=
  match o with
  | Done _ s | Raised _ s | Blocked s | OutOfFuel s => s
  end.

Definition log (c : call) : M unit := modify (fun s => set_trace (trace s ++ [c]) s).

(** What a wait or read on [n] patterns makes of a response: the text
    received and the position of the pattern that came, or nothing when none
    came; a response naming no pattern of the call counts as none. *)
Definition heard (n : nat) (r : response) : option (string * nat) :=
  match r with
  | Matched text index =>
      if (1 <=? index)%nat && (index <=? n)%nat then Some (text, index) else None
  | TimedOut => None
  end.

(** The text a read on [n] patterns returns for a response. *)
Definition text_read (n : nat) (r : response) : string :=
  match heard n r with
  | Some (text, _) => text
  | None => EmptyString
  end.

(** The next answer of the device to a wait or read on [n] patterns; a
    device whose script is over stays silent. *)
Definition answer (n : nat) : M (option (string * nat)) :=
  fun s =>
    match script s with
    | [] => Done None s
    | r :: rest => Done (heard n r) (set_script rest s)
    end.

(** ** [self.tab]: the screen of the tab *)
Module tab.

Definition Send (data : string) : M unit := log (TabSend data).

(** [WaitForString(pattern, timeout)] is 1 when the pattern came and 0
    when the timeout passed; without a timeout it only returns when the
    pattern comes. *)
Definition WaitForString (pattern : option string) (timeout : option Z) : M Z :=
  log (TabWaitForString pattern timeout) ;;
  a <- answer 1 ;;
  match a, timeout with
  | Some _, _ => ret 1
  | None, Some _ => ret 0
  | None, None => block
  end.

(** [ReadString(patterns, timeout)] gives the text received before the
    pattern that came, whose position it leaves in [MatchIndex]; when the
    timeout passes it gives the empty string and [MatchIndex] is 0. *)
Definition ReadString (patterns : list (option string)) (timeout : option Z) : M string :=
  log (TabReadString patterns timeout) ;;
  a <- answer (length patterns) ;;
  match a, timeout with
  | Some (text, index), _ => modify (set_MatchIndex index) ;; ret text
  | None, Some _ => modify (set_MatchIndex 0%nat) ;; ret EmptyString
  | None, None => block
  end.

End tab.

(** ** [self.crt] *)
Module crt.
Module Session.

(** The property [Connected], read once more. *)
Definition Connected : M Z :=
  log SessionConnected ;;
  v <- gets (fun s => status s (reads s)) ;;
  modify (fun s => set_reads (S (reads s)) s) ;;
  ret v.

Definition Disconnect : M unit := log SessionDisconnect.

End Session.

Module Dialog.
Definition MessageBox (message title : string) (options : Z) : M unit :=
  log (DialogMessageBox message title options).
End Dialog.
End crt.

Module time.
(** [time.sleep], the pause in milliseconds. *)
Definition sleep (ms : Z) : M unit := log (TimeSleep ms).
End time.

(** ** Files and list objects *)

(** [open(filename, 'w')] (or ['wb']): the file is created empty, or emptied.
    The file object is known by its name. *)
Definition open (filename : option string) : M string :=
  match filename with
  | None => raise TypeError
  | Some name =>
      err <- gets (fun s => open_error s name) ;;
      match err with
      | Some message => raise (IOError message)
      | None => modify (fun s => set_files (<[name := EmptyString]> (files s)) s) ;; ret name
      end
  end.

Definition write (file data : string) : M unit :=
  modify (fun s => set_files (<[file := default EmptyString (files s !! file) +:+ data]> (files s)) s).

(** [l.insert(0, x)] on the list object [l]; what is not a list has no
    [insert]. *)
Definition list_insert0 (l : loc) (x : string) : M unit :=
  v <- gets (fun s => heap s !! l) ;;
  match v with
  | Some items => modify (fun s => set_heap (<[l := x :: items]> (heap s)) s)
  | None => raise AttributeError
  end.

Definition list_items (l : loc) : M (list string) :=
  v <- gets (fun s => heap s !! l) ;; or_raise TypeError v.

(* ===================================================================== *)
(** * The message box constants *)
(* ===================================================================== *)

Definition ICON_STOP : Z := 16.
Definition ICON_QUESTION : Z := 32.
Definition ICON_WARN : Z := 48.
Definition ICON_INFO : Z := 64.

Definition BUTTON_OK : Z := 0.
Definition BUTTON_CANCEL : Z := 1.
Definition BUTTON_ABORTRETRYIGNORE : Z := 2.
Definition BUTTON_YESNOCANCEL : Z := 3.
Definition BUTTON_YESNO : Z := 4.
Definition BUTTON_RETRYCANCEL : Z := 5.

Definition DEFBUTTON1 : Z := 0.
Definition DEFBUTTON2 : Z := 256.
Definition DEFBUTTON3 : Z := 512.

Definition IDOK : Z := 1.
Definition IDCANCEL : Z := 2.
Definition IDABORT : Z := 3.
Definition IDRETRY : Z := 4.
Definition IDIGNORE : Z := 5.
Definition IDYES : Z := 6.
Definition IDNO : Z := 7.

(** What the module takes from the operating system, from the user and
    from the settings file: the functions of [os.path], the date formatted
    by [strftime], the translation of line ends at the reading of a text
    file, the settings ['save path'], ['date format'] and ['debug'] with
    the directory of the script and that of the debug files, and the
    button the user clicks in a message box of the host, by its message,
    title and options. *)
Record environment : Type := mkEnvironment {
  isabs : string -> bool;
  join : string -> string -> string;
  realpath : string -> string;
  expandvars : string -> string;
  expanduser : string -> string;
  normpath : string -> string;
  split_name : string -> string;         (* [os.path.split(path)[1]] *)
  strftime_now : string -> string;       (* [datetime.datetime.now().strftime(format)] *)
  read_text : string -> string;          (* what reading in mode ['r'] makes of the bytes *)
  save_path : string;
  date_format : string;
  debug : bool;
  script_dir : string;
  debug_dir : string;
  dirname : string -> string;
  path_exists : string -> bool;          (* [os.path.exists] *)
  clicked : string -> string -> Z -> Z   (* the value of [crt.Dialog.MessageBox] *)
}.

(** [os.makedirs], taken to make the directory. *)
Definition os_makedirs (path : string) : M unit := log (OsMakedirs path).

(* ===================================================================== *)
(** * class CRTSession *)
(* ===================================================================== *)

Module CRTSession.
Import Py Re.

(** [self.os == name] *)
Definition os_is (o : option string) (name : string) : bool :=
  bool_decide (o = Some name).

(** Reading [self.term_len] or [self.term_width]. *)
Definition getattr (f : session -> option (option string)) : M (option string) :=
  v <- gets f ;; or_raise AttributeError v.

Definition is_connected : M bool :=
  session_connected <- crt.Session.Connected ;;
  if session_connected =? 1 then ret true else ret false.

(** [message_box] returns what the dialog of the host returns: the
    button clicked. *)
Definition message_box (E : environment) (message title : string) (options : Z) : M Z :=
  crt.Dialog.MessageBox message title options ;;
  ret (clicked E message title options).

(** [self.crt] and [self.tab] are the host's objects, which are true. *)
Definition end_ : M unit :=
  p <- gets prompt ;;
  (if truthy p then
     mt <- gets modify_term ;;
     if mt : bool then
       o <- gets os ;;
       if os_is o "IOS" || os_is o "NXOS" then
         tl <- getattr term_len ;;
         (if truthy tl then
            tab.Send ("term length " +:+ format tl +:+ NL) ;;
            _ <- tab.WaitForString p None ;; ret tt
          else ret tt) ;;
         tw <- getattr term_width ;;
         (if truthy tw then
            tab.Send ("term width " +:+ format tw +:+ NL) ;;
            _ <- tab.WaitForString p None ;; ret tt
          else ret tt)
       else if os_is o "ASA" then
         tl <- getattr term_len ;;
         tab.Send ("terminal pager " +:+ format tl +:+ NL)
       else ret tt
     else ret tt
   else ret tt) ;;
  modify (set_prompt None) ;;
  modify (set_hostname None) ;;
  modify (set_os None) ;;
  modify (set_Synchronous false) ;;
  modify (set_IgnoreEscape false).

Definition __get_prompt : M (option string) :=
  tab.Send (CRLF +:+ CRLF) ;;
  wait_result <- tab.WaitForString (Some NL) (Some 5) ;;
  if wait_result =? 1 then
    prompt <- tab.ReadString [Some NL] (Some 5) ;;
    let prompt := strip prompt in
    last <- or_raise IndexError (getitem prompt (-1)) ;;
    if Ascii.eqb last ">" then
      end_ ;;
      raise (DeviceInteractionError "Not in enable mode.  Cannot continue.")
    else
      before <- or_raise IndexError (getitem prompt (-2)) ;;
      if Ascii.eqb before ")" then
        end_ ;;
        raise (DeviceInteractionError "Device already in config mode.")
      else
        last <- or_raise IndexError (getitem prompt (-1)) ;;
        if negb (Ascii.eqb last "#") then
          end_ ;;
          raise (DeviceInteractionError "Unable to capture prompt.")
        else ret (Some prompt)
  else
    ret None.

Definition __get_output (command : string) : M string :=
  tab.Send (strip command +:+ NL) ;;
  _ <- tab.WaitForString (Some command) None ;;
  p <- gets prompt ;;
  result <- tab.ReadString [p] None ;;
  ret (strip_chars CRLF result).

Definition __get_network_os : M string :=
  let send_cmd := "show version | i Cisco" in
  raw_version <- __get_output send_cmd ;;
  if contains "IOS XE" raw_version then ret "IOS"
  else if contains "Cisco IOS Software" raw_version
          || contains "Cisco Internetwork Operating System" raw_version then ret "IOS"
  else if contains "Cisco Nexus Operating System" raw_version then ret "NXOS"
  else if contains "Adaptive Security Appliance" raw_version then ret "ASA"
  else raise (OSDetectError "Unknown or Unsupported device OS.").

Definition __get_term_info : M (option string * option string) :=
  o <- gets os ;;
  if os_is o "IOS" || os_is o "NXOS" then
    result <- __get_output "show terminal | i Length" ;;
    let term_info := split "," result in
    first <- or_raise IndexError (list_getitem term_info 0) ;;
    let length := re_num_search first in
    second <- or_raise IndexError (list_getitem term_info 1) ;;
    let width := re_num_search second in
    ret (length, width)
  else if os_is o "ASA" then
    pager <- __get_output "show pager" ;;
    let length := re_num_search pager in
    term_info <- __get_output "show terminal" ;;
    second <- or_raise IndexError (getitem term_info 1) ;;
    let width := re_num_search (String second EmptyString) in
    ret (length, width)
  else
    ret (None, None).

Definition __start : M unit :=
  modify (set_Synchronous true) ;;
  modify (set_IgnoreEscape true) ;;
  p <- __get_prompt ;;
  modify (set_prompt p) ;;
  (* self.prompt[:-1]: None has no slices *)
  h <- match p with
       | Some text => ret (slice_to text (-1))
       | None => raise TypeError
       end ;;
  modify (set_hostname (Some h)) ;;
  o <- __get_network_os ;;
  modify (set_os (Some o)) ;;
  info <- __get_term_info ;;
  modify (set_term_len (Some (fst info))) ;;
  modify (set_term_width (Some (snd info))) ;;
  mt <- gets modify_term ;;
  (if mt : bool then
     o <- gets os ;;
     p <- gets prompt ;;
     (if os_is o "IOS" || os_is o "NXOS" then
        tl <- getattr term_len ;;
        if truthy tl then
          tab.Send ("term length 0" +:+ NL) ;;
          _ <- tab.WaitForString p None ;; ret tt
        else ret tt
      else if os_is o "ASA" then
        tl <- getattr term_len ;;
        if truthy tl then
          tab.Send ("terminal pager 0" +:+ CRLF) ;;
          _ <- tab.WaitForString p None ;; ret tt
        else ret tt
      else ret tt) ;;
     (if os_is o "IOS" then
        tl <- getattr term_len ;;
        if truthy tl then
          tab.Send ("term width 0" +:+ NL) ;;
          _ <- tab.WaitForString p None ;; ret tt
        else ret tt
      else if os_is o "NXOS" then
        tl <- getattr term_len ;;
        if truthy tl then
          tab.Send ("term width 511" +:+ NL) ;;
          _ <- tab.WaitForString p None ;; ret tt
        else ret tt
      else ret tt)
   else ret tt) ;;
  time.sleep 100.

(** The loop of [disconnect]; it gives the number of attempts made. *)
Fixpoint disconnect_loop (fuel : nat) (attempts : Z) : M Z :=
  match fuel with
  | O => out_of_fuel
  | S fuel' =>
      connected <- is_connected ;;
      if connected && (attempts <? 10) then
        crt.Session.Disconnect ;;
        time.sleep 100 ;;
        disconnect_loop fuel' (attempts + 1)
      else ret attempts
  end.

Definition disconnect (fuel : nat) : M unit :=
  tab.Send ("exit" +:+ NL) ;;
  _ <- tab.WaitForString (Some "exit") None ;;
  time.sleep 250 ;;
  attempts <- disconnect_loop fuel 0 ;;
  if 10 <=? attempts then raise (ConnectError "Unable to disconnect from session.")
  else ret tt.

(** The [while True] of [write_output_to_file]. *)
Fixpoint capture_loop (fuel : nat) (matches : list (option string)) (newfile : string) : M unit :=
  match fuel with
  | O => out_of_fuel
  | S fuel' =>
      nextline <- tab.ReadString matches (Some 30) ;;
      index <- gets MatchIndex ;;
      if (index =? 1)%nat then
        let nextline := strip_chars CRLF nextline in
        (if negb (String.eqb nextline EmptyString) then
           let nextline := match re_more_match nextline with
                           | Some line => line
                           | None => nextline
                           end in
           write newfile (encode_ascii_ignore (strip_chars CRLF nextline) +:+ CRLF)
         else ret tt) ;;
        capture_loop fuel' matches newfile
      else if (index =? 2)%nat then
        tab.Send " " ;;
        capture_loop fuel' matches newfile
      else if (index =? 3)%nat then
        ret tt
      else
        raise (DeviceInteractionError "Timeout trying to capture output")
  end.

(** [validate_path], the method of [Session], with the [message_box] and
    the [end] of this class.  [sys.exit()] raises [SystemExit]. *)
Definition validate_path (E : environment) (path : string) : M unit :=
  let base_dir := dirname E path in
  (if negb (isabs E base_dir) then
     let error_str := "Directory is invalid. Please correct" +:+ NL +:+
                      "the path in the script settings." +:+ NL +:+
                      "Dir: " +:+ base_dir in
     _ <- message_box E error_str "Path Error" ICON_STOP ;;
     end_ ;;
     raise SystemExit
   else ret tt) ;;
  if negb (path_exists E (normpath E base_dir)) then
    let message_str := "The path: '" +:+ base_dir +:+
                       "' does not exist.  Do you want to create it?." in
    result <- message_box E message_str "Create Directory?"
                (Z.lor (Z.lor ICON_QUESTION BUTTON_YESNO) DEFBUTTON2) ;;
    if result =? IDYES then
      os_makedirs base_dir
    else
      _ <- message_box E "Output directory does not exist.  Exiting." "Invalid Path"
             ICON_STOP ;;
      end_ ;;
      raise SystemExit
  else ret tt.

Definition write_output_to_file (E : environment) (fuel : nat) (command filename : string)
    : M unit :=
  validate_path E filename ;;
  o <- gets os ;;
  p <- gets prompt ;;
  let matches :=
    if os_is o "IOS" || os_is o "NXOS" then [Some CRLF; Some "--More--"; p]
    else if os_is o "ASA" then [Some CRLF; Some "<--- More --->"; p]
    else [Some CRLF; Some "--More--"; p] in
  try_except_IOError
    (newfile <- open (Some filename) ;;
     tab.Send (command +:+ NL) ;;
     _ <- tab.WaitForString (Some (strip command)) (Some 30) ;;
     capture_loop fuel matches newfile)
    (fun err =>
       let error_str := "IO Error for:" +:+ NL +:+ filename +:+ NL +:+ NL +:+ err in
       _ <- message_box E error_str "IO Error" ICON_STOP ;; ret tt).

(** The [for] loop of [send_config_commands], giving [config_results]. *)
Fixpoint send_each (commands : list string) (config_results : string) : M string :=
  match commands with
  | [] => ret config_results
  | command :: rest =>
      tab.Send (command +:+ NL) ;;
      output <- tab.ReadString [Some ")#"] (Some 3) ;;
      if truthy (Some output) then
        send_each rest (config_results +:+ output +:+ ")#")
      else
        let error := "Did not receive expected prompt after issuing command: " +:+ command in
        raise (DeviceInteractionError error)
  end.

(** [command_list] is a reference: the list object behind it is the
    caller's. *)
Definition send_config_commands (command_list : loc) (output_filename : option string) : M unit :=
  let config_results := EmptyString in
  list_insert0 command_list "configure terminal" ;;
  commands <- list_items command_list ;;
  config_results <- send_each commands config_results ;;
  tab.Send ("end" +:+ NL) ;;
  p <- gets prompt ;;
  output <- tab.ReadString [p] (Some 2) ;;
  let config_results := config_results +:+ output +:+ format p in
  output_file <- open output_filename ;;
  write output_file (replace_char CR EmptyString config_results).

End CRTSession.


(* ===================================================================== *)
(** * Sessions and scripts used in the statements *)
(* ===================================================================== *)

(** What a trace sent to the device, in order. *)
Fixpoint sent (t : list call) : list string :=
  match t with
  | [] => []
  | TabSend data :: t' => data :: sent t'
  | _ :: t' => sent t'
  end.

(** The forced disconnects in a trace. *)
Fixpoint forced_disconnects (t : list call) : nat :=
  match t with
  | [] => 0%nat
  | SessionDisconnect :: t' => S (forced_disconnects t')
  | _ :: t' => forced_disconnects t'
  end.

(** The session object as [Session.__init__] leaves it, on a host that has
    made no call yet: nothing discovered, the terminal size attributes not
    assigned, terminal modification enabled. *)
Definition fresh (device : list response) : session :=
  {| script := device; trace := []; MatchIndex := 0%nat;
     Synchronous := false; IgnoreEscape := false;
     status := fun _ => 1; reads := 0%nat;
     open_error := fun _ => None; files := ∅; heap := ∅;
     os := None; prompt := None; hostname := None;
     term_len := None; term_width := None; modify_term := true |}.

(** A session in the ready state on a device of the given family, with the
    terminal length and width that were saved at its start. *)
Definition ready (family host_prompt : string) (length width : option string)
    (device : list response) : session :=
  {| script := device; trace := []; MatchIndex := 0%nat;
     Synchronous := true; IgnoreEscape := true;
     status := fun _ => 1; reads := 0%nat;
     open_error := fun _ => None; files := ∅; heap := ∅;
     os := Some family; prompt := Some host_prompt;
     hostname := Some (Py.slice_to host_prompt (-1));
     term_len := Some length; term_width := Some width; modify_term := true |}.

(** The calls of [__get_prompt] when the device answers its wait. *)
Definition prompt_calls : list call :=
  [TabSend (Py.CRLF +:+ Py.CRLF); TabWaitForString (Some Py.NL) (Some 5);
   TabReadString [Some Py.NL] (Some 5)].

(** The calls the [for] loop of [send_config_commands] makes for a list of
    commands. *)
Definition config_calls (commands : list string) : list call :=
  flat_map (fun c => [TabSend (c +:+ Py.NL); TabReadString [Some ")#"] (Some 3)]) commands.

(** A device that acknowledges one command after the other, each time with
    the given text before the [)#]. *)
Definition acknowledged (texts : list string) : list response :=
  map (fun text => Matched text 1) texts.

(** What [config_results] accumulates from acknowledged commands. *)
Fixpoint transcript (texts : list string) : string :=
  match texts with
  | [] => EmptyString
  | text :: rest => text +:+ ")#" +:+ transcript rest
  end.

(** The statement that, in a trace, the wait for the prompt [p] that follows
    [end] has a longer bound than the waits for [)#]. *)
Definition final_wait_longer_than_ack (p : option string) (t : list call) : Prop :=
  forall a f,
    In (TabReadString [Some ")#"] (Some a)) t ->
    In (TabReadString [p] (Some f)) t ->
    a < f.

(** Whether no character of [s] is one of [chars]. *)
Fixpoint no_char_of (chars s : string) : bool :=
  match s with
  | EmptyString => true
  | String c r => negb (Py.char_in c chars) && no_char_of chars r
  end.

(** ** Scripted output of a command *)

(** What the device emits while a command's output is captured: a line,
    ended by its line terminator, or a pager token (with whatever came
    before it since the last line). *)
Inductive capture_event : Type :=
| Line (text : string)
| Pager (before : string).

(** The response each event makes to the read of [write_output_to_file],
    whose patterns are the line terminator, the pager token and the
    prompt, in this order. *)
Definition event_response (e : capture_event) : response :=
  match e with
  | Line text => Matched text 1
  | Pager before => Matched before 2
  end.


Fixpoint pagers_of (events : list capture_event) : nat :=
  match events with
  | [] => 0%nat
  | Line _ :: rest => pagers_of rest
  | Pager _ :: rest => S (pagers_of rest)
  end.

(** The pager token of the device family. *)
Definition more_token (family : option string) : string :=
  if CRTSession.os_is family "ASA" then "<--- More --->" else "--More--".

(** What the capture writes for the text read before a line terminator:
    nothing for a text that is empty without the line ends around it, else
    the text without the pager's erasure, without line ends and without
    the characters that have no 7-bit code, and a line terminator. *)
Definition written (text : string) : string :=
  let nextline := Py.strip_chars Py.CRLF text in
  if String.eqb nextline EmptyString then EmptyString
  else
    let nextline := match Re.re_more_match nextline with
                    | Some line => line
                    | None => nextline
                    end in
    Py.encode_ascii_ignore (Py.strip_chars Py.CRLF nextline) +:+ Py.CRLF.

Fixpoint emitted (events : list capture_event) : string :=
  match events with
  | [] => EmptyString
  | Line text :: rest => written text +:+ emitted rest
  | Pager _ :: rest => emitted rest
  end.


Fixpoint is_7bit (s : string) : bool :=
  match s with
  | EmptyString => true
  | String c r => Py.is_ascii c && is_7bit r
  end.


(** The calls of the capture loop for a list of events. *)
Definition capture_calls (matches : list (option string)) (events : list capture_event)
    : list call :=
  flat_map (fun e => match e with
                     | Line _ => [TabReadString matches (Some 30)]
                     | Pager _ => [TabReadString matches (Some 30); TabSend " "]
                     end) events.

(** ** Proof automation *)

(** Unfolding the operations of the host and of the monad. *)
Ltac run :=
  unfold tab.Send, tab.WaitForString, tab.ReadString, crt.Session.Connected,
    crt.Session.Disconnect, crt.Dialog.MessageBox, time.sleep,
    CRTSession.message_box, CRTSession.is_connected, CRTSession.getattr,
    or_raise, log, answer, heard, text_read, modify, gets, raise, block,
    out_of_fuel, ret, bind.

(** One more round of the loop, by the induction hypothesis. *)
Ltac next_round IH acc Hlook Hm Hfuel :=
  match goal with
  | |- context [CRTSession.capture_loop ?fuel ?matches ?file ?s1] =>
      let s' := fresh "s'" in
      destruct (IH fuel matches file acc _ s1 _ Hm ltac:(cbn in Hfuel; lia) eq_refl Hlook)
        as (s' & Hrun & Hf & Htr & Hsc);
      exists s'; split; [exact Hrun|];
      split; [|split; [rewrite Htr; cbn; rewrite <- ?List.app_assoc; reflexivity
                      |exact Hsc]]
  end.



(** ** What follows a pager token *)

(** [n] times the character [c]. *)
Fixpoint run_of (c : ascii) (n : nat) : string :=
  match n with
  | O => EmptyString
  | S n' => String c (run_of c n')
  end.

(** What a device prints over a pager token once it goes on: a space, then
    backspaces, spaces and backspaces again, one or more of each. *)
Definition erasure (a b c : nat) : string :=
  String Py.SP (run_of Py.BS (S a) +:+ run_of Py.SP (S b) +:+ run_of Py.BS (S c)).

(** ** Numbers in a text *)

(** Whether every character of [s] is a decimal digit, and whether none is. *)
Fixpoint all_digits (s : string) : bool :=
  match s with
  | EmptyString => true
  | String c r => Re.is_digit c && all_digits r
  end.

Fixpoint no_digit (s : string) : bool :=
  match s with
  | EmptyString => true
  | String c r => negb (Re.is_digit c) && no_digit r
  end.

(** Whether [s] does not start with a digit. *)
Definition no_digit_first (s : string) : bool :=
  match s with
  | EmptyString => true
  | String c _ => negb (Re.is_digit c)
  end.

(** ** The family of a device *)

(** The family that the text of the version gives: the tests of
    [__get_network_os], in their order. *)
Definition version_family (raw_version : string) : option string :=
  if Py.contains "IOS XE" raw_version then Some "IOS"
  else if Py.contains "Cisco IOS Software" raw_version
          || Py.contains "Cisco Internetwork Operating System" raw_version then Some "IOS"
  else if Py.contains "Cisco Nexus Operating System" raw_version then Some "NXOS"
  else if Py.contains "Adaptive Security Appliance" raw_version then Some "ASA"
  else None.

(** What a device answers at the start of a session: the echo of the line
    feeds and the line of the prompt, the echo of the version command and
    its output, the echo of the terminal command and its output. *)
Definition discovery (w1 ptext w2 vtext w3 ttext : string) : list response :=
  [Matched w1 1; Matched ptext 1; Matched w2 1; Matched vtext 1;
   Matched w3 1; Matched ttext 1].

(** The prompt coming back, once for each of [n] commands. *)
Fixpoint prompts_back (ws : list string) : list response :=
  match ws with
  | [] => []
  | w :: ws' => Matched w 1 :: prompts_back ws'
  end.

(* ===================================================================== *)
(** * class DirectSession: the message box on the console *)
(* ===================================================================== *)

(** [DirectSession] stands in for SecureCRT on a console: what the host
    would ask in a dialog is read with [raw_input].  The lines the user
    will type are a list; reading past its end is Python's [EOFError].
    What is printed is not kept. *)
Module DirectSession.

Inductive console (A : Type) : Type :=
| Returned (a : A) (unread : list string)
| KeyError
| EOFError.
Arguments Returned {A} a unread.
Arguments KeyError {A}.
Arguments EOFError {A}.

(** The inner function [get_button_layout] of [message_box]. *)
Definition numbers : list Z := [512; 256; 64; 48; 32; 16].

Definition get_button_layout (option : Z) : Z :=
  fold_left (fun option number => if number <=? option then option - number else option)
            numbers option.

(** The inner function [get_response_code]: a dictionary and its lookup. *)
Definition responses : gmap string Z :=
  list_to_map [("OK", IDOK); ("Cancel", IDCANCEL); ("Yes", IDYES); ("No", IDNO);
               ("Retry", IDRETRY); ("Abort", IDABORT); ("Ignore", IDIGNORE)].

Definition get_response_code (text : string) : option Z := responses !! text.

Definition buttons : gmap Z (list string) :=
  list_to_map [(BUTTON_OK, ["OK"]); (BUTTON_CANCEL, ["OK"; "Cancel"]);
               (BUTTON_ABORTRETRYIGNORE, ["Abort"; "Retry"; "Ignore"]);
               (BUTTON_YESNOCANCEL, ["Yes"; "No"; "Cancel"]); (BUTTON_YESNO, ["Yes"; "No"]);
               (BUTTON_RETRYCANCEL, ["Retry"; "Cancel"])].

(** [while response not in valid: response = raw_input(...)]: the answer
    that ends the loop and the lines left unread. *)
Fixpoint ask (valid : list string) (response : string) (inputs : list string)
    : option (string * list string) :=
  if bool_decide (response ∈ valid) then Some (response, inputs)
  else match inputs with
       | [] => None
       | line :: rest => ask valid line rest
       end.

Definition message_box (message title : string) (options : Z) (inputs : list string)
    : console Z :=
  let layout := get_button_layout options in
  match buttons !! layout with
  | None => KeyError
  | Some valid =>
      match ask valid EmptyString inputs with
      | None => EOFError
      | Some (response, unread) =>
          match get_response_code response with
          | Some code => Returned code unread
          | None => KeyError
          end
      end
  end.

End DirectSession.

(* ===================================================================== *)
(** * class Session: the name of an output file *)
(* ===================================================================== *)

(** [s.replace(old, new)] for any non-empty [old]: the occurrences are
    found from the left and do not overlap.  [skip] counts the characters
    of an occurrence still to pass. *)
Fixpoint replace_from (old new : string) (skip : nat) (s : string) : string :=
  match s with
  | EmptyString => EmptyString
  | String c r =>
      match skip with
      | S k => replace_from old new k r
      | O =>
          if Py.startswith old s
          then new +:+ replace_from old new (Nat.pred (String.length old)) r
          else String c (replace_from old new 0 r)
      end
  end.

Definition replace (old new s : string) : string := replace_from old new 0 s.

(** ['-'.join(bits)]; an item that is [None] is a [TypeError]. *)
Fixpoint join_with (sep : string) (bits : list (option string)) : option string :=
  match bits with
  | [] => Some EmptyString
  | [Some b] => Some b
  | Some b :: rest =>
      match join_with sep rest with
      | Some r => Some (b +:+ sep +:+ r)
      | None => None
      end
  | None :: _ => None
  end.

Module Session.

(** The reserved characters are taken out of the description. *)
Definition clean_description (desc : string) : string :=
  let clean_desc := Py.replace_char "/" "-" desc in
  let clean_desc := Py.replace_char "." "-" clean_desc in
  let clean_desc := Py.replace_char ":" "-" clean_desc in
  let clean_desc := Py.replace_char "\" EmptyString clean_desc in
  let clean_desc := replace "| " EmptyString clean_desc in
  Py.replace_char "|" EmptyString clean_desc.

Definition create_output_filename (E : environment) (desc ext : string)
    (include_date : bool) : M string :=
  let save_path :=
    if negb (isabs E (save_path E))
    then realpath E (join E (script_dir E) (save_path E))
    else realpath E (save_path E) in
  let save_path := expandvars E save_path in
  let save_path := expandvars E (expanduser E save_path) in
  let clean_desc := clean_description desc in
  h <- gets hostname ;;
  let file_bits :=
    if include_date then [h; Some clean_desc; Some (strftime_now E (date_format E))]
    else [h; Some desc] in
  filename <- or_raise TypeError (join_with "-" file_bits) ;;
  let filename := filename +:+ ext in
  ret (normpath E (join E save_path filename)).

End Session.

(** Opening a file for reading and reading it whole; a file that does not
    exist is an [IOError]. *)
Definition read_file (E : environment) (name : string) : M string :=
  v <- gets (fun s => files s !! name) ;;
  match v with
  | Some bytes => ret (read_text E bytes)
  | None => raise (IOError ("[Errno 2] No such file or directory: '" +:+ name +:+ "'"))
  end.

(** [os.remove] and [os.rename] on a file that exists. *)
Definition os_remove (name : string) : M unit :=
  modify (fun s => set_files (delete name (files s)) s).

Definition os_rename (name new_name : string) : M unit :=
  v <- gets (fun s => files s !! name) ;;
  match v with
  | Some bytes =>
      modify (fun s => set_files (<[new_name := bytes]> (delete name (files s))) s)
  | None => raise (IOError ("[Errno 2] No such file or directory"))
  end.

(** ** More of class CRTSession *)
Module CRTSessionMore.
Import Py.

(** [get_command_output]: the output goes to a temporary file, is read
    back, and the file is deleted, or moved to the debug directory. *)
Definition get_command_output (E : environment) (fuel : nat) (command : string) : M string :=
  temp_filename <- Session.create_output_filename E (command +:+ "-temp") ".txt" true ;;
  CRTSession.write_output_to_file E fuel command temp_filename ;;
  result <- read_file E temp_filename ;;
  (if debug E then
     let filename := split_name E temp_filename in
     let new_filename := join E (debug_dir E) filename in
     os_rename temp_filename new_filename
   else
     os_remove temp_filename) ;;
  ret result.

End CRTSessionMore.

(** ** More of class DirectSession *)
Module DirectSessionMore.
Import Py.

(** The text of [command_string]. *)
Fixpoint command_lines (commands : list string) : string :=
  match commands with
  | [] => EmptyString
  | command :: rest => strip command +:+ NL +:+ command_lines rest
  end.

(** [send_config_commands]: nothing is sent anywhere; the commands are
    written to a file named by [create_output_filename], behind the
    prompt.  The list is read, not changed. *)
Definition send_config_commands (E : environment) (command_list : loc)
    (output_filename : option string) : M unit :=
  commands <- list_items command_list ;;
  let command_string := EmptyString in
  let command_string := command_string +:+ "configure terminal" +:+ NL in
  let command_string := command_string +:+ command_lines commands in
  let command_string := command_string +:+ "end" +:+ NL in
  output_filename <- Session.create_output_filename E "CONFIG_RESULT" ".txt" true ;;
  let config_results := command_string in
  p <- gets prompt ;;
  output_file <- open (Some output_filename) ;;
  write output_file (format p +:+ config_results).

End DirectSessionMore.

(* ===================================================================== *)
(** * CRTSession.connect: the host beyond the tab *)
(* ===================================================================== *)

(** [connect] uses more of the host than the other methods: the prompt
    dialog, [crt.Session.Connect], which raises when the connection fails,
    [crt.GetLastErrorMessage], and waits with bounds under a second.  The
    calls are recorded with their bounds in milliseconds. *)
Inductive host_call : Type :=
| DialogPrompt (message title default : string) (hide_input : bool)
| SessionConnect (argument : string)
| GetLastErrorMessage
| TabWaitForStrings (patterns : list string) (timeout_ms : Z)
| TabWaitForStringMs (pattern : string) (timeout_ms : Z).

Record desk : Type := mkDesk {
  tab_session : session;               (* the session object and the tab *)
  typed : list string;                 (* what the user types in the coming prompt dialogs *)
  connections : list (option string);  (* the coming connection attempts: made, or the error *)
  last_error : string;                 (* [crt.GetLastErrorMessage()] *)
  host_trace : list host_call          (* the calls made so far, oldest first *)
}.

Definition set_tab_session v d :=
  let 'mkDesk _ b c e f := d in mkDesk v b c e f.
Definition set_typed v d :=
  let 'mkDesk a _ c e f := d in mkDesk a v c e f.
Definition set_connections v d :=
  let 'mkDesk a b _ e f := d in mkDesk a b v e f.
Definition set_last_error v d :=
  let 'mkDesk a b c _ f := d in mkDesk a b c v f.
Definition set_host_trace v d :=
  let 'mkDesk a b c e _ := d in mkDesk a b c e v.

Inductive result (A : Type) : Type :=
| Ok (a : A) (d : desk)
| Fail (e : exn) (d : desk)
| Stuck (d : desk)
| NoFuel (d : desk).
Arguments Ok {A} a d.
Arguments Fail {A} e d.
Arguments Stuck {A} d.
Arguments NoFuel {A} d.

Definition D (A : Type) : Type := desk -> result A.

Definition dret {A} (a : A) : D A := fun d => Ok a d.

Definition dbind {A B} (c : D A) (k : A -> D B) : D B :=
  fun d =>
    match c d with
    | Ok a d' => k a d'
    | Fail e d' => Fail e d'
    | Stuck d' => Stuck d'
    | NoFuel d' => NoFuel d'
    end.

Definition draise {A} (e : exn) : D A := fun d => Fail e d.

(** Code that uses the session and the tab only. *)
Definition lift {A} (c : M A) : D A :=
  fun d =>
    match c (tab_session d) with
    | Done a s => Ok a (set_tab_session s d)
    | Raised e s => Fail e (set_tab_session s d)
    | Blocked s => Stuck (set_tab_session s d)
    | OutOfFuel s => NoFuel (set_tab_session s d)
    end.

Definition host_log (c : host_call) : D unit :=
  fun d => Ok tt (set_host_trace (host_trace d ++ [c]) d).

(** [try: c except: h]: the handler takes every exception. *)
Definition try_except {A} (c : D A) (h : D A) : D A :=
  fun d =>
    match c d with
    | Fail _ d' => h d'
    | r => r
    end.

Module CRTConnect.
Import Py.

(** [crt.Dialog.Prompt]: what the user types; an empty string when the
    dialog is cancelled, or nothing is left to type. *)
Definition Dialog_Prompt (message title default : string) (hide_input : bool) : D string :=
  dbind (host_log (DialogPrompt message title default hide_input)) (fun _ =>
  fun d =>
    match typed d with
    | [] => Ok EmptyString d
    | text :: rest => Ok text (set_typed rest d)
    end).

Definition prompt_window (message title : string) (hide_input : bool) : D string :=
  Dialog_Prompt message title EmptyString hide_input.

(** [crt.Session.Connect]: it returns, or raises and leaves its message as
    the last error.  The exception is caught by a bare [except], so which
    one it is does not matter. *)
Definition Session_Connect (argument : string) : D unit :=
  dbind (host_log (SessionConnect argument)) (fun _ =>
  fun d =>
    match connections d with
    | [] => Ok tt d
    | None :: rest => Ok tt (set_connections rest d)
    | Some message :: rest =>
        Fail (ConnectError message) (set_last_error message (set_connections rest d))
    end).

Definition GetLastErrorMessage_ : D string :=
  dbind (host_log GetLastErrorMessage) (fun _ => fun d => Ok (last_error d) d).

(** [tab.WaitForStrings(patterns, timeout)]: the position of the pattern
    that came, 0 when the bound passed. *)
Definition WaitForStrings (patterns : list string) (timeout_ms : Z) : D nat :=
  dbind (host_log (TabWaitForStrings patterns timeout_ms)) (fun _ =>
  dbind (lift (answer (length patterns))) (fun a =>
  match a with
  | Some (_, index) => dret index
  | None => dret 0%nat
  end)).

Definition WaitForString_ms (pattern : string) (timeout_ms : Z) : D nat :=
  dbind (host_log (TabWaitForStringMs pattern timeout_ms)) (fun _ =>
  dbind (lift (answer 1)) (fun a =>
  match a with
  | Some _ => dret 1%nat
  | None => dret 0%nat
  end)).

(** ["!\b"] *)
Definition test_string : string := String "!" (String BS EmptyString).

Definition connection_string (protocol username password host : string) : string :=
  "/" +:+ protocol +:+ " /ACCEPTHOSTKEYS /L " +:+ username +:+ " /PASSWORD " +:+ password
  +:+ " " +:+ host.

(** [while result == 0: ...] *)
Fixpoint echo_loop (fuel : nat) (result : nat) : D unit :=
  if (result =? 0)%nat then
    match fuel with
    | O => fun d => NoFuel d
    | S fuel' =>
        dbind (lift (tab.Send test_string)) (fun _ =>
        dbind (WaitForString_ms test_string 200) (fun result =>
        echo_loop fuel' result))
    end
  else dret tt.

Definition connect (fuel : nat) (host username : string) (password : option string)
    : D unit :=
  dbind (if negb (truthy password)
         then prompt_window ("Enter the password for " +:+ username +:+ "@" +:+ host +:+ ".")
                "Password" true
         else dret (format password)) (fun password =>
  let ssh2_string := connection_string "SSH2" username password host in
  dbind (lift CRTSession.is_connected) (fun connected =>
  if negb connected then
    dbind (try_except (Session_Connect ssh2_string)
             (dbind GetLastErrorMessage_ (fun error =>
              let ssh1_string := connection_string "SSH1" username password host in
              try_except (Session_Connect ssh1_string)
                (dbind GetLastErrorMessage_ (fun error =>
                 draise (ConnectError error)))))) (fun _ =>
    dbind (lift (tab.Send test_string)) (fun _ =>
    dbind (WaitForStrings ["# " +:+ test_string; "#" +:+ test_string; ">" +:+ test_string]
             2000) (fun result =>
    dbind (echo_loop fuel result) (fun _ =>
    lift CRTSession.__start))))
  else
    draise (ConnectError "SecureCRT is already connected."))).

End CRTConnect.

(* ===================================================================== *)
(** * An environment for the examples *)
(* ===================================================================== *)

(** What precedes the last slash of a path. *)
Fixpoint before_last_slash (path : string) : string :=
  match path with
  | EmptyString => EmptyString
  | String c rest =>
      if Py.contains "/" rest then String c (before_last_slash rest) else EmptyString
  end.

(** [os.path.dirname] of a POSIX path without doubled slashes: what
    precedes the last slash, or the root for a name right under it. *)
Definition posix_dirname (path : string) : string :=
  match before_last_slash path with
  | EmptyString => if Py.startswith "/" path then "/" else EmptyString
  | head => head
  end.

(** A machine on which the paths that start with a slash are absolute,
    [/tmp/out] is the one directory there is, and the user answers No to
    every question. *)
Definition example_environment : environment :=
  mkEnvironment (Py.startswith "/") (fun a b => a +:+ "/" +:+ b) (fun p => p)
    (fun p => p) (fun p => p) (fun p => p) (fun p => p) (fun _ => "2017-05-01")
    (fun b => b) "/tmp/out" "%Y-%m-%d" false "/scripts" "/tmp/out/debugs"
    posix_dirname (fun d => String.eqb d "/tmp/out") (fun _ _ _ => IDNO).

(* ===================================================================== *)
(** * Facts about the string operations *)
(* ===================================================================== *)

Module PyFacts.
Import Py.

Lemma str_app_cons (x : ascii) (a b : string) : String x a +:+ b = String x (a +:+ b).
Proof. reflexivity. Qed.

Lemma str_app_nil_l (a : string) : EmptyString +:+ a = a.
Proof. reflexivity. Qed.

Lemma str_length_app (a b : string) :
  String.length (a +:+ b) = (String.length a + String.length b)%nat.
Proof.
  induction a as [|c a IH]; [reflexivity|].
  rewrite str_app_cons. simpl. now rewrite IH.
Qed.

Lemma str_get_app_r (a b : string) (n : nat) :
  String.get (String.length a + n) (a +:+ b) = String.get n b.
Proof. induction a as [|c a IH]; [reflexivity | rewrite str_app_cons; exact IH]. Qed.

(** The last two characters of a string, by negative index. *)
Lemma getitem_last (body : string) (a : ascii) :
  getitem (body +:+ String a EmptyString) (-1) = Some a.
Proof.
  unfold getitem, len. rewrite str_length_app. simpl String.length.
  replace (-1 <? 0) with true by reflexivity.
  replace (-1 + Z.of_nat (String.length body + 1)) with (Z.of_nat (String.length body)) by lia.
  replace (Z.of_nat (String.length body) <? 0) with false by (symmetry; apply Z.ltb_ge; lia).
  replace (Z.of_nat (String.length body + 1) <=? Z.of_nat (String.length body))
    with false by (symmetry; apply Z.leb_gt; lia).
  simpl. rewrite Nat2Z.id.
  replace (String.length body) with (String.length body + 0)%nat at 1 by lia.
  now rewrite str_get_app_r.
Qed.

Lemma getitem_before_last (body : string) (a b : ascii) :
  getitem (body +:+ String a (String b EmptyString)) (-2) = Some a.
Proof.
  unfold getitem, len. rewrite str_length_app. simpl String.length.
  replace (-2 <? 0) with true by reflexivity.
  replace (-2 + Z.of_nat (String.length body + 2)) with (Z.of_nat (String.length body)) by lia.
  replace (Z.of_nat (String.length body) <? 0) with false by (symmetry; apply Z.ltb_ge; lia).
  replace (Z.of_nat (String.length body + 2) <=? Z.of_nat (String.length body))
    with false by (symmetry; apply Z.leb_gt; lia).
  simpl. rewrite Nat2Z.id.
  replace (String.length body) with (String.length body + 0)%nat at 1 by lia.
  now rewrite str_get_app_r.
Qed.

(** The strings too short for the two indices. *)
Lemma getitem_empty (i : Z) : getitem EmptyString i = None.
Proof.
  unfold getitem. simpl. now destruct (_ || _).
Qed.

Lemma getitem_single_last (c : ascii) : getitem (String c EmptyString) (-1) = Some c.
Proof. reflexivity. Qed.

Lemma getitem_single_before (c : ascii) : getitem (String c EmptyString) (-2) = None.
Proof. reflexivity. Qed.

Lemma str_app_assoc (a b c : string) : (a +:+ b) +:+ c = a +:+ (b +:+ c).
Proof.
  induction a as [|x a IH]; [reflexivity|].
  rewrite !str_app_cons. now rewrite IH.
Qed.

Lemma str_app_nil_r (a : string) : a +:+ EmptyString = a.
Proof.
  induction a as [|x a IH]; [reflexivity|].
  rewrite str_app_cons. now rewrite IH.
Qed.

Lemma substring_prefix (a b : string) :
  String.substring 0 (String.length a) (a +:+ b) = a.
Proof.
  induction a as [|x a IH].
  - destruct b; reflexivity.
  - rewrite str_app_cons. simpl. now rewrite IH.
Qed.

(** [s[:-1]] drops the last character. *)
Lemma slice_to_drop_last (body : string) (a : ascii) :
  slice_to (body +:+ String a EmptyString) (-1) = body.
Proof.
  unfold slice_to, len. rewrite str_length_app. simpl String.length.
  replace (-1 <? 0) with true by reflexivity.
  replace (Z.to_nat _) with (String.length body) by lia.
  apply substring_prefix.
Qed.

End PyFacts.


(* ===================================================================== *)
(** * Prompt discovery *)
(* ===================================================================== *)

Section PromptDiscovery.
Import Py PyFacts CRTSession.

(** [end] when no prompt is known: nothing is sent. *)
Lemma end_without_prompt (s : session) :
  prompt s = None ->
  exists s', end_ s = Done tt s' /\ trace s' = trace s /\ script s' = script s.
Proof.
  intros Hp. destruct s; simpl in Hp; subst.
  eexists. split; [reflexivity | split; reflexivity].
Qed.

(** The validation of a cleaned prompt of two characters or more. *)
Lemma get_prompt_validation (s : session) w r rest body a b :
  script s = Matched w 1 :: r :: rest ->
  prompt s = None ->
  strip (text_read 1 r) = body +:+ String a (String b EmptyString) ->
  exists s',
    trace s' = trace s ++ prompt_calls /\
    __get_prompt s =
      if Ascii.eqb b ">" then
        Raised (DeviceInteractionError "Not in enable mode.  Cannot continue.") s'
      else if Ascii.eqb a ")" then
        Raised (DeviceInteractionError "Device already in config mode.") s'
      else if negb (Ascii.eqb b "#") then
        Raised (DeviceInteractionError "Unable to capture prompt.") s'
      else Done (Some (body +:+ String a (String b EmptyString))) s'.
Proof.
  intros Hs Hp Hc. destruct s; simpl in Hs, Hp; subst.
  unfold text_read, heard in Hc. unfold __get_prompt. run. cbn -[strip getitem end_].
  assert (Hlast : getitem (body +:+ String a (String b EmptyString)) (-1) = Some b).
  { change (String a (String b EmptyString)) with (String a EmptyString +:+ String b EmptyString).
    rewrite <- str_app_assoc. apply getitem_last. }
  pose proof (getitem_before_last body a b) as Hprev.
  destruct r as [text [|[|i]]|]; cbn -[strip getitem end_] in Hc |- *;
    rewrite Hc, Hlast, ?Hprev; cbn -[strip getitem end_];
    (destruct (Ascii.eqb b ">");
     [ eexists; split; [|reflexivity]; rewrite <- !List.app_assoc; reflexivity |]);
    (destruct (Ascii.eqb a ")");
     [ eexists; split; [|reflexivity]; rewrite <- !List.app_assoc; reflexivity |]);
    (destruct (Ascii.eqb b "#"); cbn -[strip getitem end_];
     eexists; (split; [|reflexivity]); rewrite <- !List.app_assoc; reflexivity).
Qed.

(** A lone [>] is still reported as a device not in enable mode. *)
Lemma get_prompt_lone_gt (s : session) w r rest :
  script s = Matched w 1 :: r :: rest ->
  prompt s = None ->
  strip (text_read 1 r) = ">" ->
  exists s',
    __get_prompt s
      = Raised (DeviceInteractionError "Not in enable mode.  Cannot continue.") s'.
Proof.
  intros Hs Hp Hc. destruct s; simpl in Hs, Hp; subst.
  unfold text_read, heard in Hc. unfold __get_prompt. run.
  cbn -[strip getitem end_].
  destruct r as [text [|[|i]]|]; cbn -[strip getitem end_] in Hc |- *;
    rewrite Hc; eexists; reflexivity.
Qed.

(** When the wait for the first line feed times out, [__get_prompt]
    returns [None]; it raises nothing and reads nothing. *)
Lemma get_prompt_timeout (s : session) :
  script s = [] \/ (exists rest, script s = TimedOut :: rest) ->
  exists s',
    __get_prompt s = Done None s' /\
    trace s' = trace s ++ [TabSend (CRLF +:+ CRLF); TabWaitForString (Some NL) (Some 5)] /\
    prompt s' = prompt s /\ hostname s' = hostname s /\ os s' = os s.
Proof.
  intros Hs. destruct s; simpl in Hs.
  destruct Hs as [-> | [rest ->]];
    (eexists; split; [reflexivity|]); repeat split;
    cbn; rewrite <- !List.app_assoc; reflexivity.
Qed.

(** [__start] does not check that result: it goes on to slice the prompt,
    and the slice of [None] is a [TypeError].  No hostname is set and the
    version probe is never sent. *)
Lemma start_without_prompt (s : session) :
  script s = [] \/ (exists rest, script s = TimedOut :: rest) ->
  exists s',
    __start s = Raised TypeError s' /\
    trace s' = trace s ++ [TabSend (CRLF +:+ CRLF); TabWaitForString (Some NL) (Some 5)] /\
    prompt s' = None /\ hostname s' = hostname s /\ os s' = os s.
Proof.
  intros Hs. destruct s; simpl in Hs.
  destruct Hs as [-> | [rest ->]];
    (eexists; split; [reflexivity|]); repeat split;
    cbn; rewrite <- !List.app_assoc; reflexivity.
Qed.

(** C9. Some texts read at prompt discovery make the validation index the
    cleaned string out of range: when the cleaned text is empty, or is one
    character other than [>] (a lone [#] among them), [__get_prompt]
    raises [IndexError], not [DeviceInteractionError]. *)
Theorem get_prompt_short_prompt_IndexError (s : session) w r rest :
  script s = Matched w 1 :: r :: rest ->
  strip (text_read 1 r) = EmptyString \/
  (exists c, strip (text_read 1 r) = String c EmptyString /\ c <> ">"%char) ->
  exists s',
    __get_prompt s = Raised IndexError s' /\
    trace s' = trace s ++ prompt_calls.
Proof.
  intros Hs Hc. destruct s; simpl in Hs; subst.
  unfold text_read, heard in Hc. unfold __get_prompt. run.
  cbn -[strip getitem end_].
  destruct r as [text [|[|i]]|]; cbn -[strip getitem end_] in Hc |- *;
    (destruct Hc as [-> | (c & -> & Hc)];
     [ rewrite getitem_empty
     | rewrite getitem_single_last, getitem_single_before;
       cbn -[strip getitem end_];
       destruct (Ascii.eqb_spec c ">"); [contradiction|] ];
     (eexists; split; [reflexivity|]; cbn; rewrite <- !List.app_assoc; reflexivity)).
Qed.

Lemma get_prompt_short_prompt_IndexError_witness :
  exists s',
    __get_prompt (fresh [Matched EmptyString 1; Matched "#" 1]) = Raised IndexError s' /\
    trace s' = trace (fresh [Matched EmptyString 1; Matched "#" 1]) ++ prompt_calls.
Proof.
  apply (get_prompt_short_prompt_IndexError
           (fresh [Matched EmptyString 1; Matched "#" 1]) EmptyString (Matched "#" 1) []).
  - reflexivity.
  - right. exists "#"%char. split; [reflexivity | discriminate].
Defined.

(** C2, at the inputs where the code departs from it.  A blank line read
    at prompt discovery (cleaned text empty), a lone [#] and a lone [x]
    all end in [IndexError]: the first and the last should fail with
    "Unable to capture prompt." and the lone [#] should be accepted. *)
Theorem get_prompt_blank_line_IndexError :
  (exists s', __get_prompt (fresh [Matched EmptyString 1; Matched (String CR EmptyString) 1])
              = Raised IndexError s') /\
  (exists s', __get_prompt (fresh [Matched EmptyString 1; Matched "#" 1])
              = Raised IndexError s') /\
  (exists s', __get_prompt (fresh [Matched EmptyString 1; Matched "x" 1])
              = Raised IndexError s').
Proof. repeat split; eexists; vm_compute; reflexivity. Qed.

(** C5, at the input where the code departs from it: on a device that
    stays silent, [__start] raises a [TypeError] from the slice of the
    missing prompt. *)
Theorem start_silent_device_TypeError :
  exists s',
    __start (fresh [TimedOut]) = Raised TypeError s' /\
    prompt s' = None /\ hostname s' = None /\
    sent (trace s') = [CRLF +:+ CRLF].
Proof. eexists. repeat split; vm_compute; reflexivity. Qed.

End PromptDiscovery.


(* ===================================================================== *)
(** * Session end and disconnect *)
(* ===================================================================== *)

Section Teardown.
Import Py PyFacts CRTSession.

Lemma sent_app (t u : list call) : sent (t ++ u) = sent t ++ sent u.
Proof.
  induction t as [|c t IH]; [reflexivity|].
  destruct c; simpl; rewrite IH; reflexivity.
Qed.

Lemma forced_disconnects_app (t u : list call) :
  forced_disconnects (t ++ u) = (forced_disconnects t + forced_disconnects u)%nat.
Proof.
  induction t as [|c t IH]; [reflexivity|].
  destruct c; simpl; rewrite IH; reflexivity.
Qed.

(** On IOS and NXOS, [end] sends no length command when no length was
    saved; the width is restored when one was saved, whatever the length. *)
Lemma end_IOS_NXOS_unset_length (s : session) p w tw rest :
  os s = Some "IOS" \/ os s = Some "NXOS" ->
  prompt s = Some p -> p <> EmptyString ->
  modify_term s = true ->
  term_len s = Some None ->
  term_width s = Some tw ->
  script s = Matched w 1 :: rest ->
  exists s',
    end_ s = Done tt s' /\
    sent (trace s') =
      sent (trace s) ++
      (if truthy tw then ["term width " +:+ format tw +:+ NL] else []) /\
    prompt s' = None /\ hostname s' = None /\ os s' = None.
Proof.
  intros Ho Hp Hne Hm Hl Hw Hs. destruct s; simpl in *; subst.
  destruct p as [|c p]; [contradiction|].
  unfold end_. run.
  destruct Ho as [-> | ->], tw as [[|x tw]|]; cbn;
    (eexists; split; [reflexivity|]); cbn; rewrite ?sent_app, ?app_nil_r;
    repeat split; reflexivity.
Qed.

(** Terminal-mode symmetry on IOS: a saved length of 24 is sent back. *)
Example end_IOS_restores_length_24 :
  exists s',
    end_ (ready "IOS" "Router#" (Some "24") (Some "80")
            [Matched EmptyString 1; Matched EmptyString 1]) = Done tt s' /\
    sent (trace s') = ["term length 24" +:+ NL; "term width 80" +:+ NL].
Proof. eexists. split; vm_compute; reflexivity. Qed.

(** C7, at the input where the code departs from it: on an ASA whose pager
    length could not be determined, [end] sends [terminal pager None]. *)
Theorem end_ASA_unset_length_sends_pager_None :
  exists s',
    end_ (ready "ASA" "fw#" None None []) = Done tt s' /\
    sent (trace s') = ["terminal pager None" +:+ NL].
Proof. eexists. split; vm_compute; reflexivity. Qed.

(** The loop of [disconnect], on a session that reads as connected [k]
    times and then, if the budget is not spent, as disconnected. *)
Lemma disconnect_loop_run (k : nat) :
  forall (fuel : nat) (attempts : Z) (s : session),
    (forall i, (i < k)%nat -> status s (reads s + i)%nat = 1) ->
    attempts + Z.of_nat k <= 10 ->
    (attempts + Z.of_nat k < 10 -> status s (reads s + k)%nat <> 1) ->
    (k < fuel)%nat ->
    exists s',
      disconnect_loop fuel attempts s = Done (attempts + Z.of_nat k) s' /\
      trace s' = trace s ++
                 concat (repeat [SessionConnected; SessionDisconnect; TimeSleep 100] k) ++
                 [SessionConnected] /\
      script s' = script s.
Proof.
  induction k as [|k IH]; intros fuel attempts s Hconn Hle Hstop Hfuel;
    (destruct fuel as [|fuel]; [lia|]).
  - destruct s; simpl in *. cbn [disconnect_loop]. run.
    cbn -[disconnect_loop Z.add].
    replace (reads0 + 0)%nat with reads0 in Hstop by lia.
    rewrite Z.add_0_r in *.
    destruct (Z.eqb_spec (status0 reads0) 1) as [E|E].
    + destruct (Z.ltb_spec attempts 10) as [L|L]; [exfalso; exact (Hstop L E)|].
      cbn. eexists; repeat split; reflexivity.
    + cbn. eexists; repeat split; reflexivity.
  - pose proof (Hconn 0%nat ltac:(lia)) as H0.
    destruct s; simpl in *.
    replace (reads0 + 0)%nat with reads0 in H0 by lia.
    cbn [disconnect_loop]. run. cbn -[disconnect_loop Z.add].
    rewrite H0. cbn -[disconnect_loop Z.add].
    destruct (Z.ltb_spec attempts 10) as [L|L]; [|lia].
    cbn -[disconnect_loop Z.add].
    match goal with
    | |- context [disconnect_loop fuel (attempts + 1) ?s1] =>
        destruct (IH fuel (attempts + 1) s1) as (s' & Hrun & Htr & Hsc)
    end.
    + cbn. intros i Hi. replace (S (reads0 + i))%nat with (reads0 + S i)%nat by lia.
      apply Hconn. lia.
    + lia.
    + cbn. intros Hlt. replace (S (reads0 + k))%nat with (reads0 + S k)%nat by lia.
      apply Hstop. lia.
    + lia.
    + exists s'. rewrite Hrun. split; [f_equal; lia|]. split; [|exact Hsc].
      rewrite Htr. cbn. rewrite <- !List.app_assoc. reflexivity.
Qed.

(** C6. A session that still reads as connected at each of the ten polls
    of the budget gets exactly ten forced disconnects and then the
    [ConnectError]; one that reads as disconnected at an earlier poll,
    after [k] forced disconnects, gets no more of them and no error. *)
Theorem disconnect_bounded_retry (s : session) w rest (k fuel : nat) :
  script s = Matched w 1 :: rest ->
  (k <= 10)%nat ->
  (forall i, (i < k)%nat -> status s (reads s + i)%nat = 1) ->
  ((k < 10)%nat -> status s (reads s + k)%nat <> 1) ->
  (10 < fuel)%nat ->
  exists s',
    disconnect fuel s =
      (if (k <? 10)%nat then Done tt s'
       else Raised (ConnectError "Unable to disconnect from session.") s') /\
    forced_disconnects (trace s') = (forced_disconnects (trace s) + k)%nat /\
    trace s' = trace s ++
               [TabSend ("exit" +:+ NL); TabWaitForString (Some "exit") None;
                TimeSleep 250] ++
               concat (repeat [SessionConnected; SessionDisconnect; TimeSleep 100] k) ++
               [SessionConnected].
Proof.
  intros Hs Hk Hconn Hstop Hfuel. destruct s; simpl in *; subst.
  remember (k <? 10)%nat as small eqn:Hsmall.
  unfold disconnect. run. cbn -[disconnect_loop].
  match goal with
  | |- context [disconnect_loop fuel 0 ?s1] =>
      assert (Hloop : exists s',
                 disconnect_loop fuel 0 s1 = Done (0 + Z.of_nat k) s' /\
                 trace s' = trace s1 ++
                   concat (repeat [SessionConnected; SessionDisconnect; TimeSleep 100] k) ++
                   [SessionConnected] /\
                 script s' = script s1)
  end.
  { apply disconnect_loop_run; cbn.
    - exact Hconn.
    - lia.
    - intros Hlt. apply Hstop. lia.
    - lia. }
  destruct Hloop as (s' & Hrun & Htr & _).
  exists s'. rewrite Hrun. cbn in Htr. split; [|split].
  - subst small. destruct (Nat.ltb_spec k 10) as [L|L];
      destruct (Z.leb_spec 10 (0 + Z.of_nat k)) as [L'|L']; try lia; reflexivity.
  - rewrite Htr, !forced_disconnects_app. cbn.
    clear. induction k as [|k IH]; [cbn; lia|].
    cbn [repeat concat]. rewrite forced_disconnects_app. cbn. lia.
  - rewrite Htr, <- !List.app_assoc. reflexivity.
Qed.

Lemma disconnect_bounded_retry_witness :
  exists s',
    disconnect 11 (fresh [Matched EmptyString 1]) =
      Raised (ConnectError "Unable to disconnect from session.") s' /\
    forced_disconnects (trace s') = 10%nat.
Proof.
  destruct (disconnect_bounded_retry (fresh [Matched EmptyString 1]) EmptyString [] 10 11)
    as (s' & Hrun & Hn & _).
  - reflexivity.
  - lia.
  - intros i _. reflexivity.
  - lia.
  - lia.
  - exists s'. split; [exact Hrun | exact Hn].
Defined.

End Teardown.


(* ===================================================================== *)
(** * Configuration push *)
(* ===================================================================== *)

Section ConfigPush.
Import Py PyFacts CRTSession.

Lemma transcript_app (a b : list string) :
  transcript (a ++ b) = transcript a +:+ transcript b.
Proof.
  induction a as [|t a IH]; [reflexivity|].
  cbn [transcript app]. rewrite IH, !str_app_assoc. reflexivity.
Qed.

Lemma config_calls_app (a b : list string) :
  config_calls (a ++ b) = config_calls a ++ config_calls b.
Proof. unfold config_calls. apply flat_map_app. Qed.

Lemma sent_config_calls (commands : list string) :
  sent (config_calls commands) = map (fun c => c +:+ NL) commands.
Proof.
  induction commands as [|c commands IH]; [reflexivity|].
  cbn. f_equal. exact IH.
Qed.

(** The loop on commands that are all acknowledged. *)
Lemma send_each_acknowledged (commands : list string) :
  forall (texts : list string) (acc : string) (s : session) (rest : list response),
    length texts = length commands ->
    Forall (fun text => text <> EmptyString) texts ->
    script s = acknowledged texts ++ rest ->
    exists s',
      send_each commands acc s = Done (acc +:+ transcript texts) s' /\
      trace s' = trace s ++ config_calls commands /\
      script s' = rest /\
      files s' = files s /\ heap s' = heap s /\ prompt s' = prompt s /\
      open_error s' = open_error s.
Proof.
  induction commands as [|c commands IH]; intros texts acc s rest Hlen Hne Hs.
  - destruct texts; [|discriminate]. simpl in Hs.
    exists s. cbn. rewrite str_app_nil_r, List.app_nil_r. repeat split; assumption.
  - destruct texts as [|text texts]; [discriminate|].
    inversion Hne as [|? ? Htext Hne']; subst.
    destruct s; simpl in Hs; subst.
    cbn [send_each]. run. cbn -[send_each].
    destruct text as [|x text]; [contradiction|]. cbn -[send_each].
    match goal with
    | |- context [send_each commands ?acc1 ?s1] =>
        destruct (IH texts acc1 s1 rest) as (s' & Hrun & Htr & Hsc & Hf & Hh & Hp & Ho)
    end; [simpl in Hlen; lia | assumption | reflexivity |].
    exists s'. rewrite Hrun. cbn in Htr, Hsc, Hf, Hh, Hp, Ho.
    split; [|repeat split; try assumption].
    + f_equal. cbn [transcript]. rewrite !str_app_assoc. reflexivity.
    + rewrite Htr. cbn. rewrite <- !List.app_assoc. reflexivity.
Qed.

(** The loop stops at the first command whose read returns nothing. *)
Lemma send_each_unacknowledged (done : list string) (bad : string) (after : list string) :
  forall (texts : list string) (acc : string) (s : session) r (rest : list response),
    length texts = length done ->
    Forall (fun text => text <> EmptyString) texts ->
    script s = acknowledged texts ++ r :: rest ->
    text_read 1 r = EmptyString ->
    exists s',
      send_each (done ++ bad :: after) acc s =
        Raised (DeviceInteractionError
                  ("Did not receive expected prompt after issuing command: " +:+ bad)) s' /\
      trace s' = trace s ++ config_calls (done ++ [bad]) /\
      script s' = rest /\
      files s' = files s /\ heap s' = heap s.
Proof.
  intros texts acc s r rest Hlen Hne Hs Hr.
  destruct (send_each_acknowledged done texts acc s (r :: rest) Hlen Hne Hs)
    as (s1 & Hrun & Htr & Hsc & Hf & Hh & _).
  assert (Hsplit : forall cs acc0 s0 acc1 s2,
             send_each cs acc0 s0 = Done acc1 s2 ->
             send_each (cs ++ bad :: after) acc0 s0 = send_each (bad :: after) acc1 s2).
  { clear. induction cs as [|c cs IH]; intros acc0 s0 acc1 s2 H.
    - cbn in H. injection H as <- <-. reflexivity.
    - cbn [send_each app] in H |- *. unfold bind in H |- *.
      destruct (tab.Send (c +:+ NL) s0) as [[] sa| | |]; try discriminate.
      destruct (tab.ReadString [Some ")#"] (Some 3) sa) as [out sb| | |]; try discriminate.
      destruct (truthy (Some out)); [|discriminate].
      apply IH. exact H. }
  rewrite (Hsplit _ _ _ _ _ Hrun).
  destruct s1; simpl in *; subst.
  cbn [send_each]. run. cbn -[send_each].
  unfold text_read, heard in Hr.
  destruct r as [text [|[|i]]|]; cbn -[send_each] in Hr |- *; subst;
    (eexists; split; [reflexivity|]); cbn; rewrite config_calls_app;
    cbn; rewrite <- !List.app_assoc; repeat split; reflexivity.
Qed.

(** [replace("\r", "")] keeps every other character, in order. *)
Lemma replace_char_removes (old : ascii) (s : string) :
  String.list_ascii_of_string (replace_char old EmptyString s)
    = filter (fun c => c <> old) (String.list_ascii_of_string s).
Proof.
  induction s as [|c s IH]; [reflexivity|].
  cbn [replace_char String.list_ascii_of_string].
  destruct (Ascii.eqb_spec c old) as [->|Hne].
  - rewrite str_app_nil_l, IH, filter_cons_False; [reflexivity | intros H; now apply H].
  - cbn [String.list_ascii_of_string]. rewrite IH, filter_cons_True; [reflexivity | exact Hne].
Qed.

(** The list object is not touched by the loop, whatever the device does. *)
Lemma send_each_heap (commands : list string) :
  forall (acc : string) (s : session), heap (final (send_each commands acc s)) = heap s.
Proof.
  induction commands as [|c commands IH]; intros acc s; [reflexivity|].
  destruct s. cbn [send_each]. run. cbn -[send_each].
  destruct script0 as [|r rest]; cbn -[send_each]; [reflexivity|].
  destruct r as [text [|[|i]]|]; cbn -[send_each]; try reflexivity.
  destruct text as [|x text]; cbn -[send_each]; [reflexivity|].
  rewrite IH. reflexivity.
Qed.

(** C3. The commands are sent in order behind [configure terminal]; at the
    first one whose read of [)#] returns nothing within its bound of 3,
    [send_config_commands] raises the [DeviceInteractionError] that names
    it.  Nothing is sent after it: no later command, no [end], no undoing
    of the commands already acknowledged; and no file is written. *)
Theorem send_config_commands_stops_at_first_unacknowledged
    (s : session) (command_list : loc) (commands : list string)
    (output_filename : option string)
    (done : list string) (bad : string) (after : list string)
    (texts : list string) (r : response) (rest : list response) :
  heap s !! command_list = Some commands ->
  "configure terminal" :: commands = done ++ bad :: after ->
  length texts = length done ->
  Forall (fun text => text <> EmptyString) texts ->
  script s = acknowledged texts ++ r :: rest ->
  text_read 1 r = EmptyString ->
  exists s',
    send_config_commands command_list output_filename s =
      Raised (DeviceInteractionError
                ("Did not receive expected prompt after issuing command: " +:+ bad)) s' /\
    sent (trace s') = sent (trace s) ++ map (fun c => c +:+ NL) (done ++ [bad]) /\
    trace s' = trace s ++ config_calls (done ++ [bad]) /\
    files s' = files s.
Proof.
  intros Hheap Hsplit Hlen Hne Hs Hr. destruct s; simpl in *.
  unfold send_config_commands, list_insert0, list_items. run. cbn -[send_each].
  rewrite Hheap. cbn -[send_each]. rewrite lookup_insert_eq. cbn -[send_each].
  rewrite Hsplit.
  match goal with
  | |- context [send_each _ ?acc1 ?s1] =>
      destruct (send_each_unacknowledged done bad after texts acc1 s1 r rest)
        as (s' & Hrun & Htr & _ & Hf & _)
  end; try assumption.
  exists s'. rewrite Hrun. cbn in Htr, Hf.
  repeat split; try assumption.
  rewrite Htr, sent_app, sent_config_calls. reflexivity.
Qed.

Lemma send_config_commands_stops_at_first_unacknowledged_witness :
  exists s',
    send_config_commands 0%nat (Some "config.txt")
      (set_heap {[ 0%nat := ["interface Gi0/1"; "shutdwn"; "description x"] ]}
         (ready "IOS" "R#" None None
            [Matched "configure terminal" 1; Matched "interface Gi0/1" 1; TimedOut]))
    = Raised (DeviceInteractionError
                "Did not receive expected prompt after issuing command: shutdwn") s' /\
    sent (trace s') = ["configure terminal" +:+ NL; "interface Gi0/1" +:+ NL; "shutdwn" +:+ NL].
Proof.
  destruct (send_config_commands_stops_at_first_unacknowledged
              (set_heap {[ 0%nat := ["interface Gi0/1"; "shutdwn"; "description x"] ]}
                 (ready "IOS" "R#" None None
                    [Matched "configure terminal" 1; Matched "interface Gi0/1" 1; TimedOut]))
              0%nat ["interface Gi0/1"; "shutdwn"; "description x"] (Some "config.txt")
              ["configure terminal"; "interface Gi0/1"] "shutdwn" ["description x"]
              ["configure terminal"; "interface Gi0/1"] TimedOut [])
    as (s' & Hrun & Hsent & _).
  - reflexivity.
  - reflexivity.
  - reflexivity.
  - repeat constructor; discriminate.
  - reflexivity.
  - reflexivity.
  - exists s'. split; [exact Hrun | exact Hsent].
Defined.

(** C8, as amended.  After the last command is acknowledged, [end] is sent
    and the prompt is waited for with a bound of 2, which is shorter than
    the bound of 3 of the acknowledgments; what is read is appended, with
    the prompt, to the transcript, and the file receives the transcript
    with every carriage return removed and every other character, line
    feeds among them, kept in order. *)
Theorem send_config_commands_writes_transcript
    (s : session) (command_list : loc) (commands : list string) (name p : string)
    (texts : list string) (r : response) (rest : list response) :
  heap s !! command_list = Some commands ->
  prompt s = Some p ->
  open_error s name = None ->
  length texts = S (length commands) ->
  Forall (fun text => text <> EmptyString) texts ->
  script s = acknowledged texts ++ r :: rest ->
  exists s' content,
    send_config_commands command_list (Some name) s = Done tt s' /\
    trace s' = trace s ++ config_calls ("configure terminal" :: commands) ++
               [TabSend ("end" +:+ NL); TabReadString [Some p] (Some 2)] /\
    ~ final_wait_longer_than_ack (Some p) (trace s') /\
    files s' !! name = Some content /\
    content = replace_char CR EmptyString (transcript texts +:+ text_read 1 r +:+ p) /\
    String.list_ascii_of_string content
      = filter (fun c => c <> CR)
          (String.list_ascii_of_string (transcript texts +:+ text_read 1 r +:+ p)).
Proof.
  intros Hheap Hp Hopen Hlen Hne Hs. destruct s; simpl in *; subst.
  unfold send_config_commands, list_insert0, list_items. run. cbn -[send_each].
  rewrite Hheap. cbn -[send_each]. rewrite lookup_insert_eq. cbn -[send_each].
  match goal with
  | |- context [send_each ?cs ?acc1 ?s1] =>
      destruct (send_each_acknowledged cs texts acc1 s1 (r :: rest))
        as (s1' & Hrun & Htr & Hsc & Hf & _ & Hp & Ho)
  end; try assumption; try reflexivity.
  rewrite Hrun. destruct s1'; cbn in Htr, Hsc, Hf, Hp, Ho; subst.
  unfold open, write. run. unfold text_read, heard.
  destruct r as [text [|[|i]]|]; cbn; rewrite Hopen; cbn;
    (eexists; eexists; split; [reflexivity|]); cbn;
    (split; [rewrite <- !List.app_assoc; reflexivity|]);
    (split;
       [ intros H; specialize (H 3 2); assert (3 < 2) as Habs; [|lia];
         apply H; rewrite !in_app_iff; cbn; auto 10 |]);
    rewrite !lookup_insert_eq; cbn;
    (split; [reflexivity|]);
    (split; [reflexivity | apply replace_char_removes]).
Qed.

Lemma send_config_commands_writes_transcript_witness :
  exists s' content,
    send_config_commands 0%nat (Some "config.txt")
      (set_heap {[ 0%nat := ["hostname R2"] ]}
         (ready "IOS" "R#" None None
            [Matched "configure terminal" 1; Matched "hostname R2" 1;
             Matched (String CR (String LF "end" +:+ CRLF)) 1]))
    = Done tt s' /\
    files s' !! "config.txt" = Some content /\
    content = "configure terminal)#hostname R2)#" +:+ NL +:+ "end" +:+ NL +:+ "R#".
Proof.
  destruct (send_config_commands_writes_transcript
              (set_heap {[ 0%nat := ["hostname R2"] ]}
                 (ready "IOS" "R#" None None
                    [Matched "configure terminal" 1; Matched "hostname R2" 1;
                     Matched (String CR (String LF "end" +:+ CRLF)) 1]))
              0%nat ["hostname R2"] "config.txt" "R#"
              ["configure terminal"; "hostname R2"]
              (Matched (String CR (String LF "end" +:+ CRLF)) 1) [])
    as (s' & content & Hrun & _ & _ & Hfile & Hcontent & _).
  - reflexivity.
  - reflexivity.
  - reflexivity.
  - reflexivity.
  - repeat constructor; discriminate.
  - reflexivity.
  - exists s', content. split; [exact Hrun|]. split; [exact Hfile|].
    rewrite Hcontent. vm_compute. reflexivity.
Defined.

(** C8, as stated, fails: in the trace of a successful push the wait for
    the prompt after [end] has bound 2 and the waits for [)#] have bound
    3, so the final bound is not the longer one. *)
Lemma send_config_commands_final_bound_not_longer :
  let s := set_heap {[ 0%nat := ["hostname R2"] ]}
             (ready "IOS" "R#" None None
                [Matched "configure terminal" 1; Matched "hostname R2" 1;
                 Matched "end" 1]) in
  exists s',
    send_config_commands 0%nat (Some "config.txt") s = Done tt s' /\
    ~ final_wait_longer_than_ack (prompt s) (trace s').
Proof.
  eexists. split; [vm_compute; reflexivity|].
  intros H. specialize (H 3 2).
  assert (3 < 2) as Habs; [|lia].
  apply H; cbn; auto 10.
Qed.

(** C10. [send_config_commands] changes the caller's list object: whatever
    the device answers, and whether the call returns or raises, the
    object then holds [configure terminal] at index 0 and each former
    element one place further; no other object changes. *)
Theorem send_config_commands_mutates_command_list
    (s : session) (command_list : loc) (commands : list string)
    (output_filename : option string) :
  heap s !! command_list = Some commands ->
  exists items,
    heap (final (send_config_commands command_list output_filename s)) !! command_list
      = Some items /\
    items = "configure terminal" :: commands /\
    length items = S (length commands) /\
    (forall i, items !! S i = commands !! i) /\
    (forall other, other <> command_list ->
       heap (final (send_config_commands command_list output_filename s)) !! other
         = heap s !! other).
Proof.
  intros Hheap.
  assert (Hfinal : heap (final (send_config_commands command_list output_filename s))
                   = <[command_list := "configure terminal" :: commands]> (heap s)).
  { destruct s; simpl in *.
    unfold send_config_commands, list_insert0, list_items. run. cbn -[send_each].
    rewrite Hheap. cbn -[send_each]. rewrite lookup_insert_eq. cbn -[send_each].
    match goal with
    | |- context [send_each ?cs ?acc1 ?s1] =>
        pose proof (send_each_heap cs acc1 s1) as Hh;
        destruct (send_each cs acc1 s1) as [acc2 s2|e s2|s2|s2]
    end; cbn in Hh; try exact Hh.
    destruct s2; cbn in Hh; subst. unfold open, write. run. cbn.
    destruct script1 as [|r rest]; cbn.
    - destruct output_filename as [name|]; cbn; [|reflexivity].
      destruct (open_error1 name); reflexivity.
    - destruct r as [text [|[|i]]|]; cbn;
        (destruct output_filename as [name|]; cbn; [|reflexivity]);
        destruct (open_error1 name); reflexivity. }
  rewrite Hfinal. exists ("configure terminal" :: commands).
  split; [apply lookup_insert_eq|]. split; [reflexivity|]. split; [reflexivity|].
  split; [intros i; reflexivity|].
  intros other Hne. apply lookup_insert_ne. congruence.
Qed.

Lemma send_config_commands_mutates_command_list_witness :
  exists items,
    heap (final (send_config_commands 7%nat None
                   (set_heap {[ 7%nat := ["hostname R2"; "no ip domain-lookup"] ]}
                      (ready "IOS" "R#" None None [TimedOut])))) !! 7%nat = Some items /\
    items = ["configure terminal"; "hostname R2"; "no ip domain-lookup"].
Proof.
  destruct (send_config_commands_mutates_command_list
              (set_heap {[ 7%nat := ["hostname R2"; "no ip domain-lookup"] ]}
                 (ready "IOS" "R#" None None [TimedOut]))
              7%nat ["hostname R2"; "no ip domain-lookup"] None)
    as (items & Hitems & Heq & _).
  - reflexivity.
  - exists items. split; [exact Hitems | exact Heq].
Defined.

End ConfigPush.


(* ===================================================================== *)
(** * Substrings, and the classification of the operating system *)
(* ===================================================================== *)

Section Substrings.
Import Py PyFacts.

Lemma startswith_spec (p s : string) :
  startswith p s = true <-> exists r, s = p +:+ r.
Proof.
  revert s. induction p as [|a p IH]; intros s.
  - split; [intros _; exists s; reflexivity | reflexivity].
  - destruct s as [|b s]; cbn [startswith].
    + split; [discriminate | intros [r Hr]; discriminate].
    + destruct (Ascii.eqb_spec a b) as [->|Hne].
      * rewrite IH. split; intros [r Hr]; exists r.
        -- rewrite str_app_cons. now f_equal.
        -- rewrite str_app_cons in Hr. now injection Hr.
      * split; [discriminate|]. intros [r Hr]. rewrite str_app_cons in Hr.
        injection Hr as Hab _. congruence.
Qed.

(** [contains] is Python's [in]: the needle occurs somewhere in the text. *)
Lemma contains_spec (needle hay : string) :
  contains needle hay = true <-> exists a b, hay = a +:+ needle +:+ b.
Proof.
  induction hay as [|c hay IH]; cbn [contains].
  - rewrite orb_false_r, startswith_spec. split.
    + intros [r Hr]. exists EmptyString, r. exact Hr.
    + intros (a & b & H). destruct a as [|x a]; [exists b; exact H | discriminate].
  - rewrite orb_true_iff, startswith_spec, IH. split.
    + intros [[r Hr] | (a & b & H)].
      * exists EmptyString, r. exact Hr.
      * exists (String c a), b. rewrite str_app_cons. now f_equal.
    + intros (a & b & H). destruct a as [|x a].
      * left. exists b. exact H.
      * right. rewrite str_app_cons in H. injection H as _ H. exists a, b. exact H.
Qed.

Variable chars : string.

(** The two shapes of [rstrip] on a non-empty string. *)
Lemma rstrip_cons (c : ascii) (r : string) :
  (rstrip chars (String c r) = EmptyString /\ char_in c chars = true) \/
  rstrip chars (String c r) = String c (rstrip chars r).
Proof.
  cbn [rstrip]. destruct (rstrip chars r).
  - destruct (char_in c chars); [left; split; reflexivity | right; reflexivity].
  - right. reflexivity.
Qed.

Section Needle.
Variable needle : string.
Hypothesis Hneedle : no_char_of chars needle = true.

Lemma startswith_rstrip (s : string) :
  startswith needle (rstrip chars s) = startswith needle s.
Proof.
  revert s Hneedle. induction needle as [|a n IH]; intros s Hn.
  - reflexivity.
  - cbn [no_char_of] in Hn. apply andb_true_iff in Hn as [Ha Hn].
    apply negb_true_iff in Ha.
    destruct s as [|c r]; [reflexivity|].
    destruct (rstrip_cons c r) as [[-> Hc] | ->]; cbn [startswith].
    + destruct (Ascii.eqb_spec a c) as [->|]; [congruence | reflexivity].
    + destruct (Ascii.eqb a c); [apply IH; exact Hn | reflexivity].
Qed.

Lemma startswith_stripped_char (c : ascii) (r : string) :
  char_in c chars = true -> needle <> EmptyString ->
  startswith needle (String c r) = false.
Proof.
  intros Hc Hne. destruct needle as [|a n]; [contradiction|].
  cbn [no_char_of] in Hneedle. apply andb_true_iff in Hneedle as [Ha _].
  apply negb_true_iff in Ha. cbn [startswith].
  destruct (Ascii.eqb_spec a c) as [->|]; [congruence | reflexivity].
Qed.

Lemma contains_empty_needle (s : string) : needle = EmptyString -> contains needle s = true.
Proof. intros ->. destruct s; reflexivity. Qed.

Lemma contains_lstrip (s : string) :
  contains needle (lstrip chars s) = contains needle s.
Proof.
  induction s as [|c r IH]; [reflexivity|].
  cbn [lstrip]. destruct (char_in c chars) eqn:Hc; [|reflexivity].
  rewrite IH. cbn [contains].
  destruct (String.string_dec needle EmptyString) as [E|E].
  - rewrite !contains_empty_needle by exact E. now rewrite orb_true_r.
  - rewrite startswith_stripped_char by assumption. reflexivity.
Qed.

Lemma contains_rstrip (s : string) :
  contains needle (rstrip chars s) = contains needle s.
Proof.
  induction s as [|c r IH]; [reflexivity|].
  destruct (rstrip_cons c r) as [[E Hc] | E].
  - rewrite E. cbn [contains]. rewrite <- IH.
    destruct (String.string_dec needle EmptyString) as [En|En].
    + rewrite En. reflexivity.
    + rewrite startswith_stripped_char by assumption.
      destruct (rstrip chars r) eqn:Er.
      * reflexivity.
      * cbn [rstrip] in E. rewrite Er in E. discriminate.
  - pose proof (startswith_rstrip (String c r)) as Hs. rewrite E in Hs |- *.
    cbn [contains]. rewrite Hs, IH. reflexivity.
Qed.

(** Stripping characters that the needle does not have neither adds nor
    removes an occurrence of it. *)
Lemma contains_strip_chars (s : string) :
  contains needle (strip_chars chars s) = contains needle s.
Proof. unfold strip_chars. rewrite contains_rstrip. apply contains_lstrip. Qed.

End Needle.
End Substrings.

Section OSDiscovery.
Import Py PyFacts CRTSession.

(** The single-shot capture: the command, the wait for its echo, the read
    up to the prompt, and the text without the line ends around it. *)
Lemma get_output_run (s : session) (command w text : string) (rest : list response) :
  script s = Matched w 1 :: Matched text 1 :: rest ->
  exists s',
    __get_output command s = Done (strip_chars CRLF text) s' /\
    trace s' = trace s ++ [TabSend (strip command +:+ NL);
                           TabWaitForString (Some command) None;
                           TabReadString [prompt s] None] /\
    script s' = rest /\ prompt s' = prompt s /\ os s' = os s.
Proof.
  intros Hs. destruct s; simpl in Hs; subst.
  eexists. split; [reflexivity|]. cbn. rewrite <- !List.app_assoc.
  repeat split; reflexivity.
Qed.

(** C4. The text read for [show version | i Cisco] is classified by
    substring tests made in this order: [IOS XE] gives IOS; then
    [Cisco IOS Software] or [Cisco Internetwork Operating System] give IOS;
    then [Cisco Nexus Operating System] gives NXOS; then
    [Adaptive Security Appliance] gives ASA; a text with none of them
    raises [OSDetectError]. *)
Theorem get_network_os_classification (s : session) (w text : string)
    (rest : list response) :
  script s = Matched w 1 :: Matched text 1 :: rest ->
  exists s',
    sent (trace s') = sent (trace s) ++ ["show version | i Cisco" +:+ NL] /\
    __get_network_os s =
      if contains "IOS XE" text then Done "IOS" s'
      else if contains "Cisco IOS Software" text
              || contains "Cisco Internetwork Operating System" text then Done "IOS" s'
      else if contains "Cisco Nexus Operating System" text then Done "NXOS" s'
      else if contains "Adaptive Security Appliance" text then Done "ASA" s'
      else Raised (OSDetectError "Unknown or Unsupported device OS.") s'.
Proof.
  intros Hs.
  destruct (get_output_run s "show version | i Cisco" w text rest Hs)
    as (s' & Hrun & Htr & _).
  exists s'. split.
  - rewrite Htr, sent_app. reflexivity.
  - unfold __get_network_os, bind. rewrite Hrun.
    rewrite !(contains_strip_chars CRLF) by reflexivity.
    unfold ret, raise.
    destruct (contains "IOS XE" text); [reflexivity|].
    destruct (contains "Cisco IOS Software" text || _); [reflexivity|].
    destruct (contains "Cisco Nexus Operating System" text); [reflexivity|].
    destruct (contains "Adaptive Security Appliance" text); reflexivity.
Qed.

Lemma get_network_os_classification_witness :
  exists s',
    __get_network_os
      (set_prompt (Some "sw1#")
         (fresh [Matched EmptyString 1;
                 Matched (CRLF +:+ "Cisco Nexus Operating System (NX-OS) Software" +:+ CRLF) 1]))
    = Done "NXOS" s'.
Proof.
  destruct (get_network_os_classification
              (set_prompt (Some "sw1#")
                 (fresh [Matched EmptyString 1;
                         Matched (CRLF +:+ "Cisco Nexus Operating System (NX-OS) Software"
                                  +:+ CRLF) 1]))
              EmptyString
              (CRLF +:+ "Cisco Nexus Operating System (NX-OS) Software" +:+ CRLF) [])
    as (s' & _ & Hrun).
  - reflexivity.
  - exists s'. exact Hrun.
Defined.

(** The order matters where a text has several signatures: IOS XE wins
    over NXOS, and none of them is an error. *)
Example get_network_os_examples :
  (exists s', __get_network_os
                (set_prompt (Some "R#")
                   (fresh [Matched EmptyString 1;
                           Matched "Cisco IOS XE Software on Cisco Nexus Operating System" 1]))
              = Done "IOS" s') /\
  (exists s', __get_network_os
                (set_prompt (Some "fw#")
                   (fresh [Matched EmptyString 1;
                           Matched "Cisco Adaptive Security Appliance Software Version 9.8" 1]))
              = Done "ASA" s') /\
  (exists s', __get_network_os
                (set_prompt (Some "x#")
                   (fresh [Matched EmptyString 1; Matched "Cisco Systems" 1]))
              = Raised (OSDetectError "Unknown or Unsupported device OS.") s').
Proof. repeat split; eexists; vm_compute; reflexivity. Qed.

(** The whole of [__start] on an IOS device: the prompt is [Router#], the
    hostname [Router], and the terminal is set to length 0 and width 0. *)
Example start_discovers_Router :
  exists s',
    __start
      (fresh [Matched EmptyString 1; Matched ("Router#" +:+ String CR EmptyString) 1;
              Matched EmptyString 1;
              Matched (CRLF +:+ "Cisco IOS Software, C3750 Software" +:+ CRLF) 1;
              Matched EmptyString 1;
              Matched (CRLF +:+ "Length: 24 lines, Width: 80 columns" +:+ CRLF) 1;
              Matched EmptyString 1; Matched EmptyString 1]) = Done tt s' /\
    prompt s' = Some "Router#" /\ hostname s' = Some "Router" /\ os s' = Some "IOS" /\
    term_len s' = Some (Some "24") /\ term_width s' = Some (Some "80") /\
    sent (trace s') = [CRLF +:+ CRLF; "show version | i Cisco" +:+ NL;
                       "show terminal | i Length" +:+ NL;
                       "term length 0" +:+ NL; "term width 0" +:+ NL].
Proof.
  eexists. split; [vm_compute; reflexivity|].
  vm_compute. repeat (split; [reflexivity|]). reflexivity.
Qed.

End OSDiscovery.


(* ===================================================================== *)
(** * Capture of a command's output *)
(* ===================================================================== *)

Section Capture.
Import Py PyFacts CRTSession.

Lemma encode_ascii_ignore_7bit (s : string) :
  is_7bit s = true -> encode_ascii_ignore s = s.
Proof.
  induction s as [|c s IH]; [reflexivity|].
  cbn [is_7bit encode_ascii_ignore]. intros H.
  apply andb_true_iff in H as [-> H]. now rewrite IH.
Qed.



(** The loop of the capture on a script of lines and pager tokens ended
    by the prompt. *)
Lemma capture_loop_run (events : list capture_event) :
  forall (fuel : nat) (matches : list (option string)) (file acc ptext : string)
         (s : session) (rest : list response),
    length matches = 3%nat ->
    (length events < fuel)%nat ->
    script s = map event_response events ++ Matched ptext 3 :: rest ->
    files s !! file = Some acc ->
    exists s',
      capture_loop fuel matches file s = Done tt s' /\
      files s' !! file = Some (acc +:+ emitted events) /\
      trace s' = trace s ++ capture_calls matches events ++
                 [TabReadString matches (Some 30)] /\
      script s' = rest.
Proof.
  induction events as [|e events IH];
    intros fuel matches file acc ptext s rest Hm Hfuel Hs Hfile;
    (destruct fuel as [|fuel]; [cbn in Hfuel; lia|]);
    destruct s; simpl in Hs, Hfile; subst.
  - cbn [capture_loop]. run. cbn -[capture_loop]. rewrite Hm.
    cbn -[capture_loop]. eexists. split; [reflexivity|]. cbn.
    rewrite str_app_nil_r. repeat split; assumption.
  - cbn [capture_loop]. run. unfold write. run. cbn -[capture_loop].
    rewrite Hm. destruct e as [text|before]; cbn -[capture_loop strip_chars Re.re_more_match encode_ascii_ignore String.eqb lookup insert].
    + cbn [emitted]. unfold written.
      destruct (String.eqb (strip_chars CRLF text) EmptyString) eqn:E;
        cbn -[capture_loop strip_chars Re.re_more_match encode_ascii_ignore String.eqb lookup insert].
      * next_round IH acc Hfile Hm Hfuel. rewrite str_app_nil_l. exact Hf.
      * rewrite Hfile. cbn -[capture_loop strip_chars Re.re_more_match encode_ascii_ignore String.eqb lookup insert].
        match goal with
        | |- context [<[file := acc +:+ ?line]> ?fs] =>
            next_round IH (acc +:+ line) (lookup_insert_eq fs file (acc +:+ line))
                       Hm Hfuel
        end.
        rewrite Hf, str_app_assoc. reflexivity.
    + next_round IH acc Hfile Hm Hfuel. exact Hf.
Qed.





(** The three patterns of the capture. *)
Lemma matches_of_os (family p : option string) :
  (if os_is family "IOS" || os_is family "NXOS" then [Some CRLF; Some "--More--"; p]
   else if os_is family "ASA" then [Some CRLF; Some "<--- More --->"; p]
   else [Some CRLF; Some "--More--"; p]) =
  [Some CRLF; Some (more_token family); p].
Proof.
  unfold more_token, os_is. repeat case_bool_decide; subst; cbn;
    try reflexivity; discriminate.
Qed.

Lemma sent_capture_calls (matches : list (option string)) (events : list capture_event) :
  sent (capture_calls matches events) = repeat " " (pagers_of events).
Proof.
  induction events as [|[text|before] events IH]; cbn; [reflexivity | exact IH |].
  f_equal. exact IH.
Qed.

(** [validate_path] on a file whose directory is absolute and exists:
    nothing is asked and nothing is changed. *)
Lemma validate_path_present (E : environment) (path : string) (s : session) :
  isabs E (dirname E path) = true ->
  path_exists E (normpath E (dirname E path)) = true ->
  validate_path E path s = Done tt s.
Proof.
  intros Habs Hex. unfold validate_path. cbv zeta. rewrite Habs, Hex. reflexivity.
Qed.




(** After a pager token the line comes behind the erasure of the token,
    which the capture removes; blank lines are not written, and a
    character without a 7-bit code is dropped. *)
Example write_output_to_file_after_pager :
  files (final (write_output_to_file example_environment 5 "show version"
           "/tmp/out/version.txt"
           (ready "ASA" "fw#" (Some "24") (Some "80")
              [Matched EmptyString 1;
               Matched "Cisco Adaptive Security Appliance" 1;
               Matched EmptyString 1;
               Matched EmptyString 2;
               Matched (String SP (String BS (String BS (String SP (String SP
                          (String BS (String BS "Hardware: ASA5515")))))) ) 1;
               Matched EmptyString 3]))) !! "/tmp/out/version.txt" =
  Some ("Cisco Adaptive Security Appliance" +:+ CRLF +:+ "Hardware: ASA5515" +:+ CRLF).
Proof. vm_compute. reflexivity. Qed.

(** A file named without its directory: the directory is not absolute,
    and [validate_path] ends the session and the script.  The command is
    not sent: the one call on the host is the message box. *)
Example write_output_to_file_relative_name :
  exists s',
    write_output_to_file example_environment 5 "show version" "version.txt"
      (ready "IOS" "R1#" None None [Matched EmptyString 1]) = Raised SystemExit s' /\
    trace s' = [DialogMessageBox
                  ("Directory is invalid. Please correct" +:+ NL +:+
                   "the path in the script settings." +:+ NL +:+ "Dir: ")
                  "Path Error" ICON_STOP] /\
    prompt s' = None /\ files s' = ∅.
Proof.
  eexists. split; [vm_compute; reflexivity|]. vm_compute. repeat split.
Qed.

End Capture.

(* ===================================================================== *)
(** * Further properties: the configuration push without a usable file *)
(* ===================================================================== *)

Section ConfigPushFile.
Import Py PyFacts CRTSession.

(** The push up to the opening of the file, on a device that acknowledges
    every command: everything is sent and the last read is made. *)
Lemma send_config_commands_until_open (s : session) (command_list : loc)
    (commands texts : list string) (r : response) (rest : list response)
    (output_filename : option string) (e : exn) :
  heap s !! command_list = Some commands ->
  length texts = S (length commands) ->
  Forall (fun text => text <> EmptyString) texts ->
  script s = acknowledged texts ++ r :: rest ->
  (forall s0, open_error s0 = open_error s -> exists s1,
       open output_filename s0 = Raised e s1 /\ s1 = s0) ->
  exists s',
    send_config_commands command_list output_filename s = Raised e s' /\
    trace s' = trace s ++ config_calls ("configure terminal" :: commands) ++
               [TabSend ("end" +:+ NL); TabReadString [prompt s] (Some 2)] /\
    files s' = files s.
Proof.
  intros Hheap Hlen Hne Hs Hopen. destruct s; simpl in *; subst.
  unfold send_config_commands, list_insert0, list_items. run. cbn -[send_each open].
  rewrite Hheap. cbn -[send_each open]. rewrite lookup_insert_eq. cbn -[send_each open].
  match goal with
  | |- context [send_each ?cs ?acc1 ?s1] =>
      destruct (send_each_acknowledged cs texts acc1 s1 (r :: rest))
        as (s1' & Hrun & Htr & Hsc & Hf & _ & Hp & Ho)
  end; try assumption; try reflexivity.
  rewrite Hrun. destruct s1'; cbn in Htr, Hsc, Hf, Hp, Ho; subst.
  destruct r as [text [|[|i]]|]; cbn -[open];
    match goal with
    | |- context [open output_filename ?s2] =>
        destruct (Hopen s2 eq_refl) as (s3 & -> & ->)
    end;
    (eexists; split; [reflexivity|]); cbn;
    rewrite <- !List.app_assoc; split; reflexivity.
Qed.

(** Called without a file name, as its signature allows,
    [send_config_commands] sends [configure terminal], every command and
    [end] to a device that acknowledges them, and only then fails, with
    the [TypeError] of opening [None]: the device is configured and no
    transcript is written. *)
Theorem send_config_commands_without_filename
    (s : session) (command_list : loc) (commands texts : list string)
    (r : response) (rest : list response) :
  heap s !! command_list = Some commands ->
  length texts = S (length commands) ->
  Forall (fun text => text <> EmptyString) texts ->
  script s = acknowledged texts ++ r :: rest ->
  exists s',
    send_config_commands command_list None s = Raised TypeError s' /\
    sent (trace s') =
      sent (trace s) ++ map (fun c => c +:+ NL) ("configure terminal" :: commands) ++
      ["end" +:+ NL] /\
    files s' = files s.
Proof.
  intros Hheap Hlen Hne Hs.
  destruct (send_config_commands_until_open s command_list commands texts r rest
              None TypeError Hheap Hlen Hne Hs) as (s' & Hrun & Htr & Hf).
  - intros s0 _. exists s0. split; reflexivity.
  - exists s'. split; [exact Hrun|]. split; [|exact Hf].
    rewrite Htr, !sent_app, sent_config_calls. cbn. reflexivity.
Qed.

Lemma send_config_commands_without_filename_witness :
  exists s',
    send_config_commands 0%nat None
      (set_heap {[ 0%nat := ["hostname R2"] ]}
         (ready "IOS" "R#" None None
            [Matched "configure terminal" 1; Matched "hostname R2" 1; Matched "end" 1]))
    = Raised TypeError s' /\
    sent (trace s') = ["configure terminal" +:+ NL; "hostname R2" +:+ NL; "end" +:+ NL].
Proof.
  destruct (send_config_commands_without_filename
              (set_heap {[ 0%nat := ["hostname R2"] ]}
                 (ready "IOS" "R#" None None
                    [Matched "configure terminal" 1; Matched "hostname R2" 1;
                     Matched "end" 1]))
              0%nat ["hostname R2"] ["configure terminal"; "hostname R2"]
              (Matched "end" 1) [])
    as (s' & Hrun & Hsent & _).
  - reflexivity.
  - reflexivity.
  - repeat constructor; discriminate.
  - reflexivity.
  - exists s'. split; [exact Hrun | exact Hsent].
Defined.

(** When the file cannot be opened, the [IOError] leaves
    [send_config_commands] as it is, after everything was sent: there is
    no handler and no message box here, unlike in [write_output_to_file]. *)
Theorem send_config_commands_unopenable_file
    (s : session) (command_list : loc) (commands texts : list string)
    (name message : string) (r : response) (rest : list response) :
  heap s !! command_list = Some commands ->
  open_error s name = Some message ->
  length texts = S (length commands) ->
  Forall (fun text => text <> EmptyString) texts ->
  script s = acknowledged texts ++ r :: rest ->
  exists s',
    send_config_commands command_list (Some name) s = Raised (IOError message) s' /\
    trace s' = trace s ++ config_calls ("configure terminal" :: commands) ++
               [TabSend ("end" +:+ NL); TabReadString [prompt s] (Some 2)] /\
    files s' = files s.
Proof.
  intros Hheap Hopen Hlen Hne Hs.
  apply send_config_commands_until_open with (texts := texts) (r := r) (rest := rest);
    try assumption.
  intros s0 Ho. exists s0. split; [|reflexivity].
  unfold open. run. rewrite Ho, Hopen. reflexivity.
Qed.

Lemma send_config_commands_unopenable_file_witness :
  let s := mkSession [Matched "configure terminal" 1; Matched "no shutdown" 1; TimedOut] []
             0%nat true true (fun _ => 1) 0%nat
             (fun _ => Some "Permission denied") ∅ {[ 3%nat := ["no shutdown"] ]}
             (Some "IOS") (Some "R1#") (Some "R1") (Some None) (Some None) true in
  exists s',
    send_config_commands 3%nat (Some "out.txt") s = Raised (IOError "Permission denied") s' /\
    files s' = ∅.
Proof.
  intros s.
  destruct (send_config_commands_unopenable_file s 3%nat ["no shutdown"]
              ["configure terminal"; "no shutdown"] "out.txt" "Permission denied"
              TimedOut [])
    as (s' & Hrun & _ & Hf).
  - reflexivity.
  - reflexivity.
  - reflexivity.
  - repeat constructor; discriminate.
  - reflexivity.
  - exists s'. split; [exact Hrun | exact Hf].
Defined.

End ConfigPushFile.

(* ===================================================================== *)
(** * Further properties: the capture of a command's output *)
(* ===================================================================== *)

Section CaptureMore.
Import Py PyFacts CRTSession.

(** The rounds of the loop on lines and pager tokens, whatever follows
    them in the script. *)
Lemma capture_loop_events (events : list capture_event) :
  forall (fuel : nat) (matches : list (option string)) (file acc : string)
         (s : session) (tail : list response),
    length matches = 3%nat ->
    script s = map event_response events ++ tail ->
    files s !! file = Some acc ->
    exists s1,
      capture_loop (length events + fuel) matches file s
        = capture_loop fuel matches file s1 /\
      script s1 = tail /\
      files s1 !! file = Some (acc +:+ emitted events) /\
      trace s1 = trace s ++ capture_calls matches events.
Proof.
  induction events as [|e events IH];
    intros fuel matches file acc s tail Hm Hs Hfile.
  - exists s. cbn. rewrite str_app_nil_r, List.app_nil_r. auto.
  - destruct s; simpl in Hs, Hfile; subst.
    cbn [length Nat.add capture_loop]. run. unfold write. run. cbn -[capture_loop].
    rewrite Hm.
    destruct e as [text|before];
      cbn -[capture_loop strip_chars Re.re_more_match encode_ascii_ignore String.eqb
            lookup insert].
    + cbn [emitted]. unfold written.
      destruct (String.eqb (strip_chars CRLF text) EmptyString) eqn:E;
        cbn -[capture_loop strip_chars Re.re_more_match encode_ascii_ignore String.eqb
              lookup insert].
      * match goal with
        | |- context [capture_loop _ matches file ?s0] =>
            destruct (IH fuel matches file acc s0 tail Hm eq_refl Hfile)
              as (s1 & Hrun & Hsc & Hf & Htr)
        end.
        exists s1. rewrite str_app_nil_l. split; [exact Hrun|]. split; [exact Hsc|].
        split; [exact Hf|]. rewrite Htr. cbn. rewrite <- !List.app_assoc. reflexivity.
      * rewrite Hfile.
        cbn -[capture_loop strip_chars Re.re_more_match encode_ascii_ignore String.eqb
              lookup insert].
        match goal with
        | |- context [capture_loop _ matches file ?s0] =>
            match s0 with
            | context [<[file := acc +:+ ?line]> ?fs] =>
                destruct (IH fuel matches file (acc +:+ line) s0 tail Hm eq_refl
                            (lookup_insert_eq fs file (acc +:+ line)))
                  as (s1 & Hrun & Hsc & Hf & Htr)
            end
        end.
        exists s1. split; [exact Hrun|]. split; [exact Hsc|].
        split; [rewrite Hf, str_app_assoc; reflexivity|].
        rewrite Htr. cbn. rewrite <- !List.app_assoc. reflexivity.
    + match goal with
      | |- context [capture_loop _ matches file ?s0] =>
          destruct (IH fuel matches file acc s0 tail Hm eq_refl Hfile)
            as (s1 & Hrun & Hsc & Hf & Htr)
      end.
      exists s1. split; [exact Hrun|]. split; [exact Hsc|].
      split; [exact Hf|]. rewrite Htr. cbn. rewrite <- !List.app_assoc. reflexivity.
Qed.

(** [write_output_to_file] up to its loop, when the file opens. *)
Lemma write_output_to_file_prelude (E : environment) (s : session) (fuel : nat)
    (command filename : string) (echo : response) (rest : list response) :
  isabs E (dirname E filename) = true ->
  path_exists E (normpath E (dirname E filename)) = true ->
  open_error s filename = None ->
  script s = echo :: rest ->
  exists s0,
    write_output_to_file E fuel command filename s =
      try_except_IOError
        (capture_loop fuel [Some CRLF; Some (more_token (os s)); prompt s] filename)
        (fun err =>
           _ <- message_box E ("IO Error for:" +:+ NL +:+ filename +:+ NL +:+ NL +:+ err)
                  "IO Error" ICON_STOP ;; ret tt) s0 /\
    script s0 = rest /\
    files s0 = <[filename := EmptyString]> (files s) /\
    trace s0 = trace s ++ [TabSend (command +:+ NL);
                           TabWaitForString (Some (strip command)) (Some 30)].
Proof.
  intros Habs Hex Hopen Hs. unfold write_output_to_file, bind at 1.
  rewrite (validate_path_present E filename s Habs Hex).
  destruct s; simpl in Hopen, Hs |- *; subst.
  unfold try_except_IOError, open. run.
  cbn -[capture_loop os_is strip lookup insert].
  rewrite Hopen, matches_of_os.
  destruct echo as [text [|[|i]]|]; cbn -[capture_loop os_is strip lookup insert];
    (eexists; split; [reflexivity|]); cbn; rewrite <- !List.app_assoc;
    repeat split; reflexivity.
Qed.

Lemma is_7bit_app (a b : string) : is_7bit (a +:+ b) = is_7bit a && is_7bit b.
Proof.
  induction a as [|c a IH]; [reflexivity|].
  rewrite str_app_cons. cbn [is_7bit]. rewrite IH, andb_assoc. reflexivity.
Qed.

Lemma is_7bit_encode (s : string) : is_7bit (encode_ascii_ignore s) = true.
Proof.
  induction s as [|c s IH]; [reflexivity|].
  cbn [encode_ascii_ignore]. destruct (is_ascii c) eqn:E; [|exact IH].
  cbn [is_7bit]. rewrite E, IH. reflexivity.
Qed.

Lemma written_7bit (text : string) : is_7bit (written text) = true.
Proof.
  unfold written. destruct (String.eqb _ _); [reflexivity|].
  rewrite is_7bit_app, is_7bit_encode. reflexivity.
Qed.

Lemma emitted_7bit (events : list capture_event) : is_7bit (emitted events) = true.
Proof.
  induction events as [|[text|before] events IH]; cbn [emitted]; [reflexivity| |exact IH].
  rewrite is_7bit_app, written_7bit, IH. reflexivity.
Qed.

Lemma emitted_app (a b : list capture_event) :
  emitted (a ++ b) = emitted a +:+ emitted b.
Proof.
  induction a as [|[text|before] a IH]; cbn [emitted app]; [reflexivity| |exact IH].
  rewrite IH, str_app_assoc. reflexivity.
Qed.

Lemma pagers_of_app (a b : list capture_event) :
  pagers_of (a ++ b) = (pagers_of a + pagers_of b)%nat.
Proof.
  induction a as [|[text|before] a IH]; cbn [pagers_of app]; [reflexivity|exact IH|].
  rewrite IH. reflexivity.
Qed.

(** Whatever lines and pager tokens the device sends before the prompt,
    [write_output_to_file] returns and the file, emptied at its opening,
    holds what the loop wrote for the lines, all of it in 7-bit
    characters: a character without a 7-bit code never reaches the file.
    The prompt attribute need not be set for this.  The directory of the
    file is absolute and exists, so that [validate_path] lets the capture
    start, and what the host returns is a text of characters, a unicode
    string, as [string] stands for here. *)
Theorem write_output_to_file_7bit_only
    (E : environment) (events : list capture_event) (command filename ptext : string)
    (echo : response) (rest : list response) (fuel : nat) (s : session) :
  isabs E (dirname E filename) = true ->
  path_exists E (normpath E (dirname E filename)) = true ->
  open_error s filename = None ->
  script s = echo :: map event_response events ++ Matched ptext 3 :: rest ->
  (length events < fuel)%nat ->
  exists s' content,
    write_output_to_file E fuel command filename s = Done tt s' /\
    files s' !! filename = Some content /\
    content = emitted events /\
    is_7bit content = true /\
    sent (trace s') = sent (trace s) ++ (command +:+ NL) :: repeat " " (pagers_of events).
Proof.
  intros Habs Hex Hopen Hs Hfuel.
  destruct (write_output_to_file_prelude E s fuel command filename echo _ Habs Hex Hopen Hs)
    as (s0 & -> & Hsc0 & Hf0 & Htr0).
  unfold try_except_IOError.
  destruct (capture_loop_run events fuel [Some CRLF; Some (more_token (os s)); prompt s]
              filename EmptyString ptext s0 rest eq_refl Hfuel Hsc0)
    as (s' & Hrun & Hf & Htr & _).
  { rewrite Hf0. apply lookup_insert_eq. }
  exists s', (emitted events). rewrite Hrun. split; [reflexivity|].
  split; [rewrite Hf, str_app_nil_l; reflexivity|].
  split; [reflexivity|]. split; [apply emitted_7bit|].
  rewrite Htr, Htr0, !sent_app, sent_capture_calls. cbn.
  rewrite List.app_nil_r, <- List.app_assoc. reflexivity.
Qed.

Lemma write_output_to_file_7bit_only_witness :
  exists s' content,
    write_output_to_file example_environment 3 "show inventory" "/tmp/out/inv.txt"
      (ready "NXOS" "n9k#" None None
         [Matched EmptyString 1;
          Matched (String "N" (String "195" (String "169" "xus"))) 1;
          Matched EmptyString 3]) = Done tt s' /\
    files s' !! "/tmp/out/inv.txt" = Some content /\
    content = "Nxus" +:+ CRLF.
Proof.
  destruct (write_output_to_file_7bit_only example_environment
              [Line (String "N" (String "195" (String "169" "xus")))]
              "show inventory" "/tmp/out/inv.txt" EmptyString (Matched EmptyString 1) [] 3
              (ready "NXOS" "n9k#" None None
                 [Matched EmptyString 1;
                  Matched (String "N" (String "195" (String "169" "xus"))) 1;
                  Matched EmptyString 3]))
    as (s' & content & Hrun & Hfile & Hcontent & _).
  - reflexivity.
  - reflexivity.
  - reflexivity.
  - reflexivity.
  - cbn. lia.
  - exists s', content. split; [exact Hrun|]. split; [exact Hfile|].
    rewrite Hcontent. vm_compute. reflexivity.
Defined.

(** A read that nothing answers within its 30 seconds. *)
Lemma capture_loop_silent (s : session) (k : nat) (matches : list (option string))
    (file : string) :
  script s = [] \/ (exists rest, script s = TimedOut :: rest) ->
  exists s',
    capture_loop (S k) matches file s =
      Raised (DeviceInteractionError "Timeout trying to capture output") s' /\
    files s' = files s /\
    trace s' = trace s ++ [TabReadString matches (Some 30)].
Proof.
  intros Hs. destruct s; simpl in Hs.
  destruct Hs as [-> | [rest ->]]; cbn [capture_loop]; run; cbn -[capture_loop];
    (eexists; split; [reflexivity|]); split; reflexivity.
Qed.

(** When the device falls silent in the middle of the output, neither a
    line end, a pager token nor the prompt coming within 30 seconds,
    [write_output_to_file] raises its [DeviceInteractionError]; the lines
    received before stay in the file, and nothing is shown to the user.
    The directory of the file is absolute and exists. *)
Theorem write_output_to_file_timeout_keeps_partial_file
    (E : environment) (events : list capture_event) (command filename : string)
    (echo : response) (tail : list response) (fuel : nat) (s : session) :
  isabs E (dirname E filename) = true ->
  path_exists E (normpath E (dirname E filename)) = true ->
  open_error s filename = None ->
  script s = echo :: map event_response events ++ tail ->
  tail = [] \/ (exists rest, tail = TimedOut :: rest) ->
  (length events < fuel)%nat ->
  exists s',
    write_output_to_file E fuel command filename s =
      Raised (DeviceInteractionError "Timeout trying to capture output") s' /\
    files s' !! filename = Some (emitted events) /\
    sent (trace s') = sent (trace s) ++ (command +:+ NL) :: repeat " " (pagers_of events).
Proof.
  intros Habs Hex Hopen Hs Htail Hfuel.
  destruct (write_output_to_file_prelude E s fuel command filename echo _ Habs Hex Hopen Hs)
    as (s0 & -> & Hsc0 & Hf0 & Htr0).
  unfold try_except_IOError.
  replace fuel with (length events + S (fuel - S (length events)))%nat by lia.
  destruct (capture_loop_events events (S (fuel - S (length events)))
              [Some CRLF; Some (more_token (os s)); prompt s] filename EmptyString
              s0 tail eq_refl Hsc0) as (s1 & -> & Hsc1 & Hf1 & Htr1).
  { rewrite Hf0. apply lookup_insert_eq. }
  destruct (capture_loop_silent s1 (fuel - S (length events))
              [Some CRLF; Some (more_token (os s)); prompt s] filename)
    as (s' & -> & Hf & Htr).
  { rewrite Hsc1. exact Htail. }
  exists s'. split; [reflexivity|].
  split; [rewrite Hf, Hf1, str_app_nil_l; reflexivity|].
  rewrite Htr, Htr1, Htr0, !sent_app, sent_capture_calls. cbn.
  rewrite List.app_nil_r, <- List.app_assoc. reflexivity.
Qed.

Lemma write_output_to_file_timeout_keeps_partial_file_witness :
  exists s',
    write_output_to_file example_environment 3 "show tech" "/tmp/out/tech.txt"
      (ready "IOS" "R1#" None None
         [Matched EmptyString 1; Matched "------ show version ------" 1; TimedOut])
    = Raised (DeviceInteractionError "Timeout trying to capture output") s' /\
    files s' !! "/tmp/out/tech.txt" = Some ("------ show version ------" +:+ CRLF).
Proof.
  destruct (write_output_to_file_timeout_keeps_partial_file example_environment
              [Line "------ show version ------"] "show tech" "/tmp/out/tech.txt"
              (Matched EmptyString 1) [TimedOut] 3
              (ready "IOS" "R1#" None None
                 [Matched EmptyString 1; Matched "------ show version ------" 1; TimedOut]))
    as (s' & Hrun & Hfile & _).
  - reflexivity.
  - reflexivity.
  - reflexivity.
  - reflexivity.
  - right. exists []. reflexivity.
  - cbn. lia.
  - exists s'. split; [exact Hrun | exact Hfile].
Defined.

Lemma write_output_to_file_unopenable_state
    (E : environment) (s : session) (fuel : nat) (command filename message : string) :
  isabs E (dirname E filename) = true ->
  path_exists E (normpath E (dirname E filename)) = true ->
  open_error s filename = Some message ->
  write_output_to_file E fuel command filename s =
    Done tt
      (set_trace (trace s ++
                  [DialogMessageBox
                     ("IO Error for:" +:+ NL +:+ filename +:+ NL +:+ NL +:+ message)
                     "IO Error" 16]) s).
Proof.
  intros Habs Hex Hopen. unfold write_output_to_file, bind at 1.
  rewrite (validate_path_present E filename s Habs Hex).
  destruct s; simpl in Hopen |- *.
  unfold try_except_IOError, open, message_box. run.
  cbn -[capture_loop os_is strip lookup insert]. rewrite Hopen. reflexivity.
Qed.

(** A file that cannot be opened is the one failure [write_output_to_file]
    handles itself: it shows one message box with the stop icon and
    returns; the command is not sent and no file is touched.  The
    directory of the file is absolute and exists: the file itself is what
    cannot be opened. *)
Theorem write_output_to_file_unopenable_file
    (E : environment) (s : session) (fuel : nat) (command filename message : string) :
  isabs E (dirname E filename) = true ->
  path_exists E (normpath E (dirname E filename)) = true ->
  open_error s filename = Some message ->
  exists s',
    write_output_to_file E fuel command filename s = Done tt s' /\
    trace s' = trace s ++
               [DialogMessageBox
                  ("IO Error for:" +:+ NL +:+ filename +:+ NL +:+ NL +:+ message)
                  "IO Error" 16] /\
    script s' = script s /\ files s' = files s.
Proof.
  intros Habs Hex Hopen.
  rewrite (write_output_to_file_unopenable_state E s fuel _ _ _ Habs Hex Hopen).
  eexists. split; [reflexivity|]. destruct s; repeat split; reflexivity.
Qed.

Lemma write_output_to_file_unopenable_file_witness :
  let s := mkSession [Matched EmptyString 1] [] 0%nat true true (fun _ => 1) 0%nat
             (fun _ => Some "Permission denied") ∅ ∅ (Some "IOS") (Some "R1#")
             (Some "R1") (Some None) (Some None) true in
  exists s',
    write_output_to_file example_environment 5 "show version" "/tmp/out/version.txt" s
      = Done tt s' /\
    sent (trace s') = [] /\ files s' = ∅.
Proof.
  intros s.
  destruct (write_output_to_file_unopenable_file example_environment s 5 "show version"
              "/tmp/out/version.txt" "Permission denied") as (s' & Hrun & Htr & _ & Hf).
  - reflexivity.
  - reflexivity.
  - reflexivity.
  - exists s'. split; [exact Hrun|]. split; [rewrite Htr; reflexivity | exact Hf].
Defined.

(** The capture on lines and pager tokens ended by the prompt: what the
    file holds. *)
Lemma write_output_to_file_file (E : environment) (events : list capture_event)
    (command filename ptext : string) (echo : response) (rest : list response)
    (fuel : nat) (s : session) :
  isabs E (dirname E filename) = true ->
  path_exists E (normpath E (dirname E filename)) = true ->
  open_error s filename = None ->
  script s = echo :: map event_response events ++ Matched ptext 3 :: rest ->
  (length events < fuel)%nat ->
  exists s',
    write_output_to_file E fuel command filename s = Done tt s' /\
    files s' !! filename = Some (emitted events).
Proof.
  intros Habs Hex Hopen Hs Hfuel.
  destruct (write_output_to_file_prelude E s fuel command filename echo _ Habs Hex Hopen Hs)
    as (s0 & -> & Hsc0 & Hf0 & Htr0).
  unfold try_except_IOError.
  destruct (capture_loop_run events fuel [Some CRLF; Some (more_token (os s)); prompt s]
              filename EmptyString ptext s0 rest eq_refl Hfuel Hsc0)
    as (s' & Hrun & Hf & _).
  { rewrite Hf0. apply lookup_insert_eq. }
  exists s'. rewrite Hrun. split; [reflexivity|].
  rewrite Hf, str_app_nil_l. reflexivity.
Qed.

Lemma write_output_to_file_full (E : environment) (events : list capture_event)
    (command filename ptext : string) (echo : response) (rest : list response)
    (fuel : nat) (s : session) :
  isabs E (dirname E filename) = true ->
  path_exists E (normpath E (dirname E filename)) = true ->
  open_error s filename = None ->
  script s = echo :: map event_response events ++ Matched ptext 3 :: rest ->
  (length events < fuel)%nat ->
  exists s',
    write_output_to_file E fuel command filename s = Done tt s' /\
    files s' !! filename = Some (emitted events) /\
    sent (trace s') = sent (trace s) ++ (command +:+ NL) :: repeat " " (pagers_of events) /\
    script s' = rest.
Proof.
  intros Habs Hex Hopen Hs Hfuel.
  destruct (write_output_to_file_prelude E s fuel command filename echo _ Habs Hex Hopen Hs)
    as (s0 & -> & Hsc0 & Hf0 & Htr0).
  unfold try_except_IOError.
  destruct (capture_loop_run events fuel [Some CRLF; Some (more_token (os s)); prompt s]
              filename EmptyString ptext s0 rest eq_refl Hfuel Hsc0)
    as (s' & Hrun & Hf & Htr & Hsc).
  { rewrite Hf0. apply lookup_insert_eq. }
  exists s'. rewrite Hrun. split; [reflexivity|].
  split; [rewrite Hf, str_app_nil_l; reflexivity|].
  split; [|exact Hsc].
  rewrite Htr, Htr0, !sent_app, sent_capture_calls. cbn.
  rewrite List.app_nil_r, <- List.app_assoc. reflexivity.
Qed.

(** A line that is empty once the carriage returns and line feeds at its
    ends are removed leaves nothing in the file, not even a line end: the
    file is the same as if the device had not sent it.  The directory of
    the file is absolute and exists. *)
Theorem write_output_to_file_drops_blank_lines
    (E : environment) (before after : list capture_event)
    (blank command filename ptext : string)
    (echo : response) (rest : list response) (fuel : nat) (s : session) :
  isabs E (dirname E filename) = true ->
  path_exists E (normpath E (dirname E filename)) = true ->
  strip_chars CRLF blank = EmptyString ->
  open_error s filename = None ->
  script s = echo :: map event_response (before ++ Line blank :: after) ++
             Matched ptext 3 :: rest ->
  (S (length before + length after) < fuel)%nat ->
  exists s',
    write_output_to_file E fuel command filename s = Done tt s' /\
    files s' !! filename = Some (emitted (before ++ after)).
Proof.
  intros Habs Hex Hblank Hopen Hs Hfuel.
  destruct (write_output_to_file_file E (before ++ Line blank :: after) command filename
              ptext echo rest fuel s Habs Hex Hopen Hs) as (s' & Hrun & Hf).
  { rewrite length_app. cbn. lia. }
  exists s'. split; [exact Hrun|].
  rewrite Hf, !emitted_app. cbn [emitted]. unfold written. rewrite Hblank.
  cbn. rewrite str_app_nil_l. reflexivity.
Qed.

Lemma write_output_to_file_drops_blank_lines_witness :
  exists s',
    write_output_to_file example_environment 5 "show run" "/tmp/out/run.txt"
      (ready "IOS" "R1#" None None
         [Matched EmptyString 1; Matched "hostname R1" 1; Matched (String CR EmptyString) 1;
          Matched "end" 1; Matched EmptyString 3]) = Done tt s' /\
    files s' !! "/tmp/out/run.txt" = Some ("hostname R1" +:+ CRLF +:+ "end" +:+ CRLF).
Proof.
  destruct (write_output_to_file_drops_blank_lines example_environment
              [Line "hostname R1"] [Line "end"] (String CR EmptyString)
              "show run" "/tmp/out/run.txt" EmptyString (Matched EmptyString 1) [] 5
              (ready "IOS" "R1#" None None
                 [Matched EmptyString 1; Matched "hostname R1" 1;
                  Matched (String CR EmptyString) 1;
                  Matched "end" 1; Matched EmptyString 3]))
    as (s' & Hrun & Hf).
  - reflexivity.
  - reflexivity.
  - reflexivity.
  - reflexivity.
  - reflexivity.
  - cbn. lia.
  - exists s'. split; [exact Hrun | exact Hf].
Defined.

Lemma rstrip_length (chars x : string) :
  (String.length (rstrip chars x) <= String.length x)%nat.
Proof.
  induction x as [|c x IH]; [reflexivity|].
  cbn [rstrip]. destruct (rstrip chars x) as [|d r'].
  - destruct (char_in c chars); cbn; lia.
  - cbn in IH |- *. lia.
Qed.

Lemma lstrip_fixed_or_shorter (chars x : string) :
  lstrip chars x = x \/ (String.length (lstrip chars x) < String.length x)%nat.
Proof.
  induction x as [|c x IH]; [left; reflexivity|].
  cbn [lstrip]. destruct (char_in c chars); [|left; reflexivity].
  right. cbn. destruct IH as [-> | IH]; lia.
Qed.

Lemma strip_chars_fixed (chars x : string) :
  strip_chars chars x = x -> lstrip chars x = x /\ rstrip chars x = x.
Proof.
  unfold strip_chars. intros H.
  destruct (lstrip_fixed_or_shorter chars x) as [E | L].
  - rewrite E in H. auto.
  - pose proof (rstrip_length chars (lstrip chars x)) as R.
    rewrite H in R. lia.
Qed.

Lemma rstrip_fixed_app (chars a b : string) :
  rstrip chars b = b -> b <> EmptyString -> rstrip chars (a +:+ b) = a +:+ b.
Proof.
  intros Hb Hne. induction a as [|c a IH]; [rewrite str_app_nil_l; exact Hb|].
  rewrite str_app_cons. cbn [rstrip]. rewrite IH.
  destruct (a +:+ b) eqn:E; [|reflexivity].
  destruct a; [rewrite str_app_nil_l in E; contradiction | discriminate].
Qed.

Lemma skip_all_run (c : ascii) (n : nat) (x : string) :
  Re.skip_all c (run_of c n +:+ x) = Re.skip_all c x.
Proof.
  induction n as [|n IH]; [reflexivity|].
  cbn [run_of]. rewrite str_app_cons. cbn [Re.skip_all].
  rewrite Ascii.eqb_refl. exact IH.
Qed.

Lemma plus_run (c : ascii) (n : nat) (x : string) :
  Re.skip_all c x = x -> Re.plus c (run_of c (S n) +:+ x) = Some x.
Proof.
  intros Hx. cbn [run_of]. rewrite str_app_cons. cbn [Re.plus].
  rewrite Ascii.eqb_refl, skip_all_run, Hx. reflexivity.
Qed.

(** The pattern of the capture on a line that follows an erasure. *)
Lemma re_more_match_erasure (a b c : nat) (line : string) :
  Re.skip_all BS line = line ->
  Re.re_more_match (erasure a b c +:+ line) = Some (Re.dot_star line).
Proof.
  intros Hline. unfold erasure. rewrite str_app_cons, !str_app_assoc.
  cbn [Re.re_more_match]. change (Ascii.eqb SP SP) with true. cbv iota.
  rewrite plus_run by (cbn [run_of]; rewrite str_app_cons; reflexivity).
  cbn [mbind option_bind].
  rewrite plus_run by (cbn [run_of]; rewrite str_app_cons; reflexivity).
  cbn [mbind option_bind].
  rewrite plus_run by exact Hline.
  reflexivity.
Qed.

(** The line that follows a pager token comes behind the erasure of the
    token (a space, backspaces, spaces, backspaces, in any numbers); the
    capture writes the line without it.  The line is non-empty, of 7-bit
    characters, without line feed inside or line end characters around it,
    and does not start with a backspace.  The directory of the file is
    absolute and exists. *)
Theorem write_output_to_file_removes_erasure
    (E : environment) (before after : list capture_event) (a b c : nat)
    (seen line command filename ptext : string)
    (echo : response) (rest : list response) (fuel : nat) (s : session) :
  isabs E (dirname E filename) = true ->
  path_exists E (normpath E (dirname E filename)) = true ->
  line <> EmptyString ->
  strip_chars CRLF line = line ->
  is_7bit line = true ->
  Re.dot_star line = line ->
  Re.skip_all BS line = line ->
  open_error s filename = None ->
  script s = echo :: map event_response
                       (before ++ Pager seen :: Line (erasure a b c +:+ line) :: after) ++
             Matched ptext 3 :: rest ->
  (S (S (length before + length after)) < fuel)%nat ->
  exists s',
    write_output_to_file E fuel command filename s = Done tt s' /\
    files s' !! filename =
      Some (emitted before +:+ line +:+ CRLF +:+ emitted after).
Proof.
  intros Habs Hex Hne Hstrip H7 Hdot Hbs Hopen Hs Hfuel.
  destruct (write_output_to_file_file E _ command filename ptext echo rest fuel s
              Habs Hex Hopen Hs)
    as (s' & Hrun & Hf).
  { rewrite length_app. cbn. lia. }
  exists s'. split; [exact Hrun|].
  rewrite Hf, emitted_app. cbn [emitted]. do 2 f_equal.
  rewrite <- str_app_assoc. f_equal.
  destruct (strip_chars_fixed CRLF line Hstrip) as [_ Hr].
  unfold written.
  assert (Hs0 : strip_chars CRLF (erasure a b c +:+ line) = erasure a b c +:+ line).
  { unfold strip_chars, erasure. rewrite str_app_cons. cbn [lstrip].
    change (char_in SP CRLF) with false. cbv iota.
    rewrite <- str_app_cons. apply rstrip_fixed_app; assumption. }
  rewrite Hs0.
  assert (Hnz : String.eqb (erasure a b c +:+ line) EmptyString = false).
  { unfold erasure. rewrite str_app_cons. reflexivity. }
  rewrite Hnz. cbn [negb].
  rewrite re_more_match_erasure by exact Hbs.
  rewrite Hdot, Hstrip, encode_ascii_ignore_7bit by exact H7. reflexivity.
Qed.

Lemma write_output_to_file_removes_erasure_witness :
  exists s',
    write_output_to_file example_environment 5 "show version" "/tmp/out/version.txt"
      (ready "ASA" "fw#" None None
         [Matched EmptyString 1;
          Matched "Cisco Adaptive Security Appliance" 1;
          Matched EmptyString 2;
          Matched (erasure 1 1 1 +:+ "Hardware: ASA5515") 1;
          Matched EmptyString 3]) = Done tt s' /\
    files s' !! "/tmp/out/version.txt" =
      Some ("Cisco Adaptive Security Appliance" +:+ CRLF +:+ "Hardware: ASA5515" +:+ CRLF).
Proof.
  destruct (write_output_to_file_removes_erasure example_environment
              [Line "Cisco Adaptive Security Appliance"] [] 1 1 1 EmptyString
              "Hardware: ASA5515" "show version" "/tmp/out/version.txt" EmptyString
              (Matched EmptyString 1) [] 5
              (ready "ASA" "fw#" None None
                 [Matched EmptyString 1;
                  Matched "Cisco Adaptive Security Appliance" 1;
                  Matched EmptyString 2;
                  Matched (erasure 1 1 1 +:+ "Hardware: ASA5515") 1;
                  Matched EmptyString 3]))
    as (s' & Hrun & Hf).
  - reflexivity.
  - reflexivity.
  - discriminate.
  - reflexivity.
  - reflexivity.
  - reflexivity.
  - reflexivity.
  - reflexivity.
  - reflexivity.
  - cbn. lia.
  - exists s'. split; [exact Hrun|]. rewrite Hf. vm_compute. reflexivity.
Defined.

End CaptureMore.

(* ===================================================================== *)
(** * Further properties: the directory of the output file *)
(* ===================================================================== *)

Section PathValidation.
Import Py PyFacts CRTSession.

(** [end] when the settings say not to touch the terminal: nothing is
    sent, and the session is reset. *)
Lemma end_without_restore (s : session) :
  modify_term s = false ->
  end_ s = Done tt (set_IgnoreEscape false (set_Synchronous false
                      (set_os None (set_hostname None (set_prompt None s))))).
Proof.
  intros Hm. destruct s; simpl in Hm; subst.
  unfold end_. run. cbn.
  match goal with |- context [truthy ?p] => destruct (truthy p) end; reflexivity.
Qed.

(** A file name whose directory is not absolute, such as a bare file
    name: [write_output_to_file] shows the 'Path Error' box, ends the
    session and leaves the script by [sys.exit()].  The command is not
    sent, nothing is read from the device and no file is made.  The
    setting that [end] restores the terminal is off here, so that [end]
    sends nothing. *)
Theorem write_output_to_file_relative_directory_exits
    (E : environment) (fuel : nat) (command filename : string) (s : session) :
  isabs E (dirname E filename) = false ->
  modify_term s = false ->
  exists s',
    write_output_to_file E fuel command filename s = Raised SystemExit s' /\
    trace s' = trace s ++
               [DialogMessageBox
                  ("Directory is invalid. Please correct" +:+ NL +:+
                   "the path in the script settings." +:+ NL +:+
                   "Dir: " +:+ dirname E filename) "Path Error" 16] /\
    files s' = files s /\ script s' = script s /\
    prompt s' = None /\ hostname s' = None /\ os s' = None.
Proof.
  intros Habs Hm.
  unfold write_output_to_file, bind at 1. unfold validate_path. cbv zeta.
  rewrite Habs. cbn [negb]. unfold bind at 1. unfold bind at 1.
  unfold message_box, bind at 1. unfold crt.Dialog.MessageBox, log, modify.
  unfold ret at 1. unfold bind at 1.
  rewrite end_without_restore by (destruct s; exact Hm).
  unfold raise. eexists. split; [reflexivity|].
  destruct s; repeat split; reflexivity.
Qed.

Lemma write_output_to_file_relative_directory_exits_witness :
  let s := mkSession [Matched EmptyString 1] [] 0%nat true true (fun _ => 1) 0%nat
             (fun _ => None) ∅ ∅ (Some "IOS") (Some "R1#")
             (Some "R1") (Some (Some "24")) (Some (Some "80")) false in
  exists s',
    write_output_to_file example_environment 5 "show version" "version.txt" s
      = Raised SystemExit s' /\
    sent (trace s') = [] /\ files s' = ∅ /\ script s' = [Matched EmptyString 1].
Proof.
  intros s.
  destruct (write_output_to_file_relative_directory_exits example_environment 5
              "show version" "version.txt" s) as (s' & Hrun & Htr & Hf & Hsc & _).
  - reflexivity.
  - reflexivity.
  - exists s'. split; [exact Hrun|].
    split; [rewrite Htr; reflexivity|]. split; [exact Hf | exact Hsc].
Defined.

(** A directory that is absolute and does not exist: [validate_path] asks
    whether to create it, in a box with the question icon, the buttons
    Yes and No, and No as the default.  On Yes it makes the directory and
    returns; on any other answer it shows the 'Invalid Path' box, ends
    the session and leaves the script by [sys.exit()].  Nothing is sent
    to the device either way; the setting that [end] restores the
    terminal is off here. *)
Theorem validate_path_asks_before_creating
    (E : environment) (path : string) (s : session) :
  let base_dir := dirname E path in
  let question := "The path: '" +:+ base_dir +:+
                  "' does not exist.  Do you want to create it?." in
  let yes := clicked E question "Create Directory?" 292 =? IDYES in
  isabs E base_dir = true ->
  path_exists E (normpath E base_dir) = false ->
  modify_term s = false ->
  exists s',
    validate_path E path s = (if yes then Done tt s' else Raised SystemExit s') /\
    trace s' = trace s ++
               DialogMessageBox question "Create Directory?" 292 ::
               (if yes then [OsMakedirs base_dir]
                else [DialogMessageBox "Output directory does not exist.  Exiting."
                        "Invalid Path" 16]) /\
    files s' = files s /\ script s' = script s /\
    prompt s' = (if yes then prompt s else None).
Proof.
  intros base_dir question yes Habs Hex Hm.
  unfold validate_path. cbv zeta. fold base_dir. rewrite Habs, Hex. cbn [negb].
  unfold bind at 1. unfold ret at 1. unfold bind at 1.
  unfold message_box at 1, bind at 1. unfold crt.Dialog.MessageBox, log, modify.
  unfold ret at 1.
  change (Z.lor (Z.lor ICON_QUESTION BUTTON_YESNO) DEFBUTTON2) with 292.
  fold question. fold yes. destruct yes.
  - unfold os_makedirs, log, modify. eexists. split; [reflexivity|].
    destruct s; cbn. rewrite <- List.app_assoc. repeat split; reflexivity.
  - unfold bind at 1. unfold message_box, bind at 1.
    unfold crt.Dialog.MessageBox, log, modify. unfold ret at 1. unfold bind at 1.
    rewrite end_without_restore by (destruct s; exact Hm).
    unfold raise. eexists. split; [reflexivity|].
    destruct s; cbn. rewrite <- List.app_assoc. repeat split; reflexivity.
Qed.

Lemma validate_path_asks_before_creating_witness :
  let s := mkSession [Matched EmptyString 1] [] 0%nat true true (fun _ => 1) 0%nat
             (fun _ => None) ∅ ∅ (Some "IOS") (Some "R1#")
             (Some "R1") (Some (Some "24")) (Some (Some "80")) false in
  exists s',
    validate_path example_environment "/var/log/net/run.txt" s = Raised SystemExit s' /\
    trace s' = [DialogMessageBox
                  "The path: '/var/log/net' does not exist.  Do you want to create it?."
                  "Create Directory?" 292;
                DialogMessageBox "Output directory does not exist.  Exiting."
                  "Invalid Path" 16] /\
    prompt s' = None.
Proof.
  intros s.
  destruct (validate_path_asks_before_creating example_environment
              "/var/log/net/run.txt" s) as (s' & Hrun & Htr & _ & _ & Hp).
  - reflexivity.
  - reflexivity.
  - reflexivity.
  - exists s'. split; [exact Hrun|]. split; [exact Htr | exact Hp].
Defined.

(** The same question answered Yes: the directory is made, and the
    capture goes on to open the file and send the command. *)
Example write_output_to_file_creates_directory :
  let E := mkEnvironment (Py.startswith "/") (fun a b => a +:+ "/" +:+ b) (fun p => p)
             (fun p => p) (fun p => p) (fun p => p) (fun p => p) (fun _ => "2017-05-01")
             (fun b => b) "/tmp/out" "%Y-%m-%d" false "/scripts" "/tmp/out/debugs"
             posix_dirname (fun d => String.eqb d "/tmp/out") (fun _ _ _ => IDYES) in
  exists s',
    write_output_to_file E 3 "show clock" "/var/log/net/clock.txt"
      (ready "IOS" "R1#" (Some "24") (Some "80")
         [Matched EmptyString 1; Matched "12:00:00.000 UTC Mon May 1 2017" 1;
          Matched EmptyString 3]) = Done tt s' /\
    files s' !! "/var/log/net/clock.txt" =
      Some ("12:00:00.000 UTC Mon May 1 2017" +:+ CRLF) /\
    firstn 3 (trace s') =
      [DialogMessageBox
         "The path: '/var/log/net' does not exist.  Do you want to create it?."
         "Create Directory?" 292;
       OsMakedirs "/var/log/net";
       TabSend ("show clock" +:+ NL)].
Proof.
  intros E. eexists. split; [vm_compute; reflexivity|].
  split; vm_compute; reflexivity.
Qed.

End PathValidation.

(* ===================================================================== *)
(** * Further properties: the size of the terminal *)
(* ===================================================================== *)

Section TerminalSize.
Import Py PyFacts CRTSession.

(** The pattern of a number finds the first run of digits, whole. *)
Lemma digits_prefix_run (d b : string) :
  all_digits d = true -> no_digit_first b = true -> Re.digits_prefix (d +:+ b) = d.
Proof.
  intros Hd Hb. induction d as [|c d IH].
  - rewrite str_app_nil_l. destruct b as [|x b]; [reflexivity|].
    cbn in Hb |- *. destruct (Re.is_digit x); [discriminate | reflexivity].
  - cbn [all_digits] in Hd. apply andb_true_iff in Hd as [Hc Hd].
    rewrite str_app_cons. cbn [Re.digits_prefix]. rewrite Hc, IH by exact Hd. reflexivity.
Qed.

Lemma re_num_search_first_run (a d b : string) :
  no_digit a = true -> d <> EmptyString -> all_digits d = true ->
  no_digit_first b = true ->
  Re.re_num_search (a +:+ d +:+ b) = Some d.
Proof.
  intros Ha Hne Hd Hb. induction a as [|c a IH].
  - rewrite str_app_nil_l. destruct d as [|x d]; [contradiction|].
    pose proof (digits_prefix_run (String x d) b Hd Hb) as Hp.
    cbn [all_digits] in Hd. apply andb_true_iff in Hd as [Hx _].
    rewrite str_app_cons in Hp |- *. cbn [Re.re_num_search]. rewrite Hx, Hp. reflexivity.
  - cbn [no_digit] in Ha. apply andb_true_iff in Ha as [Hc Ha].
    rewrite str_app_cons. cbn [Re.re_num_search].
    destruct (Re.is_digit c); [discriminate|]. apply IH. exact Ha.
Qed.

Lemma re_num_search_no_digit (a : string) :
  no_digit a = true -> Re.re_num_search a = None.
Proof.
  induction a as [|c a IH]; [reflexivity|].
  cbn [no_digit Re.re_num_search]. intros H. apply andb_true_iff in H as [Hc Ha].
  destruct (Re.is_digit c); [discriminate|]. apply IH. exact Ha.
Qed.

(** [split(',')] on a text that has no comma, and on one that has. *)
Lemma split_without_sep (sep : ascii) (x : string) :
  no_char_of (String sep EmptyString) x = true -> split sep x = [x].
Proof.
  induction x as [|c x IH]; [reflexivity|].
  cbn [no_char_of char_in split]. intros H. apply andb_true_iff in H as [Hc Hx].
  destruct (Ascii.eqb c sep); [discriminate|]. rewrite IH by exact Hx. reflexivity.
Qed.

Lemma split_at_first_sep (sep : ascii) (a b : string) :
  no_char_of (String sep EmptyString) a = true ->
  split sep (a +:+ String sep b) = a :: split sep b.
Proof.
  induction a as [|c a IH].
  - intros _. rewrite str_app_nil_l. cbn [split]. rewrite Ascii.eqb_refl. reflexivity.
  - cbn [no_char_of char_in]. intros H. apply andb_true_iff in H as [Hc Ha].
    rewrite str_app_cons. cbn [split].
    destruct (Ascii.eqb c sep); [discriminate|]. rewrite IH by exact Ha. reflexivity.
Qed.

(** The single-shot capture, with the session it leaves. *)
Lemma get_output_state (s : session) (command w text : string) (rest : list response) :
  script s = Matched w 1 :: Matched text 1 :: rest ->
  __get_output command s =
    Done (strip_chars CRLF text)
      (set_MatchIndex 1%nat
         (set_script rest
            (set_trace (trace s ++ [TabSend (strip command +:+ NL);
                                    TabWaitForString (Some command) None;
                                    TabReadString [prompt s] None]) s))).
Proof.
  intros Hs. destruct s; simpl in Hs; subst.
  unfold __get_output. run. cbn. rewrite <- !List.app_assoc. reflexivity.
Qed.

(** On IOS and NXOS the length and the width are the first numbers of the
    two comma-separated parts of the answer to [show terminal | i Length]:
    from [Length: 24 lines, Width: 80 columns] they are [24] and [80]. *)
Theorem get_term_info_IOS_NXOS_numbers
    (s : session) (w text : string) (rest : list response)
    (a1 d1 b1 a2 d2 b2 : string) :
  os s = Some "IOS" \/ os s = Some "NXOS" ->
  script s = Matched w 1 :: Matched text 1 :: rest ->
  strip_chars CRLF text = (a1 +:+ d1 +:+ b1) +:+ "," +:+ (a2 +:+ d2 +:+ b2) ->
  no_char_of "," (a1 +:+ d1 +:+ b1) = true ->
  no_char_of "," (a2 +:+ d2 +:+ b2) = true ->
  no_digit a1 = true -> d1 <> EmptyString -> all_digits d1 = true ->
  no_digit_first b1 = true ->
  no_digit a2 = true -> d2 <> EmptyString -> all_digits d2 = true ->
  no_digit_first b2 = true ->
  exists s',
    __get_term_info s = Done (Some d1, Some d2) s' /\
    sent (trace s') = sent (trace s) ++ ["show terminal | i Length" +:+ NL] /\
    script s' = rest.
Proof.
  intros Ho Hs Htext Hc1 Hc2 Ha1 Hn1 Hd1 Hb1 Ha2 Hn2 Hd2 Hb2.
  unfold __get_term_info, bind at 1, gets.
  assert (Hfam : os_is (os s) "IOS" || os_is (os s) "NXOS" = true).
  { unfold os_is. destruct Ho as [-> | ->]; reflexivity. }
  rewrite Hfam. unfold bind at 1.
  rewrite (get_output_state s _ w text rest Hs), Htext.
  change ("," +:+ (a2 +:+ d2 +:+ b2)) with (String "," (a2 +:+ d2 +:+ b2)).
  rewrite split_at_first_sep by exact Hc1.
  rewrite split_without_sep by exact Hc2.
  unfold bind, or_raise, ret, list_getitem. cbn [lookup list_lookup].
  rewrite !re_num_search_first_run by assumption.
  eexists. split; [reflexivity|]. destruct s; cbn.
  rewrite sent_app. split; reflexivity.
Qed.

Lemma get_term_info_IOS_NXOS_numbers_witness :
  exists s',
    __get_term_info
      (ready "IOS" "R1#" None None
         [Matched EmptyString 1;
          Matched (CRLF +:+ "Length: 24 lines, Width: 80 columns" +:+ CRLF) 1])
    = Done (Some "24", Some "80") s'.
Proof.
  destruct (get_term_info_IOS_NXOS_numbers
              (ready "IOS" "R1#" None None
                 [Matched EmptyString 1;
                  Matched (CRLF +:+ "Length: 24 lines, Width: 80 columns" +:+ CRLF) 1])
              EmptyString (CRLF +:+ "Length: 24 lines, Width: 80 columns" +:+ CRLF) []
              "Length: " "24" " lines" " Width: " "80" " columns")
    as (s' & Hrun & _).
  - left. reflexivity.
  - reflexivity.
  - reflexivity.
  - reflexivity.
  - reflexivity.
  - reflexivity.
  - discriminate.
  - reflexivity.
  - reflexivity.
  - reflexivity.
  - discriminate.
  - reflexivity.
  - reflexivity.
  - exists s'. exact Hrun.
Defined.

Lemma get_term_info_without_comma_state
    (s : session) (w text : string) (rest : list response) :
  os s = Some "IOS" \/ os s = Some "NXOS" ->
  script s = Matched w 1 :: Matched text 1 :: rest ->
  no_char_of "," (strip_chars CRLF text) = true ->
  __get_term_info s =
    Raised IndexError
      (set_MatchIndex 1%nat
         (set_script rest
            (set_trace (trace s ++ [TabSend ("show terminal | i Length" +:+ NL);
                                    TabWaitForString (Some "show terminal | i Length") None;
                                    TabReadString [prompt s] None]) s))).
Proof.
  intros Ho Hs Hc.
  unfold __get_term_info, bind at 1, gets.
  assert (Hfam : os_is (os s) "IOS" || os_is (os s) "NXOS" = true).
  { unfold os_is. destruct Ho as [-> | ->]; reflexivity. }
  rewrite Hfam. unfold bind at 1.
  rewrite (get_output_state s _ w text rest Hs).
  rewrite split_without_sep by exact Hc.
  reflexivity.
Qed.

(** When that answer has no comma, the second part is missing and
    [__get_term_info] raises [IndexError]; the command was sent, and the
    length and width attributes are left as they were. *)
Theorem get_term_info_without_comma_IndexError
    (s : session) (w text : string) (rest : list response) :
  os s = Some "IOS" \/ os s = Some "NXOS" ->
  script s = Matched w 1 :: Matched text 1 :: rest ->
  no_char_of "," (strip_chars CRLF text) = true ->
  exists s',
    __get_term_info s = Raised IndexError s' /\
    sent (trace s') = sent (trace s) ++ ["show terminal | i Length" +:+ NL] /\
    term_len s' = term_len s /\ term_width s' = term_width s /\
    os s' = os s /\ prompt s' = prompt s.
Proof.
  intros Ho Hs Hc.
  rewrite (get_term_info_without_comma_state s w text rest Ho Hs Hc).
  eexists. split; [reflexivity|]. destruct s; cbn.
  rewrite sent_app. repeat split; reflexivity.
Qed.

Lemma get_term_info_without_comma_IndexError_witness :
  exists s',
    __get_term_info
      (ready "NXOS" "n9k#" None None
         [Matched EmptyString 1; Matched (CRLF +:+ "Length: 0 lines" +:+ CRLF) 1])
    = Raised IndexError s'.
Proof.
  destruct (get_term_info_without_comma_IndexError
              (ready "NXOS" "n9k#" None None
                 [Matched EmptyString 1; Matched (CRLF +:+ "Length: 0 lines" +:+ CRLF) 1])
              EmptyString (CRLF +:+ "Length: 0 lines" +:+ CRLF) [])
    as (s' & Hrun & _).
  - right. reflexivity.
  - reflexivity.
  - reflexivity.
  - exists s'. exact Hrun.
Defined.

Lemma getitem_second (c0 c1 : ascii) (r : string) :
  getitem (String c0 (String c1 r)) 1 = Some c1.
Proof.
  unfold getitem, len. cbn [String.length].
  change (1 <? 0) with false. cbv iota.
  destruct (Z.ltb_spec 1 0) as [L|_]; [lia|].
  destruct (Z.leb_spec (Z.of_nat (S (S (String.length r)))) 1) as [L|_]; [lia|].
  reflexivity.
Qed.

Lemma getitem_second_missing (x : string) :
  (String.length x < 2)%nat -> getitem x 1 = None.
Proof.
  intros H. unfold getitem, len. change (1 <? 0) with false. cbv iota.
  destruct (Z.leb_spec (Z.of_nat (String.length x)) 1) as [_|L]; [|lia].
  rewrite orb_true_r. reflexivity.
Qed.

(** On an ASA the length is the first number of the answer to
    [show pager], but the width is looked for in the second character of
    the answer to [show terminal] and nowhere else: it is that character
    when it is a digit, and [None] otherwise, so no width of two digits is
    ever found. *)
Theorem get_term_info_ASA_width_from_second_character
    (s : session) (w1 pager w2 terminal : string) (rest : list response)
    (c0 c1 : ascii) (r : string) :
  os s = Some "ASA" ->
  script s = Matched w1 1 :: Matched pager 1 :: Matched w2 1 :: Matched terminal 1 :: rest ->
  strip_chars CRLF terminal = String c0 (String c1 r) ->
  exists s',
    __get_term_info s =
      Done (Re.re_num_search (strip_chars CRLF pager),
            if Re.is_digit c1 then Some (String c1 EmptyString) else None) s' /\
    sent (trace s') = sent (trace s) ++ ["show pager" +:+ NL; "show terminal" +:+ NL].
Proof.
  intros Ho Hs Hterm. destruct s; simpl in Ho, Hs; subst.
  unfold __get_term_info, bind at 1, gets. cbn [os].
  change (os_is (Some "ASA") "IOS" || os_is (Some "ASA") "NXOS") with false.
  change (os_is (Some "ASA") "ASA") with true. cbv iota.
  unfold bind at 1.
  rewrite (get_output_state _ _ w1 pager (Matched w2 1 :: Matched terminal 1 :: rest))
    by reflexivity.
  unfold bind at 1.
  rewrite (get_output_state _ _ w2 terminal rest) by reflexivity.
  rewrite Hterm, getitem_second.
  unfold bind, or_raise, ret. cbn [Re.re_num_search Re.digits_prefix].
  destruct (Re.is_digit c1);
    (eexists; split; [reflexivity|]); cbn; rewrite !sent_app; cbn;
    rewrite <- List.app_assoc; reflexivity.
Qed.

Lemma get_term_info_ASA_width_from_second_character_witness :
  exists s',
    __get_term_info
      (ready "ASA" "fw#" None None
         [Matched EmptyString 1; Matched (CRLF +:+ "pager lines 24" +:+ CRLF) 1;
          Matched EmptyString 1; Matched (CRLF +:+ "Width = 80, no monitor" +:+ CRLF) 1])
    = Done (Some "24", None) s'.
Proof.
  destruct (get_term_info_ASA_width_from_second_character
              (ready "ASA" "fw#" None None
                 [Matched EmptyString 1; Matched (CRLF +:+ "pager lines 24" +:+ CRLF) 1;
                  Matched EmptyString 1;
                  Matched (CRLF +:+ "Width = 80, no monitor" +:+ CRLF) 1])
              EmptyString (CRLF +:+ "pager lines 24" +:+ CRLF)
              EmptyString (CRLF +:+ "Width = 80, no monitor" +:+ CRLF) []
              "W" "i" "dth = 80, no monitor")
    as (s' & Hrun & _).
  - reflexivity.
  - reflexivity.
  - reflexivity.
  - exists s'. exact Hrun.
Defined.

End TerminalSize.

(* ===================================================================== *)
(** * Further properties: the end of a session *)
(* ===================================================================== *)

Section EndOfSession.
Import Py PyFacts CRTSession.

Lemma bind_Done_inv {A B : Type} (c : M A) (k : A -> M B) (s s' : session) (b : B) :
  bind c k s = Done b s' -> exists a s1, c s = Done a s1 /\ k a s1 = Done b s'.
Proof.
  unfold bind. destruct (c s) as [a s1| | |]; try discriminate.
  intros H. exists a, s1. split; [reflexivity | exact H].
Qed.

(** Whenever [end] returns, the session has forgotten the prompt, the
    hostname and the family of the device and has switched the two modes
    of the tab off; the files are as they were.  Ending the session once
    more then returns without any call on the host. *)
Theorem end_resets_and_is_idempotent (s s' : session) :
  end_ s = Done tt s' ->
  prompt s' = None /\ hostname s' = None /\ os s' = None /\
  Synchronous s' = false /\ IgnoreEscape s' = false /\
  exists s'', end_ s' = Done tt s'' /\ trace s'' = trace s' /\ script s'' = script s'.
Proof.
  unfold end_ at 1. intros H.
  apply bind_Done_inv in H as (p & s0 & _ & H).
  apply bind_Done_inv in H as (u & s1 & _ & H).
  destruct s1. cbn in H. injection H as <-. cbn.
  repeat (split; [reflexivity|]).
  eexists. split; [reflexivity|]. split; reflexivity.
Qed.

Lemma end_resets_and_is_idempotent_witness :
  exists s' s'',
    end_ (ready "IOS" "R1#" (Some "24") (Some "80")
            [Matched EmptyString 1; Matched EmptyString 1]) = Done tt s' /\
    sent (trace s') = ["term length 24" +:+ NL; "term width 80" +:+ NL] /\
    prompt s' = None /\
    end_ s' = Done tt s'' /\ trace s'' = trace s'.
Proof.
  eexists.
  destruct (end_resets_and_is_idempotent
              (ready "IOS" "R1#" (Some "24") (Some "80")
                 [Matched EmptyString 1; Matched EmptyString 1])
              _ eq_refl) as (Hp & _ & _ & _ & _ & s'' & Hrun & Htr & _).
  exists s''. split; [reflexivity|]. split; [reflexivity|].
  split; [exact Hp|]. split; [exact Hrun | exact Htr].
Defined.

(** [end] reads the saved terminal length before it forgets anything.  On
    a session that knows its prompt and family but never got as far as
    saving the length (the attribute was not assigned), it raises
    [AttributeError] and resets nothing: prompt and family stay, and
    nothing is sent. *)
Lemma end_before_terminal_size (s : session) (p family : string) :
  prompt s = Some p -> p <> EmptyString ->
  modify_term s = true ->
  os s = Some family -> family = "IOS" \/ family = "NXOS" \/ family = "ASA" ->
  term_len s = None ->
  end_ s = Raised AttributeError s.
Proof.
  intros Hp Hne Hm Ho Hfam Hl. destruct s; simpl in *; subst.
  destruct p as [|c p]; [contradiction|].
  unfold end_. run. cbn.
  destruct Hfam as [-> | [-> | ->]]; reflexivity.
Qed.

End EndOfSession.

(* ===================================================================== *)
(** * Further properties: the start of a session *)
(* ===================================================================== *)

Section StartOfSession.
Import Py PyFacts CRTSession.

(** A prompt of two characters or more that ends in [#], not behind a
    [)]: [__get_prompt] returns it, whatever the session knew before. *)
Lemma get_prompt_accepts (s : session) (w text : string) (rest : list response)
    (body : string) (a : ascii) :
  script s = Matched w 1 :: Matched text 1 :: rest ->
  strip text = body +:+ String a "#" ->
  a <> ")"%char ->
  __get_prompt s =
    Done (Some (strip text))
      (set_MatchIndex 1%nat (set_script rest (set_trace (trace s ++ prompt_calls) s))).
Proof.
  intros Hs Hc Ha. destruct s; simpl in Hs; subst.
  unfold __get_prompt. run. cbn -[strip getitem end_].
  assert (Hlast : getitem (body +:+ String a "#") (-1) = Some "#"%char).
  { change (String a "#") with (String a EmptyString +:+ "#").
    rewrite <- str_app_assoc. apply getitem_last. }
  rewrite Hc, Hlast, (getitem_before_last body a "#"). cbn -[strip getitem end_].
  destruct (Ascii.eqb_spec a ")") as [E|_]; [contradiction|].
  cbn. rewrite <- !List.app_assoc. reflexivity.
Qed.

Lemma get_network_os_state (s : session) (w text : string) (rest : list response) :
  script s = Matched w 1 :: Matched text 1 :: rest ->
  __get_network_os s =
    let s1 := set_MatchIndex 1%nat
                (set_script rest
                   (set_trace (trace s ++ [TabSend ("show version | i Cisco" +:+ NL);
                                           TabWaitForString (Some "show version | i Cisco") None;
                                           TabReadString [prompt s] None]) s)) in
    match version_family (strip_chars CRLF text) with
    | Some family => Done family s1
    | None => Raised (OSDetectError "Unknown or Unsupported device OS.") s1
    end.
Proof.
  intros Hs. unfold __get_network_os, bind.
  rewrite (get_output_state s _ w text rest Hs). unfold version_family, ret, raise. cbv zeta.
  destruct (contains "IOS XE" _); [reflexivity|].
  destruct (contains "Cisco IOS Software" _ || _); [reflexivity|].
  destruct (contains "Cisco Nexus Operating System" _); [reflexivity|].
  destruct (contains "Adaptive Security Appliance" _); reflexivity.
Qed.

Lemma get_term_info_IOS_NXOS_state (s : session) (w text : string) (rest : list response)
    (x1 x2 : string) :
  os s = Some "IOS" \/ os s = Some "NXOS" ->
  script s = Matched w 1 :: Matched text 1 :: rest ->
  strip_chars CRLF text = x1 +:+ "," +:+ x2 ->
  no_char_of "," x1 = true -> no_char_of "," x2 = true ->
  __get_term_info s =
    Done (Re.re_num_search x1, Re.re_num_search x2)
      (set_MatchIndex 1%nat
         (set_script rest
            (set_trace (trace s ++ [TabSend ("show terminal | i Length" +:+ NL);
                                    TabWaitForString (Some "show terminal | i Length") None;
                                    TabReadString [prompt s] None]) s))).
Proof.
  intros Ho Hs Htext Hc1 Hc2.
  unfold __get_term_info, bind at 1, gets.
  assert (Hfam : os_is (os s) "IOS" || os_is (os s) "NXOS" = true).
  { unfold os_is. destruct Ho as [-> | ->]; reflexivity. }
  rewrite Hfam. unfold bind at 1.
  rewrite (get_output_state s _ w text rest Hs), Htext.
  change ("," +:+ x2) with (String "," x2).
  rewrite split_at_first_sep by exact Hc1.
  rewrite split_without_sep by exact Hc2.
  reflexivity.
Qed.

(** The start of a session on an IOS or NXOS device.  The prompt, the
    hostname (the prompt without its last character), the family and the
    two numbers of the terminal are kept; then, when the settings ask for
    it, [term length 0] and the width command of the family ([term width
    0] on IOS, [term width 511] on NXOS) are sent.  Both commands depend on
    the length alone: when a length was found they are both sent, also
    when no width was found; when none was found, neither is sent. *)
Theorem start_IOS_NXOS
    (s : session) (w1 ptext w2 vtext w3 ttext : string) (ws : list string)
    (rest : list response) (body : string) (a : ascii) (family x1 x2 : string) :
  modify_term s = true ->
  strip ptext = body +:+ String a "#" -> a <> ")"%char ->
  version_family (strip_chars CRLF vtext) = Some family ->
  family = "IOS" \/ family = "NXOS" ->
  strip_chars CRLF ttext = x1 +:+ "," +:+ x2 ->
  no_char_of "," x1 = true -> no_char_of "," x2 = true ->
  length ws = (if truthy (Re.re_num_search x1) then 2 else 0)%nat ->
  script s = discovery w1 ptext w2 vtext w3 ttext ++ prompts_back ws ++ rest ->
  exists s',
    __start s = Done tt s' /\
    prompt s' = Some (strip ptext) /\
    hostname s' = Some (body +:+ String a EmptyString) /\
    os s' = Some family /\
    term_len s' = Some (Re.re_num_search x1) /\
    term_width s' = Some (Re.re_num_search x2) /\
    Synchronous s' = true /\ IgnoreEscape s' = true /\
    script s' = rest /\
    sent (trace s') =
      sent (trace s) ++
      [CRLF +:+ CRLF; "show version | i Cisco" +:+ NL; "show terminal | i Length" +:+ NL] ++
      (if truthy (Re.re_num_search x1)
       then ["term length 0" +:+ NL;
             (if String.eqb family "IOS" then "term width 0" else "term width 511") +:+ NL]
       else []).
Proof.
  intros Hm Hp Ha Hv Hfam Ht Hc1 Hc2 Hws Hs.
  destruct s; simpl in Hm, Hs; subst.
  assert (Hhost : slice_to (body +:+ String a "#") (-1) = body +:+ String a EmptyString).
  { change (String a "#") with (String a EmptyString +:+ "#").
    rewrite <- str_app_assoc. apply slice_to_drop_last. }
  unfold __start, discovery. unfold bind at 1. unfold modify at 1. cbn [set_Synchronous].
  unfold bind at 1. unfold modify at 1. cbn [set_IgnoreEscape].
  unfold bind at 1.
  rewrite (get_prompt_accepts _ w1 ptext _ body a) by (reflexivity || assumption).
  cbn [set_trace set_script set_MatchIndex trace].
  unfold bind at 1. unfold modify at 1. cbn [set_prompt].
  unfold bind at 1. unfold ret at 1.
  unfold bind at 1. unfold modify at 1. cbn [set_hostname].
  unfold bind at 1.
  rewrite (get_network_os_state _ w2 vtext _) by reflexivity. rewrite Hv. cbv zeta.
  cbn [set_trace set_script set_MatchIndex trace prompt].
  unfold bind at 1. unfold modify at 1. cbn [set_os].
  unfold bind at 1.
  rewrite (get_term_info_IOS_NXOS_state _ w3 ttext _ x1 x2) by
    (try reflexivity; try assumption; cbn [os]; destruct Hfam as [-> | ->]; auto).
  cbn [set_trace set_script set_MatchIndex trace prompt].
  rewrite Hp, Hhost.
  destruct (Re.re_num_search x1) as [[|c d]|] eqn:Elen; cbn [truthy] in Hws |- *.
  - destruct ws; [|discriminate].
    destruct Hfam as [-> | ->]; run; cbn;
      (eexists; split; [reflexivity|]); cbn; rewrite !sent_app;
      repeat split; cbn; rewrite <- ?List.app_assoc; reflexivity.
  - destruct ws as [|w4 [|w5 [|? ?]]]; try discriminate.
    destruct Hfam as [-> | ->]; run; cbn;
      (eexists; split; [reflexivity|]); cbn; rewrite !sent_app;
      repeat split; cbn; rewrite <- ?List.app_assoc; reflexivity.
  - destruct ws; [|discriminate].
    destruct Hfam as [-> | ->]; run; cbn;
      (eexists; split; [reflexivity|]); cbn; rewrite !sent_app;
      repeat split; cbn; rewrite <- ?List.app_assoc; reflexivity.
Qed.

Lemma start_IOS_NXOS_witness :
  exists s',
    __start
      (fresh [Matched EmptyString 1; Matched ("sw1#" +:+ String CR EmptyString) 1;
              Matched EmptyString 1;
              Matched (CRLF +:+ "Cisco Nexus Operating System (NX-OS) Software" +:+ CRLF) 1;
              Matched EmptyString 1;
              Matched (CRLF +:+ "Length: 25 lines, Width: unknown" +:+ CRLF) 1;
              Matched EmptyString 1; Matched EmptyString 1]) = Done tt s' /\
    hostname s' = Some "sw1" /\
    term_len s' = Some (Some "25") /\ term_width s' = Some None /\
    sent (trace s') =
      [CRLF +:+ CRLF; "show version | i Cisco" +:+ NL; "show terminal | i Length" +:+ NL;
       "term length 0" +:+ NL; "term width 511" +:+ NL].
Proof.
  destruct (start_IOS_NXOS
              (fresh [Matched EmptyString 1; Matched ("sw1#" +:+ String CR EmptyString) 1;
                      Matched EmptyString 1;
                      Matched (CRLF +:+ "Cisco Nexus Operating System (NX-OS) Software"
                               +:+ CRLF) 1;
                      Matched EmptyString 1;
                      Matched (CRLF +:+ "Length: 25 lines, Width: unknown" +:+ CRLF) 1;
                      Matched EmptyString 1; Matched EmptyString 1])
              EmptyString ("sw1#" +:+ String CR EmptyString)
              EmptyString (CRLF +:+ "Cisco Nexus Operating System (NX-OS) Software" +:+ CRLF)
              EmptyString (CRLF +:+ "Length: 25 lines, Width: unknown" +:+ CRLF)
              [EmptyString; EmptyString] [] "sw" "1" "NXOS"
              "Length: 25 lines" " Width: unknown")
    as (s' & Hrun & _ & Hh & _ & Hl & Hw & _ & _ & _ & Hsent).
  - reflexivity.
  - reflexivity.
  - discriminate.
  - reflexivity.
  - right. reflexivity.
  - reflexivity.
  - reflexivity.
  - reflexivity.
  - reflexivity.
  - reflexivity.
  - exists s'. split; [exact Hrun|]. split; [exact Hh|].
    split; [exact Hl|]. split; [exact Hw | exact Hsent].
Defined.

(** When the answer to [show terminal | i Length] has no comma, the start
    of the session ends in the [IndexError] of [__get_term_info], with the
    prompt and the family already kept and the terminal size not yet: on
    that session [end] fails in its turn, with [AttributeError], and the
    session is not reset. *)
Theorem start_without_terminal_size_then_end
    (s : session) (w1 ptext w2 vtext w3 ttext : string)
    (rest : list response) (body : string) (a : ascii) (family : string) :
  modify_term s = true ->
  term_len s = None ->
  strip ptext = body +:+ String a "#" -> a <> ")"%char ->
  version_family (strip_chars CRLF vtext) = Some family ->
  family = "IOS" \/ family = "NXOS" ->
  no_char_of "," (strip_chars CRLF ttext) = true ->
  script s = discovery w1 ptext w2 vtext w3 ttext ++ rest ->
  exists s1,
    __start s = Raised IndexError s1 /\
    prompt s1 = Some (strip ptext) /\ os s1 = Some family /\
    end_ s1 = Raised AttributeError s1.
Proof.
  intros Hm Hl Hp Ha Hv Hfam Hc Hs.
  destruct s; simpl in Hm, Hl, Hs; subst.
  unfold __start, discovery. unfold bind at 1. unfold modify at 1. cbn [set_Synchronous].
  unfold bind at 1. unfold modify at 1. cbn [set_IgnoreEscape].
  unfold bind at 1.
  rewrite (get_prompt_accepts _ w1 ptext _ body a) by (reflexivity || assumption).
  cbn [set_trace set_script set_MatchIndex trace].
  unfold bind at 1. unfold modify at 1. cbn [set_prompt].
  unfold bind at 1. unfold ret at 1.
  unfold bind at 1. unfold modify at 1. cbn [set_hostname].
  unfold bind at 1.
  rewrite (get_network_os_state _ w2 vtext _) by reflexivity. rewrite Hv. cbv zeta.
  cbn [set_trace set_script set_MatchIndex trace prompt].
  unfold bind at 1. unfold modify at 1. cbn [set_os].
  unfold bind at 1.
  rewrite (get_term_info_without_comma_state _ w3 ttext rest) by
    (try reflexivity; try assumption; cbn [os]; destruct Hfam as [-> | ->]; auto).
  cbn [set_trace set_script set_MatchIndex trace prompt].
  eexists. split; [reflexivity|]. split; [reflexivity|]. split; [reflexivity|].
  apply (end_before_terminal_size _ (strip ptext) family); try assumption; try reflexivity.
  - rewrite Hp. destruct body; discriminate.
  - destruct Hfam as [-> | ->]; auto.
Qed.

Lemma start_without_terminal_size_then_end_witness :
  exists s1,
    __start
      (fresh [Matched EmptyString 1; Matched ("R1#" +:+ String CR EmptyString) 1;
              Matched EmptyString 1;
              Matched (CRLF +:+ "Cisco IOS Software, C3750 Software" +:+ CRLF) 1;
              Matched EmptyString 1;
              Matched (CRLF +:+ "Length: 24 lines" +:+ CRLF) 1])
    = Raised IndexError s1 /\
    prompt s1 = Some "R1#" /\
    end_ s1 = Raised AttributeError s1.
Proof.
  destruct (start_without_terminal_size_then_end
              (fresh [Matched EmptyString 1; Matched ("R1#" +:+ String CR EmptyString) 1;
                      Matched EmptyString 1;
                      Matched (CRLF +:+ "Cisco IOS Software, C3750 Software" +:+ CRLF) 1;
                      Matched EmptyString 1;
                      Matched (CRLF +:+ "Length: 24 lines" +:+ CRLF) 1])
              EmptyString ("R1#" +:+ String CR EmptyString)
              EmptyString (CRLF +:+ "Cisco IOS Software, C3750 Software" +:+ CRLF)
              EmptyString (CRLF +:+ "Length: 24 lines" +:+ CRLF)
              [] "R" "1" "IOS")
    as (s1 & Hrun & Hp & _ & Hend).
  - reflexivity.
  - reflexivity.
  - reflexivity.
  - discriminate.
  - reflexivity.
  - left. reflexivity.
  - reflexivity.
  - reflexivity.
  - exists s1. split; [exact Hrun|]. split; [exact Hp | exact Hend].
Defined.

(** A prompt of two characters or more that the validation rejects: the
    session is ended before the error is raised.  At the start of a
    session no prompt is known yet, so [end] sends nothing, but the two
    modes of the tab that [__start] had switched on are off again. *)
Theorem get_prompt_rejected_ends_session
    (s : session) (w text : string) (rest : list response) (body : string) (a b : ascii) :
  prompt s = None ->
  script s = Matched w 1 :: Matched text 1 :: rest ->
  strip text = body +:+ String a (String b EmptyString) ->
  b = ">"%char \/ a = ")"%char \/ b <> "#"%char ->
  exists message s',
    __get_prompt (set_IgnoreEscape true (set_Synchronous true s)) =
      Raised (DeviceInteractionError message) s' /\
    message =
      (if Ascii.eqb b ">" then "Not in enable mode.  Cannot continue."
       else if Ascii.eqb a ")" then "Device already in config mode."
       else "Unable to capture prompt.") /\
    Synchronous s' = false /\ IgnoreEscape s' = false /\
    prompt s' = None /\ hostname s' = None /\ os s' = None /\
    sent (trace s') = sent (trace s) ++ [CRLF +:+ CRLF].
Proof.
  intros Hp Hs Hc Hrej. destruct s; simpl in Hp, Hs; subst.
  unfold __get_prompt. run. cbn -[strip getitem end_].
  assert (Hlast : getitem (body +:+ String a (String b EmptyString)) (-1) = Some b).
  { change (String a (String b EmptyString))
      with (String a EmptyString +:+ String b EmptyString).
    rewrite <- str_app_assoc. apply getitem_last. }
  rewrite Hc, Hlast, (getitem_before_last body a b). cbn -[strip getitem end_].
  destruct (Ascii.eqb_spec b ">") as [Eb|Nb].
  - eexists. eexists. split; [reflexivity|]. cbn. rewrite !sent_app. cbn.
    rewrite <- ?List.app_assoc, ?List.app_nil_r. repeat split; reflexivity.
  - destruct (Ascii.eqb_spec a ")") as [Ea|Na].
    + eexists. eexists. split; [reflexivity|]. cbn. rewrite !sent_app. cbn.
      rewrite <- ?List.app_assoc, ?List.app_nil_r. repeat split; reflexivity.
    + destruct (Ascii.eqb_spec b "#") as [Eh|Nh].
      * destruct Hrej as [? | [? | ?]]; contradiction.
      * eexists. eexists. split; [reflexivity|]. cbn. rewrite !sent_app. cbn.
        rewrite <- ?List.app_assoc, ?List.app_nil_r. repeat split; reflexivity.
Qed.

Lemma get_prompt_rejected_ends_session_witness :
  exists s',
    __get_prompt
      (set_IgnoreEscape true
         (set_Synchronous true
            (fresh [Matched EmptyString 1; Matched ("Router>" +:+ String CR EmptyString) 1])))
    = Raised (DeviceInteractionError "Not in enable mode.  Cannot continue.") s' /\
    Synchronous s' = false /\ IgnoreEscape s' = false.
Proof.
  destruct (get_prompt_rejected_ends_session
              (fresh [Matched EmptyString 1; Matched ("Router>" +:+ String CR EmptyString) 1])
              EmptyString ("Router>" +:+ String CR EmptyString) [] "Route" "r" ">")
    as (message & s' & Hrun & Hm & Hsy & Hie & _).
  - reflexivity.
  - reflexivity.
  - reflexivity.
  - left. reflexivity.
  - exists s'. rewrite Hrun, Hm. repeat split; assumption.
Defined.

Lemma get_term_info_ASA_state
    (s : session) (w1 pager w2 terminal : string) (rest : list response)
    (c0 c1 : ascii) (r : string) :
  os s = Some "ASA" ->
  script s = Matched w1 1 :: Matched pager 1 :: Matched w2 1 :: Matched terminal 1 :: rest ->
  strip_chars CRLF terminal = String c0 (String c1 r) ->
  __get_term_info s =
    Done (Re.re_num_search (strip_chars CRLF pager),
          if Re.is_digit c1 then Some (String c1 EmptyString) else None)
      (set_MatchIndex 1%nat
         (set_script rest
            (set_trace (trace s ++ [TabSend ("show pager" +:+ NL);
                                    TabWaitForString (Some "show pager") None;
                                    TabReadString [prompt s] None;
                                    TabSend ("show terminal" +:+ NL);
                                    TabWaitForString (Some "show terminal") None;
                                    TabReadString [prompt s] None]) s))).
Proof.
  intros Ho Hs Hterm. destruct s; simpl in Ho, Hs; subst.
  unfold __get_term_info, bind at 1, gets. cbn [os].
  change (os_is (Some "ASA") "IOS" || os_is (Some "ASA") "NXOS") with false.
  change (os_is (Some "ASA") "ASA") with true. cbv iota.
  unfold bind at 1.
  rewrite (get_output_state _ _ w1 pager (Matched w2 1 :: Matched terminal 1 :: rest))
    by reflexivity.
  unfold bind at 1.
  rewrite (get_output_state _ _ w2 terminal rest) by reflexivity.
  rewrite Hterm, getitem_second.
  unfold bind, or_raise, ret. cbn [Re.re_num_search Re.digits_prefix].
  destruct (Re.is_digit c1); cbn; rewrite <- !List.app_assoc; reflexivity.
Qed.

(** The start of a session on an ASA: the length comes from [show pager]
    and, when one was found, the pager is switched off with
    [terminal pager 0], which alone among the commands of the module is
    ended by a carriage return and a line feed; no width command is sent. *)
Theorem start_ASA
    (s : session) (w1 ptext w2 vtext w3 pager w4 terminal : string) (ws : list string)
    (rest : list response) (body : string) (a c0 c1 : ascii) (r : string) :
  modify_term s = true ->
  strip ptext = body +:+ String a "#" -> a <> ")"%char ->
  version_family (strip_chars CRLF vtext) = Some "ASA" ->
  strip_chars CRLF terminal = String c0 (String c1 r) ->
  length ws = (if truthy (Re.re_num_search (strip_chars CRLF pager)) then 1 else 0)%nat ->
  script s = [Matched w1 1; Matched ptext 1; Matched w2 1; Matched vtext 1;
              Matched w3 1; Matched pager 1; Matched w4 1; Matched terminal 1] ++
             prompts_back ws ++ rest ->
  exists s',
    __start s = Done tt s' /\
    prompt s' = Some (strip ptext) /\
    hostname s' = Some (body +:+ String a EmptyString) /\
    os s' = Some "ASA" /\
    term_len s' = Some (Re.re_num_search (strip_chars CRLF pager)) /\
    script s' = rest /\
    sent (trace s') =
      sent (trace s) ++
      [CRLF +:+ CRLF; "show version | i Cisco" +:+ NL; "show pager" +:+ NL;
       "show terminal" +:+ NL] ++
      (if truthy (Re.re_num_search (strip_chars CRLF pager))
       then ["terminal pager 0" +:+ CRLF] else []).
Proof.
  intros Hm Hp Ha Hv Hterm Hws Hs.
  destruct s; simpl in Hm, Hs; subst.
  assert (Hhost : slice_to (body +:+ String a "#") (-1) = body +:+ String a EmptyString).
  { change (String a "#") with (String a EmptyString +:+ "#").
    rewrite <- str_app_assoc. apply slice_to_drop_last. }
  unfold __start. unfold bind at 1. unfold modify at 1. cbn [set_Synchronous].
  unfold bind at 1. unfold modify at 1. cbn [set_IgnoreEscape].
  unfold bind at 1.
  rewrite (get_prompt_accepts _ w1 ptext _ body a) by (reflexivity || assumption).
  cbn [set_trace set_script set_MatchIndex trace].
  unfold bind at 1. unfold modify at 1. cbn [set_prompt].
  unfold bind at 1. unfold ret at 1.
  unfold bind at 1. unfold modify at 1. cbn [set_hostname].
  unfold bind at 1.
  rewrite (get_network_os_state _ w2 vtext _) by reflexivity. rewrite Hv. cbv zeta.
  cbn [set_trace set_script set_MatchIndex trace prompt].
  unfold bind at 1. unfold modify at 1. cbn [set_os].
  unfold bind at 1.
  rewrite (get_term_info_ASA_state _ w3 pager w4 terminal _ c0 c1 r) by
    (reflexivity || assumption).
  cbn [set_trace set_script set_MatchIndex trace prompt].
  rewrite Hp, Hhost.
  destruct (Re.re_num_search (strip_chars CRLF pager)) as [[|c d]|] eqn:Elen;
    cbn [truthy] in Hws |- *.
  - destruct ws; [|discriminate].
    run; cbn; (eexists; split; [reflexivity|]); cbn; rewrite !sent_app;
      repeat split; cbn; rewrite <- ?List.app_assoc; reflexivity.
  - destruct ws as [|w5 [|? ?]]; try discriminate.
    run; cbn; (eexists; split; [reflexivity|]); cbn; rewrite !sent_app;
      repeat split; cbn; rewrite <- ?List.app_assoc; reflexivity.
  - destruct ws; [|discriminate].
    run; cbn; (eexists; split; [reflexivity|]); cbn; rewrite !sent_app;
      repeat split; cbn; rewrite <- ?List.app_assoc; reflexivity.
Qed.

Lemma start_ASA_witness :
  exists s',
    __start
      (fresh [Matched EmptyString 1; Matched ("fw1#" +:+ String CR EmptyString) 1;
              Matched EmptyString 1;
              Matched (CRLF +:+ "Cisco Adaptive Security Appliance Software" +:+ CRLF) 1;
              Matched EmptyString 1; Matched (CRLF +:+ "pager lines 24" +:+ CRLF) 1;
              Matched EmptyString 1;
              Matched (CRLF +:+ "Width = 80, no monitor" +:+ CRLF) 1;
              Matched EmptyString 1]) = Done tt s' /\
    term_len s' = Some (Some "24") /\
    sent (trace s') =
      [CRLF +:+ CRLF; "show version | i Cisco" +:+ NL; "show pager" +:+ NL;
       "show terminal" +:+ NL; "terminal pager 0" +:+ CRLF].
Proof.
  destruct (start_ASA
              (fresh [Matched EmptyString 1; Matched ("fw1#" +:+ String CR EmptyString) 1;
                      Matched EmptyString 1;
                      Matched (CRLF +:+ "Cisco Adaptive Security Appliance Software"
                               +:+ CRLF) 1;
                      Matched EmptyString 1; Matched (CRLF +:+ "pager lines 24" +:+ CRLF) 1;
                      Matched EmptyString 1;
                      Matched (CRLF +:+ "Width = 80, no monitor" +:+ CRLF) 1;
                      Matched EmptyString 1])
              EmptyString ("fw1#" +:+ String CR EmptyString)
              EmptyString (CRLF +:+ "Cisco Adaptive Security Appliance Software" +:+ CRLF)
              EmptyString (CRLF +:+ "pager lines 24" +:+ CRLF)
              EmptyString (CRLF +:+ "Width = 80, no monitor" +:+ CRLF)
              [EmptyString] [] "fw" "1" "W" "i" "dth = 80, no monitor")
    as (s' & Hrun & _ & _ & _ & Hl & _ & Hsent).
  - reflexivity.
  - reflexivity.
  - discriminate.
  - reflexivity.
  - reflexivity.
  - reflexivity.
  - reflexivity.
  - exists s'. split; [exact Hrun|]. split; [exact Hl | exact Hsent].
Defined.

(** A session from its start to its end on an IOS or NXOS device whose
    answer gives a length but no width.  The start sets the length to 0
    and the width to 0 or 511, since both commands depend on the length;
    the end sets the length back to the saved value and sends no width
    command, since none was saved: the width stays as the start left it. *)
Theorem start_then_end_leaves_width_changed
    (s : session) (w1 ptext w2 vtext w3 ttext w4 w5 w6 : string)
    (rest : list response) (body : string) (a : ascii)
    (family a1 d1 b1 x2 : string) :
  modify_term s = true ->
  strip ptext = body +:+ String a "#" -> a <> ")"%char ->
  version_family (strip_chars CRLF vtext) = Some family ->
  family = "IOS" \/ family = "NXOS" ->
  strip_chars CRLF ttext = (a1 +:+ d1 +:+ b1) +:+ "," +:+ x2 ->
  no_char_of "," (a1 +:+ d1 +:+ b1) = true -> no_char_of "," x2 = true ->
  no_digit a1 = true -> d1 <> EmptyString -> all_digits d1 = true ->
  no_digit_first b1 = true ->
  no_digit x2 = true ->
  script s = discovery w1 ptext w2 vtext w3 ttext ++ prompts_back [w4; w5; w6] ++ rest ->
  exists s1 s2,
    __start s = Done tt s1 /\
    end_ s1 = Done tt s2 /\
    script s2 = rest /\
    sent (trace s2) =
      sent (trace s) ++
      [CRLF +:+ CRLF; "show version | i Cisco" +:+ NL; "show terminal | i Length" +:+ NL;
       "term length 0" +:+ NL;
       (if String.eqb family "IOS" then "term width 0" else "term width 511") +:+ NL;
       "term length " +:+ d1 +:+ NL].
Proof.
  intros Hm Hp Ha Hv Hfam Ht Hc1 Hc2 Ha1 Hn1 Hd1 Hb1 Hx2 Hs.
  destruct s; simpl in Hm, Hs; subst.
  assert (Hhost : slice_to (body +:+ String a "#") (-1) = body +:+ String a EmptyString).
  { change (String a "#") with (String a EmptyString +:+ "#").
    rewrite <- str_app_assoc. apply slice_to_drop_last. }
  assert (Hprompt : exists c p, body +:+ String a "#" = String c p).
  { destruct body; [exists a, "#" | eexists; eexists]; reflexivity. }
  destruct Hprompt as (pc & pp & Hprompt).
  unfold __start, discovery. unfold bind at 1. unfold modify at 1. cbn [set_Synchronous].
  unfold bind at 1. unfold modify at 1. cbn [set_IgnoreEscape].
  unfold bind at 1.
  rewrite (get_prompt_accepts _ w1 ptext _ body a) by (reflexivity || assumption).
  cbn [set_trace set_script set_MatchIndex trace].
  unfold bind at 1. unfold modify at 1. cbn [set_prompt].
  unfold bind at 1. unfold ret at 1.
  unfold bind at 1. unfold modify at 1. cbn [set_hostname].
  unfold bind at 1.
  rewrite (get_network_os_state _ w2 vtext _) by reflexivity. rewrite Hv. cbv zeta.
  cbn [set_trace set_script set_MatchIndex trace prompt].
  unfold bind at 1. unfold modify at 1. cbn [set_os].
  unfold bind at 1.
  rewrite (get_term_info_IOS_NXOS_state _ w3 ttext _ (a1 +:+ d1 +:+ b1) x2) by
    (try reflexivity; try assumption; cbn [os]; destruct Hfam as [-> | ->]; auto).
  cbn [set_trace set_script set_MatchIndex trace prompt].
  rewrite re_num_search_first_run, re_num_search_no_digit by assumption.
  rewrite Hp, Hhost, Hprompt.
  destruct d1 as [|c d]; [contradiction|].
  destruct Hfam as [-> | ->]; run; cbn;
    (eexists; eexists; split; [reflexivity|]); unfold end_; run; cbn;
    (split; [reflexivity|]); cbn; rewrite !sent_app; cbn;
    rewrite <- ?List.app_assoc; split; reflexivity.
Qed.

Lemma start_then_end_leaves_width_changed_witness :
  exists s1 s2,
    __start
      (fresh [Matched EmptyString 1; Matched ("sw1#" +:+ String CR EmptyString) 1;
              Matched EmptyString 1;
              Matched (CRLF +:+ "Cisco Nexus Operating System (NX-OS) Software" +:+ CRLF) 1;
              Matched EmptyString 1;
              Matched (CRLF +:+ "Length: 25 lines, Width: unknown" +:+ CRLF) 1;
              Matched EmptyString 1; Matched EmptyString 1; Matched EmptyString 1])
    = Done tt s1 /\
    end_ s1 = Done tt s2 /\
    sent (trace s2) =
      [CRLF +:+ CRLF; "show version | i Cisco" +:+ NL; "show terminal | i Length" +:+ NL;
       "term length 0" +:+ NL; "term width 511" +:+ NL; "term length 25" +:+ NL].
Proof.
  destruct (start_then_end_leaves_width_changed
              (fresh [Matched EmptyString 1; Matched ("sw1#" +:+ String CR EmptyString) 1;
                      Matched EmptyString 1;
                      Matched (CRLF +:+ "Cisco Nexus Operating System (NX-OS) Software"
                               +:+ CRLF) 1;
                      Matched EmptyString 1;
                      Matched (CRLF +:+ "Length: 25 lines, Width: unknown" +:+ CRLF) 1;
                      Matched EmptyString 1; Matched EmptyString 1; Matched EmptyString 1])
              EmptyString ("sw1#" +:+ String CR EmptyString)
              EmptyString (CRLF +:+ "Cisco Nexus Operating System (NX-OS) Software" +:+ CRLF)
              EmptyString (CRLF +:+ "Length: 25 lines, Width: unknown" +:+ CRLF)
              EmptyString EmptyString EmptyString [] "sw" "1" "NXOS"
              "Length: " "25" " lines" " Width: unknown")
    as (s1 & s2 & Hstart & Hend & _ & Hsent).
  - reflexivity.
  - reflexivity.
  - discriminate.
  - reflexivity.
  - right. reflexivity.
  - reflexivity.
  - reflexivity.
  - reflexivity.
  - reflexivity.
  - discriminate.
  - reflexivity.
  - reflexivity.
  - reflexivity.
  - reflexivity.
  - exists s1, s2. split; [exact Hstart|]. split; [exact Hend | exact Hsent].
Defined.

End StartOfSession.

(* ===================================================================== *)
(** * Further properties: the message box of [DirectSession] *)
(* ===================================================================== *)

Section ConsoleMessageBox.
Import DirectSession.

(** The options of a message box are an icon, a set of buttons and a
    default button, or-ed together; [get_button_layout] gives back the
    set of buttons, whatever the icon and the default button. *)
Theorem get_button_layout_keeps_buttons (icon layout default : Z) :
  In icon [0; ICON_STOP; ICON_QUESTION; ICON_WARN; ICON_INFO] ->
  In layout [BUTTON_OK; BUTTON_CANCEL; BUTTON_ABORTRETRYIGNORE; BUTTON_YESNOCANCEL;
             BUTTON_YESNO; BUTTON_RETRYCANCEL] ->
  In default [DEFBUTTON1; DEFBUTTON2; DEFBUTTON3] ->
  get_button_layout (Z.lor icon (Z.lor layout default)) = layout.
Proof.
  intros Hi Hl Hd. cbn in Hi, Hl, Hd.
  repeat (destruct Hi as [<- | Hi]; [|]); try contradiction;
    repeat (destruct Hl as [<- | Hl]; [|]); try contradiction;
    repeat (destruct Hd as [<- | Hd]; [|]); try contradiction;
    vm_compute; reflexivity.
Qed.

Lemma get_button_layout_keeps_buttons_witness :
  get_button_layout (Z.lor ICON_QUESTION (Z.lor BUTTON_YESNO DEFBUTTON2)) = BUTTON_YESNO.
Proof.
  apply (get_button_layout_keeps_buttons ICON_QUESTION BUTTON_YESNO DEFBUTTON2);
    cbn; auto 10.
Defined.

Lemma ask_skips (valid bad : list string) (good : string) (rest : list string) :
  forall response,
    response ∉ valid ->
    Forall (fun line => line ∉ valid) bad ->
    good ∈ valid ->
    ask valid response (bad ++ good :: rest) = Some (good, rest).
Proof.
  induction bad as [|b bad IH]; intros response Hr Hbad Hgood; cbn [ask app].
  - rewrite bool_decide_eq_false_2 by exact Hr.
    destruct rest; cbn [ask]; rewrite bool_decide_eq_true_2 by exact Hgood; reflexivity.
  - rewrite bool_decide_eq_false_2 by exact Hr.
    inversion Hbad as [|? ? Hb Hbad']; subst. apply IH; assumption.
Qed.

(** The buttons of every layout have a response code. *)
Lemma buttons_have_codes (layout : Z) (valid : list string) (name : string) :
  buttons !! layout = Some valid -> name ∈ valid ->
  exists code, get_response_code name = Some code /\ 1 <= code <= 7.
Proof.
  intros Hl Hn.
  assert (Hcases : layout = 0 \/ layout = 1 \/ layout = 2 \/ layout = 3 \/ layout = 4 \/
                   layout = 5).
  { destruct (decide (layout = 0)) as [|N0]; [auto 10|].
    destruct (decide (layout = 1)) as [|N1]; [auto 10|].
    destruct (decide (layout = 2)) as [|N2]; [auto 10|].
    destruct (decide (layout = 3)) as [|N3]; [auto 10|].
    destruct (decide (layout = 4)) as [|N4]; [auto 10|].
    destruct (decide (layout = 5)) as [|N5]; [auto 10|].
    exfalso. unfold buttons in Hl. cbn [list_to_map foldr] in Hl.
    unfold BUTTON_OK, BUTTON_CANCEL, BUTTON_ABORTRETRYIGNORE, BUTTON_YESNOCANCEL,
      BUTTON_YESNO, BUTTON_RETRYCANCEL in Hl. cbn [uncurry fst snd] in Hl.
    rewrite !lookup_insert_ne in Hl by congruence.
    rewrite lookup_empty in Hl. discriminate. }
  destruct Hcases as [-> | [-> | [-> | [-> | [-> | ->]]]]];
    vm_compute in Hl; injection Hl as <-;
    repeat (apply elem_of_cons in Hn as [-> | Hn];
            [eexists; split; [vm_compute; reflexivity | lia] |]);
    apply elem_of_nil in Hn; contradiction.
Qed.

(** On the console the message box asks until a line names one of the
    buttons of the layout, exactly as written ([yes] is not [Yes]): the
    lines before it are read and dropped, the lines after it are left
    unread, and the result is SecureCRT's code of that button. *)
Theorem message_box_returns_first_button_named
    (message title : string) (options : Z) (valid bad : list string)
    (good : string) (rest : list string) :
  buttons !! get_button_layout options = Some valid ->
  Forall (fun line => line ∉ valid) bad ->
  good ∈ valid ->
  exists code,
    message_box message title options (bad ++ good :: rest) = Returned code rest /\
    get_response_code good = Some code /\ 1 <= code <= 7.
Proof.
  intros Hl Hbad Hgood.
  destruct (buttons_have_codes _ valid good Hl Hgood) as (code & Hcode & Hrange).
  exists code. unfold message_box. rewrite Hl.
  rewrite (ask_skips valid bad good rest); try assumption.
  - rewrite Hcode. auto.
  - intros Hempty.
    destruct (buttons_have_codes _ valid EmptyString Hl Hempty) as (c & Hc & _).
    vm_compute in Hc. discriminate.
Qed.

Lemma message_box_returns_first_button_named_witness :
  message_box "The path does not exist.  Do you want to create it?" "Create Directory?"
    (Z.lor ICON_QUESTION (Z.lor BUTTON_YESNO DEFBUTTON2)) ["yes"; "y"; "Yes"; "No"]
  = Returned IDYES ["No"].
Proof.
  destruct (message_box_returns_first_button_named
              "The path does not exist.  Do you want to create it?" "Create Directory?"
              (Z.lor ICON_QUESTION (Z.lor BUTTON_YESNO DEFBUTTON2))
              ["Yes"; "No"] ["yes"; "y"] "Yes" ["No"])
    as (code & Hrun & Hcode & _).
  - vm_compute. reflexivity.
  - repeat constructor; intros H; repeat (apply elem_of_cons in H as [H | H];
      [discriminate|]); apply elem_of_nil in H; exact H.
  - apply elem_of_cons. left. reflexivity.
  - cbn [app] in Hrun. rewrite Hrun. vm_compute in Hcode. injection Hcode as <-.
    reflexivity.
Defined.

(** Options whose button part is none of the six layouts (6 to 15, with
    or without an icon and a default button) have no entry in the table
    of buttons: the message box raises [KeyError] before it reads a line. *)
Theorem message_box_unknown_layout_KeyError
    (message title : string) (options : Z) (inputs : list string) :
  get_button_layout options < 0 \/ 5 < get_button_layout options ->
  message_box message title options inputs = KeyError.
Proof.
  intros Hl. unfold message_box.
  assert (Hnone : buttons !! get_button_layout options = None).
  { unfold buttons. cbn [list_to_map foldr].
    unfold BUTTON_OK, BUTTON_CANCEL, BUTTON_ABORTRETRYIGNORE, BUTTON_YESNOCANCEL,
      BUTTON_YESNO, BUTTON_RETRYCANCEL. cbn [uncurry fst snd].
    rewrite !lookup_insert_ne by lia. apply lookup_empty. }
  rewrite Hnone. reflexivity.
Qed.

Lemma message_box_unknown_layout_KeyError_witness :
  message_box "Proceed?" "Question" (Z.lor ICON_STOP 6) ["Yes"] = KeyError.
Proof.
  apply message_box_unknown_layout_KeyError. vm_compute. right. reflexivity.
Defined.

End ConsoleMessageBox.

(* ===================================================================== *)
(** * Further properties: the names of the output files *)
(* ===================================================================== *)

Section OutputFilename.
Import Py PyFacts.

(** The characters that [create_output_filename] takes out of a
    description. *)
Let reserved : string := "/.:\|".

Lemma no_char_of_app (chars a b : string) :
  no_char_of chars (a +:+ b) = no_char_of chars a && no_char_of chars b.
Proof.
  induction a as [|c a IH]; [reflexivity|].
  rewrite str_app_cons. cbn [no_char_of]. rewrite IH, andb_assoc. reflexivity.
Qed.

Lemma no_char_of_more_chars (c c' : ascii) (chars s : string) :
  no_char_of (String c (String c' chars)) s =
  no_char_of (String c EmptyString) s && no_char_of (String c' chars) s.
Proof.
  induction s as [|x s IH]; [reflexivity|].
  cbn [no_char_of]. rewrite IH. cbn [char_in].
  destruct (Ascii.eqb x c); cbn; [reflexivity|].
  destruct (if Ascii.eqb x c' then true else char_in x chars); cbn;
    [now rewrite andb_false_r | reflexivity].
Qed.

Lemma replace_char_removed (old : ascii) (new s : string) :
  no_char_of (String old EmptyString) new = true ->
  no_char_of (String old EmptyString) (replace_char old new s) = true.
Proof.
  intros Hnew. induction s as [|c s IH]; [reflexivity|].
  cbn [replace_char]. destruct (Ascii.eqb c old) eqn:E.
  - rewrite no_char_of_app, Hnew, IH. reflexivity.
  - cbn [no_char_of char_in]. rewrite E, IH. reflexivity.
Qed.

Lemma replace_char_absent (c old : ascii) (new s : string) :
  no_char_of (String c EmptyString) s = true ->
  no_char_of (String c EmptyString) new = true ->
  no_char_of (String c EmptyString) (replace_char old new s) = true.
Proof.
  intros Hs Hnew. induction s as [|x s IH]; [reflexivity|].
  cbn [no_char_of] in Hs. apply andb_true_iff in Hs as [Hx Hs].
  cbn [replace_char]. destruct (Ascii.eqb x old).
  - rewrite no_char_of_app, Hnew, IH by exact Hs. reflexivity.
  - cbn [no_char_of]. rewrite Hx, IH by exact Hs. reflexivity.
Qed.

Lemma replace_from_absent (c : ascii) (old new s : string) :
  no_char_of (String c EmptyString) s = true ->
  no_char_of (String c EmptyString) new = true ->
  forall skip, no_char_of (String c EmptyString) (replace_from old new skip s) = true.
Proof.
  intros Hs Hnew. induction s as [|x s IH]; intros skip; [reflexivity|].
  cbn [no_char_of] in Hs. apply andb_true_iff in Hs as [Hx Hs].
  cbn [replace_from]. destruct skip as [|k]; [|apply IH; exact Hs].
  destruct (startswith old (String x s)).
  - rewrite no_char_of_app, Hnew, IH by exact Hs. reflexivity.
  - cbn [no_char_of]. rewrite Hx, IH by exact Hs. reflexivity.
Qed.

Lemma replace_char_nothing (old : ascii) (new s : string) :
  no_char_of (String old EmptyString) s = true -> replace_char old new s = s.
Proof.
  induction s as [|x s IH]; [reflexivity|].
  cbn [no_char_of char_in replace_char]. intros H. apply andb_true_iff in H as [Hx Hs].
  destruct (Ascii.eqb x old); [discriminate|]. rewrite IH by exact Hs. reflexivity.
Qed.

Lemma replace_from_nothing (c : ascii) (old new s : string) :
  no_char_of (String c EmptyString) s = true ->
  replace_from (String c old) new 0 s = s.
Proof.
  induction s as [|x s IH]; [reflexivity|].
  cbn [no_char_of char_in replace_from startswith]. intros H.
  apply andb_true_iff in H as [Hx Hs].
  rewrite Ascii.eqb_sym. destruct (Ascii.eqb x c); [discriminate|].
  rewrite IH by exact Hs. reflexivity.
Qed.

Lemma clean_description_reserved (desc : string) :
  no_char_of reserved (Session.clean_description desc) = true.
Proof.
  unfold reserved, Session.clean_description. cbv zeta. unfold replace.
  rewrite !no_char_of_more_chars.
  repeat (apply andb_true_iff; split);
    repeat first
      [ reflexivity
      | apply replace_char_removed
      | apply replace_char_absent
      | apply replace_from_absent ].
Qed.

Lemma clean_description_unreserved (desc : string) :
  no_char_of reserved desc = true -> Session.clean_description desc = desc.
Proof.
  unfold reserved. rewrite !no_char_of_more_chars. intros H.
  repeat (apply andb_true_iff in H as [? H]).
  unfold Session.clean_description, replace. cbv zeta.
  rewrite (replace_char_nothing "/") by assumption.
  rewrite (replace_char_nothing ".") by assumption.
  rewrite (replace_char_nothing ":") by assumption.
  rewrite (replace_char_nothing "\") by assumption.
  rewrite replace_from_nothing by assumption.
  rewrite (replace_char_nothing "|") by assumption. reflexivity.
Qed.

(** The file name is made of the hostname, the description and, when
    asked for, the date, joined by [-], and the extension, in a directory
    that comes from the settings.  With the date, the description is
    cleaned first: none of [/], [.], [:], the backslash and [|] is left in
    it, and a description without them is kept as it is.  Without the
    date the description goes in as it was given, reserved characters
    included. *)
Theorem create_output_filename_description
    (E : environment) (desc ext : string) (include_date : bool) (s : session) (h : string) :
  hostname s = Some h ->
  let clean_desc := Session.clean_description desc in
  (exists directory,
     Session.create_output_filename E desc ext include_date s =
       Done (normpath E
               (join E directory
                  (h +:+ "-" +:+
                   (if include_date
                    then clean_desc +:+ "-" +:+ strftime_now E (date_format E)
                    else desc) +:+ ext))) s) /\
  no_char_of "/.:\|" clean_desc = true /\
  (no_char_of "/.:\|" desc = true -> clean_desc = desc).
Proof.
  intros Hh clean_desc.
  split; [|split; [apply clean_description_reserved | apply clean_description_unreserved]].
  eexists.
  unfold Session.create_output_filename, bind, gets, or_raise, ret. rewrite Hh.
  destruct include_date; cbn [join_with]; rewrite ?str_app_assoc; reflexivity.
Qed.

Lemma create_output_filename_description_witness :
  let E := mkEnvironment (fun _ => true) (fun a b => a +:+ "/" +:+ b) (fun p => p)
             (fun p => p) (fun p => p) (fun p => p) (fun p => p) (fun _ => "2017-05-01")
             (fun b => b) "/tmp/out" "%Y-%m-%d" false "/scripts" "/tmp/out/debugs"
             posix_dirname (fun d => String.eqb d "/tmp/out") (fun _ _ _ => IDNO) in
  exists directory,
    Session.create_output_filename E "show ip int | inc up/down" ".txt" true
      (ready "IOS" "R1#" None None []) =
    Done (directory +:+ "/R1-show ip int inc up-down-2017-05-01.txt")
         (ready "IOS" "R1#" None None []).
Proof.
  intros E.
  destruct (create_output_filename_description E "show ip int | inc up/down" ".txt" true
              (ready "IOS" "R1#" None None []) "R1")
    as ((directory & Hrun) & _ & _).
  - reflexivity.
  - exists directory. rewrite Hrun. vm_compute. reflexivity.
Defined.

End OutputFilename.

(* ===================================================================== *)
(** * Further properties: the output of a command as a value *)
(* ===================================================================== *)

Section CommandOutput.
Import Py PyFacts CRTSession CRTSessionMore.

(** [get_command_output] returns what reading the temporary file gives,
    that is the lines the capture wrote, and deletes the file: when debug
    is off, no file of that name is left.  The directory of the temporary
    file is absolute and exists. *)
Theorem get_command_output_returns_and_removes
    (E : environment) (events : list capture_event) (command temp ptext : string)
    (echo : response) (rest : list response) (fuel : nat) (s : session) :
  debug E = false ->
  Session.create_output_filename E (command +:+ "-temp") ".txt" true s = Done temp s ->
  isabs E (dirname E temp) = true ->
  path_exists E (normpath E (dirname E temp)) = true ->
  open_error s temp = None ->
  script s = echo :: map event_response events ++ Matched ptext 3 :: rest ->
  (length events < fuel)%nat ->
  exists s',
    get_command_output E fuel command s = Done (read_text E (emitted events)) s' /\
    files s' !! temp = None /\
    sent (trace s') = sent (trace s) ++ (command +:+ NL) :: repeat " " (pagers_of events).
Proof.
  intros Hdebug Htemp Habs Hex Hopen Hs Hfuel.
  destruct (write_output_to_file_full E events command temp ptext echo rest fuel s
              Habs Hex Hopen Hs Hfuel) as (s1 & Hrun & Hf & Hsent & _).
  unfold get_command_output. unfold bind at 1. rewrite Htemp.
  unfold bind at 1. rewrite Hrun.
  unfold bind at 1. unfold read_file, bind at 1, gets. rewrite Hf.
  unfold ret at 1. rewrite Hdebug.
  unfold bind, os_remove, modify, ret.
  eexists. split; [reflexivity|]. destruct s1; cbn in Hsent |- *.
  split; [apply lookup_delete_eq | exact Hsent].
Qed.

Lemma get_command_output_returns_and_removes_witness :
  let E := mkEnvironment (fun _ => true) (fun a b => a +:+ "/" +:+ b) (fun p => p)
             (fun p => p) (fun p => p) (fun p => p) (fun p => p) (fun _ => "2017-05-01")
             (fun b => b) "/tmp/out" "%Y-%m-%d" false "/scripts" "/tmp/out/debugs"
             posix_dirname (fun d => String.eqb d "/tmp/out") (fun _ _ _ => IDNO) in
  exists s',
    get_command_output E 3 "show clock"
      (ready "IOS" "R1#" None None
         [Matched EmptyString 1; Matched "12:00:00.000 UTC Mon May 1 2017" 1;
          Matched EmptyString 3])
    = Done ("12:00:00.000 UTC Mon May 1 2017" +:+ CRLF) s' /\
    files s' !! "/tmp/out/R1-show clock-temp-2017-05-01.txt" = None.
Proof.
  intros E.
  destruct (get_command_output_returns_and_removes E
              [Line "12:00:00.000 UTC Mon May 1 2017"] "show clock"
              "/tmp/out/R1-show clock-temp-2017-05-01.txt" EmptyString
              (Matched EmptyString 1) [] 3
              (ready "IOS" "R1#" None None
                 [Matched EmptyString 1; Matched "12:00:00.000 UTC Mon May 1 2017" 1;
                  Matched EmptyString 3]))
    as (s' & Hrun & Hf & _).
  - reflexivity.
  - vm_compute. reflexivity.
  - reflexivity.
  - reflexivity.
  - reflexivity.
  - reflexivity.
  - cbn. lia.
  - exists s'. split; [|exact Hf]. rewrite Hrun. vm_compute. reflexivity.
Defined.

(** When the temporary file cannot be opened for writing,
    [write_output_to_file] only shows its message box, and
    [get_command_output] goes on to read a file that was never made: the
    [IOError] of that reading leaves it, with nothing sent to the device.
    The directory of the temporary file is absolute and exists. *)
Theorem get_command_output_unopenable_file
    (E : environment) (command temp message : string) (fuel : nat) (s : session) :
  Session.create_output_filename E (command +:+ "-temp") ".txt" true s = Done temp s ->
  isabs E (dirname E temp) = true ->
  path_exists E (normpath E (dirname E temp)) = true ->
  open_error s temp = Some message ->
  files s !! temp = None ->
  exists s',
    get_command_output E fuel command s =
      Raised (IOError ("[Errno 2] No such file or directory: '" +:+ temp +:+ "'")) s' /\
    trace s' = trace s ++
               [DialogMessageBox
                  ("IO Error for:" +:+ NL +:+ temp +:+ NL +:+ NL +:+ message)
                  "IO Error" ICON_STOP] /\
    script s' = script s.
Proof.
  intros Htemp Habs Hex Hopen Hfile.
  unfold get_command_output. unfold bind at 1. rewrite Htemp.
  unfold bind at 1.
  rewrite (write_output_to_file_unopenable_state E s fuel _ _ _ Habs Hex Hopen).
  unfold bind at 1. unfold read_file, bind at 1, gets.
  destruct s; cbn in Hfile |- *. rewrite Hfile.
  eexists. split; [reflexivity|]. split; reflexivity.
Qed.

Lemma get_command_output_unopenable_file_witness :
  let E := mkEnvironment (fun _ => true) (fun a b => a +:+ "/" +:+ b) (fun p => p)
             (fun p => p) (fun p => p) (fun p => p) (fun p => p) (fun _ => "2017-05-01")
             (fun b => b) "/tmp/out" "%Y-%m-%d" false "/scripts" "/tmp/out/debugs"
             posix_dirname (fun d => String.eqb d "/tmp/out") (fun _ _ _ => IDNO) in
  let s := mkSession [Matched EmptyString 1] [] 0%nat true true (fun _ => 1) 0%nat
             (fun _ => Some "Permission denied") ∅ ∅ (Some "IOS") (Some "R1#")
             (Some "R1") (Some None) (Some None) true in
  exists s',
    get_command_output E 3 "show clock" s =
      Raised (IOError ("[Errno 2] No such file or directory: " +:+
                       "'/tmp/out/R1-show clock-temp-2017-05-01.txt'")) s' /\
    sent (trace s') = [].
Proof.
  intros E s.
  destruct (get_command_output_unopenable_file E "show clock"
              "/tmp/out/R1-show clock-temp-2017-05-01.txt" "Permission denied" 3 s)
    as (s' & Hrun & Htr & _).
  - vm_compute. reflexivity.
  - reflexivity.
  - reflexivity.
  - reflexivity.
  - reflexivity.
  - exists s'. split; [rewrite Hrun; reflexivity | rewrite Htr; reflexivity].
Defined.

(** Before a device was discovered there is no hostname to build the file
    name from: [get_command_output] raises [TypeError] at once, and the
    command is not sent. *)
Theorem get_command_output_without_hostname
    (E : environment) (command : string) (fuel : nat) (s : session) :
  hostname s = None ->
  get_command_output E fuel command s = Raised TypeError s.
Proof.
  intros Hh. unfold get_command_output, Session.create_output_filename.
  unfold bind, gets, or_raise, raise. rewrite Hh. reflexivity.
Qed.

Lemma get_command_output_without_hostname_witness :
  let E := mkEnvironment (fun _ => true) (fun a b => a +:+ "/" +:+ b) (fun p => p)
             (fun p => p) (fun p => p) (fun p => p) (fun p => p) (fun _ => "2017-05-01")
             (fun b => b) "/tmp/out" "%Y-%m-%d" false "/scripts" "/tmp/out/debugs"
             posix_dirname (fun d => String.eqb d "/tmp/out") (fun _ _ _ => IDNO) in
  get_command_output E 3 "show clock" (fresh [Matched EmptyString 1])
  = Raised TypeError (fresh [Matched EmptyString 1]).
Proof.
  intros E. apply get_command_output_without_hostname. reflexivity.
Defined.

End CommandOutput.

(* ===================================================================== *)
(** * Further properties: the configuration push of [DirectSession] *)
(* ===================================================================== *)

Section DirectConfigPush.
Import Py PyFacts DirectSessionMore.

(** [DirectSession.send_config_commands] writes the prompt, [configure
    terminal], the commands without the white space around them and
    [end], one per line, to the file that [create_output_filename] names
    for [CONFIG_RESULT]: the file name given by the caller is not used.
    It makes no call on a host, and the caller's list is left as it was,
    which the method of [CRTSession] does not do. *)
Theorem direct_send_config_commands_writes_commands
    (E : environment) (s : session) (command_list : loc) (commands : list string)
    (output_filename : option string) (name : string) :
  heap s !! command_list = Some commands ->
  Session.create_output_filename E "CONFIG_RESULT" ".txt" true s = Done name s ->
  open_error s name = None ->
  exists s',
    send_config_commands E command_list output_filename s = Done tt s' /\
    files s' !! name =
      Some (format (prompt s) +:+ "configure terminal" +:+ NL +:+
            command_lines commands +:+ "end" +:+ NL) /\
    heap s' = heap s /\ trace s' = trace s /\ script s' = script s.
Proof.
  intros Hheap Hname Hopen.
  unfold send_config_commands, list_items. unfold bind at 1. unfold bind at 1, gets.
  rewrite Hheap. unfold or_raise, ret at 1. unfold bind at 1. rewrite Hname.
  unfold bind at 1, gets. unfold bind at 1. unfold open. unfold bind at 1, gets.
  rewrite Hopen. destruct s; cbn.
  eexists. split; [reflexivity|]. cbn. rewrite !lookup_insert_eq. cbn.
  split; [|repeat split].
  rewrite ?str_app_nil_l, ?str_app_assoc, ?str_app_nil_l. reflexivity.
Qed.

Lemma direct_send_config_commands_writes_commands_witness :
  let E := mkEnvironment (fun _ => true) (fun a b => a +:+ "/" +:+ b) (fun p => p)
             (fun p => p) (fun p => p) (fun p => p) (fun p => p) (fun _ => "2017-05-01")
             (fun b => b) "/tmp/out" "%Y-%m-%d" false "/scripts" "/tmp/out/debugs"
             posix_dirname (fun d => String.eqb d "/tmp/out") (fun _ _ _ => IDNO) in
  let s := set_heap {[ 0%nat := [" hostname R2 "; "no shutdown"] ]}
             (set_prompt (Some "DebugHost#") (set_hostname (Some "DebugHost") (fresh []))) in
  exists s',
    send_config_commands E 0%nat (Some "mine.txt") s = Done tt s' /\
    files s' !! "/tmp/out/DebugHost-CONFIG_RESULT-2017-05-01.txt" =
      Some ("DebugHost#configure terminal" +:+ NL +:+ "hostname R2" +:+ NL +:+
            "no shutdown" +:+ NL +:+ "end" +:+ NL) /\
    files s' !! "mine.txt" = None /\
    heap s' !! 0%nat = Some [" hostname R2 "; "no shutdown"].
Proof.
  intros E s.
  destruct (direct_send_config_commands_writes_commands E s 0%nat
              [" hostname R2 "; "no shutdown"] (Some "mine.txt")
              "/tmp/out/DebugHost-CONFIG_RESULT-2017-05-01.txt")
    as (s' & Hrun & Hf & Hh & _).
  - reflexivity.
  - vm_compute. reflexivity.
  - reflexivity.
  - exists s'. split; [exact Hrun|]. split; [rewrite Hf; vm_compute; reflexivity|].
    split; [|rewrite Hh; reflexivity].
    revert Hrun. vm_compute. intros H. injection H as <-. reflexivity.
Defined.

End DirectConfigPush.

(* ===================================================================== *)
(** * Further properties: the connection *)
(* ===================================================================== *)

Section Connection.
Import Py PyFacts CRTConnect.

Ltac drun :=
  unfold connect, prompt_window, Dialog_Prompt, Session_Connect, GetLastErrorMessage_,
    WaitForStrings, WaitForString_ms, try_except, host_log, lift, draise, dret, dbind.

(** On a tab that is connected already, [connect] refuses with its
    [ConnectError]; no connection is attempted and nothing is sent.  The
    password is asked for all the same when none was given, since the
    dialog comes before the test. *)
Theorem connect_already_connected
    (fuel : nat) (host username : string) (password : option string) (d : desk) :
  status (tab_session d) (reads (tab_session d)) = 1 ->
  exists d',
    connect fuel host username password d =
      Fail (ConnectError "SecureCRT is already connected.") d' /\
    host_trace d' =
      host_trace d ++
      (if truthy password then []
       else [DialogPrompt ("Enter the password for " +:+ username +:+ "@" +:+ host +:+ ".")
               "Password" EmptyString true]) /\
    sent (trace (tab_session d')) = sent (trace (tab_session d)) /\
    connections d' = connections d.
Proof.
  intros Hc. destruct d as [s ty co le ht]. destruct s. cbn in Hc.
  drun. run.
  destruct password as [[|c p]|]; cbn; try destruct ty as [|t ty]; cbn; rewrite Hc; cbn;
    (eexists; split; [reflexivity|]); cbn; rewrite ?sent_app, ?List.app_nil_r;
    repeat split; reflexivity.
Qed.

Lemma connect_already_connected_witness :
  exists d',
    connect 5 "10.0.0.1" "admin" None
      (mkDesk (ready "IOS" "R1#" None None []) ["secret"] [] EmptyString []) =
      Fail (ConnectError "SecureCRT is already connected.") d' /\
    host_trace d' =
      [DialogPrompt "Enter the password for admin@10.0.0.1." "Password" EmptyString true] /\
    connections d' = [].
Proof.
  destruct (connect_already_connected 5 "10.0.0.1" "admin" None
              (mkDesk (ready "IOS" "R1#" None None []) ["secret"] [] EmptyString []))
    as (d' & Hrun & Htr & _ & Hco).
  - reflexivity.
  - exists d'. split; [exact Hrun|]. split; [exact Htr | exact Hco].
Defined.

(** When the connection fails with SSH2, it is tried again with SSH1, with
    the same user name, password and host; when that fails too, [connect]
    raises [ConnectError] with the last error message of the host, and
    nothing is sent on the tab. *)
Theorem connect_falls_back_to_SSH1_then_fails
    (fuel : nat) (host username pw error2 error1 : string)
    (later : list (option string)) (d : desk) :
  pw <> EmptyString ->
  status (tab_session d) (reads (tab_session d)) <> 1 ->
  connections d = Some error2 :: Some error1 :: later ->
  exists d',
    connect fuel host username (Some pw) d = Fail (ConnectError error1) d' /\
    host_trace d' =
      host_trace d ++
      [SessionConnect ("/SSH2 /ACCEPTHOSTKEYS /L " +:+ username +:+ " /PASSWORD " +:+ pw
                       +:+ " " +:+ host);
       GetLastErrorMessage;
       SessionConnect ("/SSH1 /ACCEPTHOSTKEYS /L " +:+ username +:+ " /PASSWORD " +:+ pw
                       +:+ " " +:+ host);
       GetLastErrorMessage] /\
    sent (trace (tab_session d')) = sent (trace (tab_session d)) /\
    connections d' = later.
Proof.
  intros Hpw Hc Hco. destruct d as [s ty co le ht]. destruct s. cbn in Hc, Hco. subst co.
  destruct pw as [|c pw]; [contradiction|].
  drun. run. cbn.
  destruct (Z.eqb_spec (status0 reads0) 1) as [E|_]; [contradiction|]. cbn.
  eexists. split; [reflexivity|]. cbn. rewrite sent_app, <- !List.app_assoc. cbn.
  rewrite List.app_nil_r. repeat split; reflexivity.
Qed.

Lemma connect_falls_back_to_SSH1_then_fails_witness :
  exists d',
    connect 5 "10.0.0.1" "admin" (Some "secret")
      (mkDesk (mkSession [] [] 0%nat false false (fun _ => 0) 0%nat (fun _ => None) ∅ ∅
                 None None None None None true)
         [] [Some "Connection refused"; Some "Protocol not supported"] EmptyString [])
    = Fail (ConnectError "Protocol not supported") d' /\
    host_trace d' =
      [SessionConnect "/SSH2 /ACCEPTHOSTKEYS /L admin /PASSWORD secret 10.0.0.1";
       GetLastErrorMessage;
       SessionConnect "/SSH1 /ACCEPTHOSTKEYS /L admin /PASSWORD secret 10.0.0.1";
       GetLastErrorMessage].
Proof.
  destruct (connect_falls_back_to_SSH1_then_fails 5 "10.0.0.1" "admin" "secret"
              "Connection refused" "Protocol not supported" []
              (mkDesk (mkSession [] [] 0%nat false false (fun _ => 0) 0%nat (fun _ => None)
                         ∅ ∅ None None None None None true)
                 [] [Some "Connection refused"; Some "Protocol not supported"]
                 EmptyString []))
    as (d' & Hrun & Htr & _).
  - discriminate.
  - cbn. discriminate.
  - reflexivity.
  - exists d'. split; [exact Hrun | exact Htr].
Defined.

(** The loop that waits for the echo of the test string, on a device that
    lets [k] waits pass and then echoes. *)
Lemma echo_loop_until_echo (w : string) (rest : list response) (k : nat) :
  forall (fuel : nat) (d : desk),
    script (tab_session d) = repeat TimedOut k ++ Matched w 1 :: rest ->
    (k < fuel)%nat ->
    exists d1,
      echo_loop fuel 0 d = Ok tt d1 /\
      script (tab_session d1) = rest /\
      trace (tab_session d1) =
        trace (tab_session d) ++ repeat (TabSend test_string) (S k) /\
      host_trace d1 =
        host_trace d ++ repeat (TabWaitForStringMs test_string 200) (S k) /\
      connections d1 = connections d.
Proof.
  induction k as [|k IH]; intros fuel d Hs Hfuel;
    (destruct fuel as [|fuel]; [lia|]);
    destruct d as [s ty co le ht]; destruct s; cbn in Hs; subst.
  - cbn [echo_loop Nat.eqb]. drun. run. cbn.
    destruct fuel; cbn; (eexists; split; [reflexivity|]); repeat split; reflexivity.
  - cbn [echo_loop Nat.eqb]. drun. run. cbn -[echo_loop].
    match goal with
    | |- context [echo_loop fuel 0 ?d0] =>
        destruct (IH fuel d0 eq_refl ltac:(lia)) as (d1 & Hrun & Hsc & Htr & Hht & Hco)
    end.
    exists d1. split; [exact Hrun|]. split; [exact Hsc|].
    cbn in Htr, Hht, Hco.
    split; [rewrite Htr, <- List.app_assoc; reflexivity|].
    split; [rewrite Hht, <- List.app_assoc; reflexivity | exact Hco].
Qed.

(** The same loop on a device that stays silent: it goes on for as long
    as it is let. *)
Lemma echo_loop_silent :
  forall (fuel : nat) (d : desk),
    script (tab_session d) = [] ->
    exists d1,
      echo_loop fuel 0 d = NoFuel d1 /\
      trace (tab_session d1) =
        trace (tab_session d) ++ repeat (TabSend test_string) fuel.
Proof.
  induction fuel as [|fuel IH]; intros d Hs;
    destruct d as [s ty co le ht]; destruct s; cbn in Hs; subst.
  - cbn. eexists. split; [reflexivity|]. cbn. rewrite List.app_nil_r. reflexivity.
  - cbn [echo_loop Nat.eqb]. drun. run. cbn -[echo_loop].
    match goal with
    | |- context [echo_loop fuel 0 ?d0] =>
        destruct (IH d0 eq_refl) as (d1 & Hrun & Htr)
    end.
    exists d1. split; [exact Hrun|]. cbn in Htr.
    rewrite Htr, <- List.app_assoc. reflexivity.
Qed.

Lemma sent_repeat_send (text : string) (n : nat) :
  sent (repeat (TabSend text) n) = repeat text n.
Proof. induction n as [|n IH]; [reflexivity|]. cbn. rewrite IH. reflexivity. Qed.

(** Once the connection is made, [connect] sends the test string and
    waits for its echo behind the prompt, 2 seconds the first time and
    0.2 seconds each time after; on a device that lets [k] of these waits
    pass before it echoes, the test string is sent [k + 1] times, and
    [connect] then goes on as [__start] does. *)
Theorem connect_sends_test_string_until_echo
    (fuel k : nat) (host username pw w : string) (rest : list response)
    (later : list (option string)) (d : desk) :
  pw <> EmptyString ->
  status (tab_session d) (reads (tab_session d)) <> 1 ->
  connections d = None :: later ->
  script (tab_session d) = repeat TimedOut k ++ Matched w 1 :: rest ->
  (k <= fuel)%nat ->
  exists d1,
    connect fuel host username (Some pw) d = lift CRTSession.__start d1 /\
    script (tab_session d1) = rest /\
    sent (trace (tab_session d1)) =
      sent (trace (tab_session d)) ++ repeat test_string (S k) /\
    host_trace d1 =
      host_trace d ++
      [SessionConnect ("/SSH2 /ACCEPTHOSTKEYS /L " +:+ username +:+ " /PASSWORD " +:+ pw
                       +:+ " " +:+ host);
       TabWaitForStrings ["# " +:+ test_string; "#" +:+ test_string; ">" +:+ test_string]
         2000] ++
      repeat (TabWaitForStringMs test_string 200) k.
Proof.
  intros Hpw Hc Hco Hs Hfuel. destruct d as [s ty co le ht]. destruct s.
  cbn in Hc, Hco, Hs. subst.
  destruct pw as [|c pw]; [contradiction|].
  unfold connect. set (start := lift CRTSession.__start). drun. run.
  cbn -[echo_loop start].
  destruct (Z.eqb_spec (status0 reads0) 1) as [E|_]; [contradiction|].
  cbn -[echo_loop start].
  destruct k as [|k]; cbn -[echo_loop start].
  - destruct fuel; cbn -[start];
      (eexists; split; [reflexivity|]); cbn; rewrite !sent_app; cbn;
      rewrite ?List.app_nil_r, <- ?List.app_assoc; repeat split; reflexivity.
  - match goal with
    | |- context [echo_loop fuel 0 ?d0] =>
        destruct (echo_loop_until_echo w rest k fuel d0 eq_refl ltac:(lia))
          as (d1 & Hrun & Hsc & Htr & Hht & _)
    end.
    rewrite Hrun. exists d1. split; [reflexivity|]. split; [exact Hsc|].
    cbn in Htr, Hht.
    split.
    + rewrite Htr, !sent_app. cbn [sent repeat]. rewrite ?sent_repeat_send. cbn.
      rewrite ?List.app_nil_r, <- ?List.app_assoc. reflexivity.
    + rewrite Hht, <- !List.app_assoc. reflexivity.
Qed.

Lemma connect_sends_test_string_until_echo_witness :
  exists d1,
    connect 5 "10.0.0.1" "admin" (Some "secret")
      (mkDesk (mkSession [TimedOut; TimedOut; Matched EmptyString 1] [] 0%nat false false
                 (fun _ => 0) 0%nat (fun _ => None) ∅ ∅ None None None None None true)
         [] [None] EmptyString [])
    = lift CRTSession.__start d1 /\
    sent (trace (tab_session d1)) = [test_string; test_string; test_string].
Proof.
  destruct (connect_sends_test_string_until_echo 5 2 "10.0.0.1" "admin" "secret"
              EmptyString [] []
              (mkDesk (mkSession [TimedOut; TimedOut; Matched EmptyString 1] [] 0%nat false
                         false (fun _ => 0) 0%nat (fun _ => None) ∅ ∅ None None None None
                         None true)
                 [] [None] EmptyString []))
    as (d1 & Hrun & _ & Hsent & _).
  - discriminate.
  - cbn. discriminate.
  - reflexivity.
  - reflexivity.
  - lia.
  - exists d1. split; [exact Hrun | exact Hsent].
Defined.

(** The wait for the echo has no bound on its rounds: on a device that
    never echoes, [connect] has not returned after any number of rounds,
    and has sent the test string once more than there were rounds. *)
Theorem connect_waits_forever_on_silent_device
    (fuel : nat) (host username pw : string) (later : list (option string)) (d : desk) :
  pw <> EmptyString ->
  status (tab_session d) (reads (tab_session d)) <> 1 ->
  connections d = None :: later ->
  script (tab_session d) = [] ->
  exists d1,
    connect fuel host username (Some pw) d = NoFuel d1 /\
    sent (trace (tab_session d1)) =
      sent (trace (tab_session d)) ++ repeat test_string (S fuel).
Proof.
  intros Hpw Hc Hco Hs. destruct d as [s ty co le ht]. destruct s.
  cbn in Hc, Hco, Hs. subst.
  destruct pw as [|c pw]; [contradiction|].
  unfold connect. drun. run. cbn -[echo_loop CRTSession.__start].
  destruct (Z.eqb_spec (status0 reads0) 1) as [E|_]; [contradiction|].
  cbn -[echo_loop CRTSession.__start].
  match goal with
  | |- context [echo_loop fuel 0 ?d0] =>
      destruct (echo_loop_silent fuel d0 eq_refl) as (d1 & Hrun & Htr)
  end.
  rewrite Hrun. exists d1. split; [reflexivity|]. cbn in Htr.
  rewrite Htr, !sent_app. cbn [sent repeat]. rewrite ?sent_repeat_send. cbn.
  rewrite ?List.app_nil_r, <- ?List.app_assoc. reflexivity.
Qed.

Lemma connect_waits_forever_on_silent_device_witness :
  exists d1,
    connect 7 "10.0.0.1" "admin" (Some "secret")
      (mkDesk (mkSession [] [] 0%nat false false (fun _ => 0) 0%nat (fun _ => None) ∅ ∅
                 None None None None None true)
         [] [None] EmptyString [])
    = NoFuel d1 /\
    length (sent (trace (tab_session d1))) = 8%nat.
Proof.
  destruct (connect_waits_forever_on_silent_device 7 "10.0.0.1" "admin" "secret" []
              (mkDesk (mkSession [] [] 0%nat false false (fun _ => 0) 0%nat (fun _ => None)
                         ∅ ∅ None None None None None true)
                 [] [None] EmptyString []))
    as (d1 & Hrun & Hsent).
  - discriminate.
  - cbn. discriminate.
  - reflexivity.
  - reflexivity.
  - exists d1. split; [exact Hrun|]. rewrite Hsent. reflexivity.
Defined.

End Connection.
